(** * The cluster-monitoring-operator client: reconciliation and readiness

    A shallow embedding of [pkg/client/client.go].  The remote API server is
    an abstract [Interface] over an abstract [World]; every call the client
    issues is recorded, with its answer, in a chronological [trace], so that
    statements about which calls are made, in which order and with which
    arguments, are statements about that trace. *)

From Stdlib Require Import String List ZArith Lia Bool.
Import ListNotations.
Local Open Scope Z_scope.
Local Open Scope string_scope.

Set Implicit Arguments.

(** ** Errors

    A Go [error] value is [option error]: [None] is [nil]. *)

(** [metav1.StatusReason], as far as the client and its tests of it go. *)
Inductive StatusReason :=
| StatusReasonUnknown
| StatusReasonNotFound
| StatusReasonAlreadyExists
| StatusReasonConflict
| StatusReasonForbidden
| StatusReasonInternalError.

Inductive error :=
| StatusError (reason : StatusReason) (message : string)
    (* apierrors.StatusError: an answer of the API server *)
| errorString (s : string)
    (* errors.New / fmt.Errorf, and errors of the transport *)
| withMessage (cause : error) (msg : string).
    (* github.com/pkg/errors: the result of Wrap on a non-nil error *)

(** [apierrors.ReasonForError]: only an API status carries a reason. *)
Definition ReasonForError (err : option error) : StatusReason :=
  match err with
  | Some (StatusError r _) => r
  | _ => StatusReasonUnknown
  end.

Definition StatusReason_eqb (a b : StatusReason) : bool :=
  match a, b with
  | StatusReasonUnknown, StatusReasonUnknown
  | StatusReasonNotFound, StatusReasonNotFound
  | StatusReasonAlreadyExists, StatusReasonAlreadyExists
  | StatusReasonConflict, StatusReasonConflict
  | StatusReasonForbidden, StatusReasonForbidden
  | StatusReasonInternalError, StatusReasonInternalError => true
  | _, _ => false
  end.

(** [apierrors.IsNotFound]. *)
Definition IsNotFound (err : option error) : bool :=
  StatusReason_eqb (ReasonForError err) StatusReasonNotFound.

(** [errors.Wrap]: nil stays nil. *)
Definition Wrap (err : option error) (message : string) : option error :=
  match err with
  | None => None
  | Some e => Some (withMessage e message)
  end.

(** The [Error()] method. *)
Fixpoint Error (e : error) : string :=
  match e with
  | StatusError _ m => m
  | errorString s => s
  | withMessage c m => m ++ ": " ++ Error c
  end.

(** [err != nil]. *)
Definition notNil (err : option error) : bool :=
  match err with Some _ => true | None => false end.

(** [wait.ErrWaitTimeout]. *)
Definition ErrWaitTimeout : error :=
  errorString "timed out waiting for the condition".

(** ** Durations ([time.Duration], nanoseconds) *)

Module time.
Definition Nanosecond : Z := 1.
Definition Second : Z := 1000000000.
Definition Minute : Z := 60 * Second.
End time.

Definition deploymentCreateTimeout : Z := 5 * time.Minute.

(** ** Objects

    Of each Go struct the fields that [client.go] reads or writes; fields
    keep their Go names, prefixed by the struct's name. *)

Record ObjectMeta := mkObjectMeta {
  Name : string;
  Namespace : string;
  ResourceVersion : string;
  Generation : Z
}.

Definition withResourceVersion (m : ObjectMeta) (rv : string) : ObjectMeta :=
  {| Name := Name m; Namespace := Namespace m;
     ResourceVersion := rv; Generation := Generation m |}.

(** Kinds of which the client reads the metadata only; the rest of the
    object is a body it passes on as it is. *)
Record Manifest := mkManifest {
  Manifest_ObjectMeta : ObjectMeta;
  Manifest_Body : string
}.

(** [v1.Service] *)
Record ServiceSpec := mkServiceSpec {
  ServiceSpec_Type : string;
  ServiceSpec_ClusterIP : string;
  ServiceSpec_Ports : string
}.

Record Service := mkService {
  Service_ObjectMeta : ObjectMeta;
  Service_Spec : ServiceSpec
}.

Definition ServiceTypeClusterIP : string := "ClusterIP".

(** [appsv1.Deployment] *)
Record DeploymentStatus := mkDeploymentStatus {
  DeploymentStatus_ObservedGeneration : Z;
  DeploymentStatus_Replicas : Z;
  DeploymentStatus_UpdatedReplicas : Z;
  DeploymentStatus_UnavailableReplicas : Z
}.

Record Deployment := mkDeployment {
  Deployment_ObjectMeta : ObjectMeta;
  Deployment_Spec : string;
  Deployment_Status : DeploymentStatus
}.

(** [appsv1.DaemonSet] *)
Record DaemonSetStatus := mkDaemonSetStatus {
  DaemonSetStatus_ObservedGeneration : Z;
  DaemonSetStatus_DesiredNumberScheduled : Z;
  DaemonSetStatus_UpdatedNumberScheduled : Z;
  DaemonSetStatus_NumberUnavailable : Z
}.

Record DaemonSet := mkDaemonSet {
  DaemonSet_ObjectMeta : ObjectMeta;
  DaemonSet_Spec : string;
  DaemonSet_Status : DaemonSetStatus
}.

(** [routev1.Route] *)
Record RouteIngressCondition := mkRouteIngressCondition {
  RouteIngressCondition_Type : string;
  RouteIngressCondition_Status : string
}.

Record RouteIngress := mkRouteIngress {
  RouteIngress_Conditions : list RouteIngressCondition
}.

Record Route := mkRoute {
  Route_ObjectMeta : ObjectMeta;
  Route_Spec_Host : string;
  Route_Status_Ingress : list RouteIngress
}.

(** [extensionsobj.CustomResourceDefinition] *)
Record CustomResourceDefinitionCondition := mkCRDCondition {
  Condition_Type : string;
  Condition_Status : string;
  Condition_Reason : string
}.

Record CustomResourceDefinition := mkCRD {
  CRD_ObjectMeta : ObjectMeta;
  CRD_Status_Conditions : list CustomResourceDefinitionCondition
}.

Definition Established : string := "Established".
Definition NamesAccepted : string := "NamesAccepted".
Definition ConditionTrue : string := "True".
Definition ConditionFalse : string := "False".

(** [monv1.Prometheus] and [monv1.Alertmanager]: [Spec.Replicas] is a
    pointer, [None] when the field is not set. *)
Record Prometheus := mkPrometheus {
  Prometheus_ObjectMeta : ObjectMeta;
  Prometheus_Spec_Replicas : option Z;
  Prometheus_Spec : string
}.

Record Alertmanager := mkAlertmanager {
  Alertmanager_ObjectMeta : ObjectMeta;
  Alertmanager_Spec_Replicas : option Z;
  Alertmanager_Spec : string
}.

(** [monv1.PrometheusStatus] and [monv1.AlertmanagerStatus], as the status
    computations of the prometheus-operator return them. *)
Record ReplicaStatus := mkReplicaStatus {
  UpdatedReplicas : Z;
  AvailableReplicas : Z
}.

(** [metav1.DeleteOptions] and [metav1.ListOptions] *)
Inductive DeletionPropagation :=
| DeletePropagationOrphan
| DeletePropagationBackground
| DeletePropagationForeground.

Record DeleteOptions := mkDeleteOptions {
  PropagationPolicy : option DeletionPropagation;
  OrphanDependents : option bool
}.

Record ListOptions := mkListOptions {
  LabelSelector : string
}.

(** ** Kinds *)

Inductive Kind :=
| KSecurityContextConstraints
| KRoute
| KPrometheus
| KPrometheusRule
| KAlertmanager
| KServiceMonitor
| KDeployment
| KDaemonSet
| KSecret
| KConfigMap
| KService
| KEndpoints
| KRoleBinding
| KRole
| KClusterRole
| KClusterRoleBinding
| KServiceAccount
| KIngress
| KCustomResourceDefinition
| KPod.

(** The Go type of the objects of a kind. *)
Definition objOf (k : Kind) : Type :=
  match k with
  | KRoute => Route
  | KPrometheus => Prometheus
  | KAlertmanager => Alertmanager
  | KDeployment => Deployment
  | KDaemonSet => DaemonSet
  | KService => Service
  | KCustomResourceDefinition => CustomResourceDefinition
  | _ => Manifest
  end.

(** [GetObjectMeta], by kind. *)
Definition metaOf (k : Kind) : objOf k -> ObjectMeta :=
  match k return objOf k -> ObjectMeta with
  | KRoute => Route_ObjectMeta
  | KPrometheus => Prometheus_ObjectMeta
  | KAlertmanager => Alertmanager_ObjectMeta
  | KDeployment => Deployment_ObjectMeta
  | KDaemonSet => DaemonSet_ObjectMeta
  | KService => Service_ObjectMeta
  | KCustomResourceDefinition => CRD_ObjectMeta
  | _ => Manifest_ObjectMeta
  end.

(** The accessors every object has ([metav1.Object]). *)
Class Object (T : Type) := { GetObjectMeta : T -> ObjectMeta }.

#[export] Instance Object_Manifest : Object Manifest :=
  {| GetObjectMeta := Manifest_ObjectMeta |}.
#[export] Instance Object_Service : Object Service :=
  {| GetObjectMeta := Service_ObjectMeta |}.
#[export] Instance Object_Deployment : Object Deployment :=
  {| GetObjectMeta := Deployment_ObjectMeta |}.
#[export] Instance Object_DaemonSet : Object DaemonSet :=
  {| GetObjectMeta := DaemonSet_ObjectMeta |}.
#[export] Instance Object_Route : Object Route :=
  {| GetObjectMeta := Route_ObjectMeta |}.
#[export] Instance Object_CRD : Object CustomResourceDefinition :=
  {| GetObjectMeta := CRD_ObjectMeta |}.
#[export] Instance Object_Prometheus : Object Prometheus :=
  {| GetObjectMeta := Prometheus_ObjectMeta |}.
#[export] Instance Object_Alertmanager : Object Alertmanager :=
  {| GetObjectMeta := Alertmanager_ObjectMeta |}.

Definition GetName {T} `{Object T} (o : T) : string := Name (GetObjectMeta o).
Definition GetNamespace {T} `{Object T} (o : T) : string :=
  Namespace (GetObjectMeta o).

(** [metav1.NamespaceNone], the namespace of cluster-scoped kinds. *)
Definition NamespaceNone : string := "".

(** ** The remote API and the calls made to it *)

(** One call, with what was passed and what came back. *)
Inductive Event :=
| EvGet (k : Kind) (ns name : string) (ret : objOf k) (err : option error)
| EvCreate (k : Kind) (ns : string) (obj ret : objOf k) (err : option error)
| EvUpdate (k : Kind) (ns : string) (obj ret : objOf k) (err : option error)
| EvDelete (k : Kind) (ns name : string) (opts : option DeleteOptions)
    (err : option error)
| EvList (k : Kind) (ns : string) (opts : ListOptions)
    (items : list (objOf k)) (err : option error)
| EvStatus (k : Kind) (ns name : string) (ret : ReplicaStatus)
    (err : option error).

Definition isGet (e : Event) : bool :=
  match e with EvGet _ _ _ _ _ => true | _ => false end.
Definition isCreate (e : Event) : bool :=
  match e with EvCreate _ _ _ _ _ => true | _ => false end.
Definition isUpdate (e : Event) : bool :=
  match e with EvUpdate _ _ _ _ _ => true | _ => false end.
Definition isDelete (e : Event) : bool :=
  match e with EvDelete _ _ _ _ _ => true | _ => false end.
Definition isList (e : Event) : bool :=
  match e with EvList _ _ _ _ _ => true | _ => false end.

Definition count (p : Event -> bool) (t : list Event) : nat :=
  length (filter p t).

(** The typed clientsets of [Client] ([kclient], [ossclient], [osrclient],
    [mclient], [eclient]) as one interface indexed by kind.  The server is
    free to answer anything and to change between two calls: every method
    takes the world and returns the next one. *)
Record Interface (World : Type) := mkInterface {
  doGet : forall k : Kind, string -> string -> World ->
          objOf k * option error * World;
  doCreate : forall k : Kind, string -> objOf k -> World ->
          objOf k * option error * World;
  doUpdate : forall k : Kind, string -> objOf k -> World ->
          objOf k * option error * World;
  doDelete : Kind -> string -> string -> option DeleteOptions -> World ->
          option error * World;
  doList : forall k : Kind, string -> ListOptions -> World ->
          list (objOf k) * option error * World;
  (* prometheusoperator.PrometheusStatus and alertmanager.AlertmanagerStatus:
     replica counts derived from the pods of the object *)
  doStatus : forall k : Kind, objOf k -> World ->
          ReplicaStatus * option error * World
}.

(** [monv1.CrdKind] and [monv1.CrdKinds], of the prometheus-operator. *)
Record CrdKind := mkCrdKind {
  CrdKind_Kind : string;
  CrdKind_Plural : string
}.

Record CrdKinds := mkCrdKinds {
  CrdKinds_Prometheus : CrdKind;
  CrdKinds_Alertmanager : CrdKind;
  CrdKinds_ServiceMonitor : CrdKind
}.

(** [Client], with its clientsets as one [Interface]. *)
Record Client (World : Type) := mkClient {
  namespace : string;
  appVersionName : string;
  clientset : Interface World
}.

(** ** The monad of the client's methods

    A method runs on the world and the trace of the calls made so far; it
    returns a value or panics (a nil pointer dereference). *)

Inductive Result (A : Type) :=
| Ok (a : A)
| Panic (msg : string).
Arguments Panic {A} msg.

Section WithWorld.

Variable World : Type.

Record State := mkState {
  world : World;
  trace : list Event
}.

Definition M (A : Type) : Type := State -> Result A * State.

Definition ret {A} (a : A) : M A := fun s => (Ok a, s).

Definition bind {A B} (m : M A) (f : A -> M B) : M B :=
  fun s =>
    match m s with
    | (Ok a, s') => f a s'
    | (Panic msg, s') => (Panic msg, s')
    end.

Definition panic {A} (msg : string) : M A := fun s => (Panic msg, s).

(** A method called on a world with no call made yet. *)
Definition run {A} (m : M A) (w : World) : Result A * State :=
  m {| world := w; trace := [] |}.

End WithWorld.

Arguments ret {World A} a.
Arguments bind {World A B} m f.
Arguments panic {World A} msg.
Arguments run {World A} m w.
Arguments mkState {World} world trace.
Arguments world {World} s.
Arguments trace {World} s.

Notation "x <- m ;; k" := (bind m (fun x => k))
  (at level 61, m at next level, right associativity).
Notation "' pat <- m ;; k" := (bind m (fun x => match x with pat => k end))
  (at level 61, pat pattern, m at next level, right associativity).

Section ClientMethods.

Variable World : Type.
Variable c : Client World.

(** Of the packages the client imports and this repository does not hold:
    the label selector of the pods of a Prometheus, the names of the kinds of
    the prometheus-operator and the constructor of their schemas. *)
Variable prometheusoperator_ListOptions : string -> ListOptions.
Variable monv1_DefaultCrdKinds : CrdKinds.
Variable monv1_Group : string.
Variable k8sutil_NewCustomResourceDefinition :
  CrdKind -> string -> CustomResourceDefinition.

Local Abbreviation M := (M World).

(** *** The calls: one remote call each, recorded with its answer *)

Definition Get (k : Kind) (ns name : string) : M (objOf k * option error) :=
  fun s =>
    let '(o, e, w) := doGet (clientset c) k ns name (world s) in
    (Ok (o, e), mkState w (trace s ++ [EvGet k ns name o e])%list).

Definition Create (k : Kind) (ns : string) (obj : objOf k)
  : M (objOf k * option error) :=
  fun s =>
    let '(o, e, w) := doCreate (clientset c) k ns obj (world s) in
    (Ok (o, e), mkState w (trace s ++ [EvCreate k ns obj o e])%list).

Definition Update (k : Kind) (ns : string) (obj : objOf k)
  : M (objOf k * option error) :=
  fun s =>
    let '(o, e, w) := doUpdate (clientset c) k ns obj (world s) in
    (Ok (o, e), mkState w (trace s ++ [EvUpdate k ns obj o e])%list).

Definition Delete (k : Kind) (ns name : string) (opts : option DeleteOptions)
  : M (option error) :=
  fun s =>
    let '(e, w) := doDelete (clientset c) k ns name opts (world s) in
    (Ok e, mkState w (trace s ++ [EvDelete k ns name opts e])%list).

Definition List_ (k : Kind) (ns : string) (opts : ListOptions)
  : M (list (objOf k) * option error) :=
  fun s =>
    let '(l, e, w) := doList (clientset c) k ns opts (world s) in
    (Ok (l, e), mkState w (trace s ++ [EvList k ns opts l e])%list).

Definition Status (k : Kind) (o : objOf k) : M (ReplicaStatus * option error) :=
  fun s =>
    let '(st, e, w) := doStatus (clientset c) k o (world s) in
    (Ok (st, e),
     mkState w (trace s ++
                [EvStatus k (Namespace (metaOf k o)) (Name (metaOf k o)) st e])%list).

(** *** [wait.Poll]

    The client imports [k8s.io/apimachinery/pkg/util/wait]; the package is
    not part of [pkg/client].  It is embedded from its own loop,

      for { _, open := <-c; ok, err := fn()
            if err != nil { return err }
            if ok { return nil }
            if !open { break } }
      return ErrWaitTimeout

    which is its documented contract: "Poll tries a condition func until it
    returns true, an error, or the timeout is reached.  Poll always waits
    the interval before the run of condition.  condition will always be
    invoked at least once."  The poller sends a tick on the channel [c]
    every [interval] and closes it at [timeout]: [ticks] counts the ticks
    still to come before the close, and the condition runs once more on the
    closed channel.  What happens in the world while the poll sleeps is in
    the answers of the server.

    A condition is a closure; [L] holds the variables of the enclosing
    function that it assigns ([unit] when it assigns none). *)

Definition ConditionFunc (L : Type) : Type := L -> M (bool * option error * L).

Fixpoint WaitFor {L} (ticks : nat) (fn : ConditionFunc L) (l : L)
  : M (option error * L) :=
  '(ok, err, l') <- fn l ;;
  if notNil err then ret (err, l')
  else if ok then ret (None, l')
  else match ticks with
       | O => ret (Some ErrWaitTimeout, l')
       | S n => WaitFor n fn l'
       end.

(** The ticks the poller delivers when no tick is dropped. *)
Definition poller (interval timeout : Z) : nat := Z.to_nat (timeout / interval).

Definition PollEnv {L} (interval timeout : Z) (condition : ConditionFunc L)
  (l : L) : M (option error * L) :=
  WaitFor (poller interval timeout) condition l.

(** A condition that assigns no variable of the enclosing function. *)
Definition closed (condition : M (bool * option error)) : ConditionFunc unit :=
  fun u => r <- condition ;; ret (r, u).

Definition Poll (interval timeout : Z) (condition : M (bool * option error))
  : M (option error) :=
  r <- PollEnv interval timeout (closed condition) tt ;;
  ret (fst r).

(** *** Schema establishment *)

(** The loop of [CRDReady] over the conditions of the schema read back:
    the first condition that decides returns. *)
Fixpoint CRDReady_conditions (name : string)
  (conds : list CustomResourceDefinitionCondition) (err : option error)
  : bool * option error :=
  match conds with
  | [] => (false, err)
  | cond :: rest =>
      if Condition_Type cond =? Established then
        if Condition_Status cond =? ConditionTrue then (true, err)
        else CRDReady_conditions name rest err
      else if Condition_Type cond =? NamesAccepted then
        if Condition_Status cond =? ConditionFalse then
          (false,
           Some (errorString ("CRD naming conflict (" ++ name ++ "): "
                              ++ Condition_Reason cond)))
        else CRDReady_conditions name rest err
      else CRDReady_conditions name rest err
  end.

Definition CRDReady (crd : CustomResourceDefinition)
  : M (bool * option error) :=
  '(crdEst, err) <- Get KCustomResourceDefinition NamespaceNone
                        (Name (CRD_ObjectMeta crd)) ;;
  if notNil err then ret (false, err)
  else ret (CRDReady_conditions (Name (CRD_ObjectMeta crd))
              (CRD_Status_Conditions crdEst) err).

Definition WaitForCRDReady (crd : CustomResourceDefinition)
  : M (option error) :=
  Poll (5 * time.Second) (5 * time.Minute) (CRDReady crd).

(** The result of the poll is dropped: the method returns nil. *)
Definition WaitForPrometheusOperatorCRDsReady : M (option error) :=
  _ <- Poll time.Second (time.Minute * 5)
    (err <- WaitForCRDReady
              (k8sutil_NewCustomResourceDefinition
                 (CrdKinds_Prometheus monv1_DefaultCrdKinds) monv1_Group) ;;
     if notNil err then ret (false, err) else
     err <- WaitForCRDReady
              (k8sutil_NewCustomResourceDefinition
                 (CrdKinds_Alertmanager monv1_DefaultCrdKinds) monv1_Group) ;;
     if notNil err then ret (false, err) else
     err <- WaitForCRDReady
              (k8sutil_NewCustomResourceDefinition
                 (CrdKinds_ServiceMonitor monv1_DefaultCrdKinds) monv1_Group) ;;
     if notNil err then ret (false, err) else
     '(_, err) <- List_ KPrometheus (namespace c) (mkListOptions "") ;;
     if notNil err then ret (false, err) else
     '(_, err) <- List_ KAlertmanager (namespace c) (mkListOptions "") ;;
     if notNil err then ret (false, err) else
     '(_, err) <- List_ KServiceMonitor (namespace c) (mkListOptions "") ;;
     if notNil err then ret (false, err) else
     ret (true, None)) ;;
  ret None.

(** *** Create or update, kind by kind *)

Definition CreateOrUpdateSecurityContextConstraints (s : Manifest)
  : M (option error) :=
  '(_, err) <- Get KSecurityContextConstraints NamespaceNone (GetName s) ;;
  if IsNotFound err then
    '(_, err) <- Create KSecurityContextConstraints NamespaceNone s ;;
    ret (Wrap err "creating SecurityContextConstraints object failed")
  else if notNil err then
    ret (Wrap err "retrieving SecurityContextConstraints object failed")
  else
    '(_, err) <- Update KSecurityContextConstraints NamespaceNone s ;;
    ret (Wrap err "updating SecurityContextConstraints object failed").

Definition CreateRouteIfNotExists (r : Route) : M (option error) :=
  '(_, err) <- Get KRoute (GetNamespace r) (GetName r) ;;
  if IsNotFound err then
    '(_, err) <- Create KRoute (GetNamespace r) r ;;
    ret (Wrap err "creating Route object failed")
  else ret None.

Definition CreateOrUpdatePrometheus (p : Prometheus) : M (option error) :=
  '(_, err) <- Get KPrometheus (GetNamespace p) (GetName p) ;;
  if IsNotFound err then
    '(_, err) <- Create KPrometheus (GetNamespace p) p ;;
    ret (Wrap err "creating Prometheus object failed")
  else if notNil err then
    ret (Wrap err "retrieving Prometheus object failed")
  else
    '(_, err) <- Update KPrometheus (GetNamespace p) p ;;
    ret (Wrap err "updating Prometheus object failed").

Definition CreateOrUpdatePrometheusRule (p : Manifest) : M (option error) :=
  '(_, err) <- Get KPrometheusRule (GetNamespace p) (GetName p) ;;
  if IsNotFound err then
    '(_, err) <- Create KPrometheusRule (GetNamespace p) p ;;
    ret (Wrap err "creating PrometheusRule object failed")
  else if notNil err then
    ret (Wrap err "retrieving PrometheusRule object failed")
  else
    '(_, err) <- Update KPrometheusRule (GetNamespace p) p ;;
    ret (Wrap err "updating PrometheusRule object failed").

Definition CreateOrUpdateAlertmanager (a : Alertmanager) : M (option error) :=
  '(_, err) <- Get KAlertmanager (GetNamespace a) (GetName a) ;;
  if IsNotFound err then
    '(_, err) <- Create KAlertmanager (GetNamespace a) a ;;
    ret (Wrap err "creating Alertmanager object failed")
  else if notNil err then
    ret (Wrap err "retrieving Alertmanager object failed")
  else
    '(_, err) <- Update KAlertmanager (GetNamespace a) a ;;
    ret (Wrap err "updating Alertmanager object failed").

(** *** Delete *)

Definition DeleteDeployment (d : Deployment) : M (option error) :=
  let p := DeletePropagationForeground in
  err <- Delete KDeployment (GetNamespace d) (GetName d)
           (Some (mkDeleteOptions (Some p) None)) ;;
  if IsNotFound err then ret None
  else ret err.

(** The condition of the poll of [DeletePrometheus]: the pods of the
    Prometheus are listed, and are gone when the list is empty. *)
Definition PrometheusPodsGone (p : Prometheus) : M (bool * option error) :=
  '(pods, err) <- List_ KPod (GetNamespace p)
                    (prometheusoperator_ListOptions (GetName p)) ;;
  if notNil err then
    ret (false, Wrap err "retrieving pods during polling failed")
  else ret (Nat.eqb (length pods) 0, None).

Definition DeletePrometheus (p : Prometheus) : M (option error) :=
  err <- Delete KPrometheus (GetNamespace p) (GetName p) None ;;
  if notNil err && negb (IsNotFound err) then
    ret (Wrap err "deleting Prometheus object failed")
  else
    err <- Poll (time.Second * 10) (time.Minute * 10) (PrometheusPodsGone p) ;;
    ret (Wrap err "waiting for Prometheus Pods to be gone failed").

Definition DeleteDaemonSet (d : DaemonSet) : M (option error) :=
  let orphanDependents := false in
  err <- Delete KDaemonSet (GetNamespace d) (GetName d)
           (Some (mkDeleteOptions None (Some orphanDependents))) ;;
  if IsNotFound err then ret None
  else ret err.

Definition DeleteServiceMonitor (namespace name : string) : M (option error) :=
  err <- Delete KServiceMonitor namespace name None ;;
  if notNil err && negb (IsNotFound err) then
    ret (Wrap err "deleting ServiceMonitor object failed")
  else ret None.

(** *** Waiting for the monitoring stack *)

Definition nilDereference : string :=
  "runtime error: invalid memory address or nil pointer dereference".

Definition WaitForPrometheus (p : Prometheus) : M (option error) :=
  Poll (time.Second * 10) (time.Minute * 5)
    ('(p', err) <- Get KPrometheus (GetNamespace p) (GetName p) ;;
     if notNil err then
       ret (false, Wrap err "retrieving Prometheus object failed")
     else
     '(status, err) <- Status KPrometheus p' ;;
     if notNil err then
       ret (false, Wrap err "retrieving Prometheus status failed")
     else
     match Prometheus_Spec_Replicas p' with
     | None => panic nilDereference
     | Some expectedReplicas =>
         if (UpdatedReplicas status =? expectedReplicas)%Z
            && (AvailableReplicas status >=? expectedReplicas)%Z
         then ret (true, None)
         else ret (false, None)
     end).

Definition WaitForAlertmanager (a : Alertmanager) : M (option error) :=
  Poll (time.Second * 10) (time.Minute * 5)
    ('(a', err) <- Get KAlertmanager (GetNamespace a) (GetName a) ;;
     if notNil err then
       ret (false, Wrap err "retrieving Alertmanager object failed")
     else
     '(status, err) <- Status KAlertmanager a' ;;
     if notNil err then
       ret (false, Wrap err "retrieving Alertmanager status failed")
     else
     match Alertmanager_Spec_Replicas a' with
     | None => panic nilDereference
     | Some expectedReplicas =>
         if (UpdatedReplicas status =? expectedReplicas)%Z
            && (AvailableReplicas status >=? expectedReplicas)%Z
         then ret (true, None)
         else ret (false, None)
     end).

(** *** Deployments *)

(** The test of the condition of [WaitForDeploymentRollout]. *)
Definition deploymentRolledOut (d : Deployment) : bool :=
  (Generation (Deployment_ObjectMeta d)
     <=? DeploymentStatus_ObservedGeneration (Deployment_Status d))%Z
  && (DeploymentStatus_UpdatedReplicas (Deployment_Status d)
        =? DeploymentStatus_Replicas (Deployment_Status d))%Z
  && (DeploymentStatus_UnavailableReplicas (Deployment_Status d) =? 0)%Z.

Definition DeploymentRolloutCondition (dep : Deployment)
  : M (bool * option error) :=
  '(d, err) <- Get KDeployment (GetNamespace dep) (GetName dep) ;;
  if notNil err then ret (false, err)
  else if deploymentRolledOut d then ret (true, None)
  else ret (false, None).

Definition WaitForDeploymentRollout (dep : Deployment) : M (option error) :=
  Poll time.Second deploymentCreateTimeout (DeploymentRolloutCondition dep).

Definition CreateDeployment (dep : Deployment) : M (option error) :=
  '(d, err) <- Create KDeployment (GetNamespace dep) dep ;;
  if notNil err then ret err
  else WaitForDeploymentRollout d.

Definition UpdateDeployment (dep : Deployment) : M (option error) :=
  '(updated, err) <- Update KDeployment (GetNamespace dep) dep ;;
  if notNil err then ret err
  else WaitForDeploymentRollout updated.

Definition CreateOrUpdateDeployment (dep : Deployment) : M (option error) :=
  '(_, err) <- Get KDeployment (GetNamespace dep) (GetName dep) ;;
  if IsNotFound err then
    err <- CreateDeployment dep ;;
    ret (Wrap err "creating deployment object failed")
  else if notNil err then
    ret (Wrap err "retrieving deployment object failed")
  else
    err <- UpdateDeployment dep ;;
    ret (Wrap err "updating deployment object failed").

(** *** Routes *)

(** The loop of the condition of [WaitForRouteReady] over the conditions of
    the first ingress: it returns true at the first admitted one. *)
Definition routeAdmitted (conds : list RouteIngressCondition) : bool :=
  existsb (fun c => (RouteIngressCondition_Type c =? "Admitted")
                    && (RouteIngressCondition_Status c =? "True")) conds.

(** The condition assigns [host], a variable of [WaitForRouteReady]. *)
Definition RouteReadyCondition (r : Route) : ConditionFunc string :=
  fun host =>
    '(newRoute, err) <- Get KRoute (GetNamespace r) (GetName r) ;;
    if notNil err then ret (false, err, host)
    else match Route_Status_Ingress newRoute with
         | [] => ret (false, None, host)
         | ingress0 :: _ =>
             if routeAdmitted (RouteIngress_Conditions ingress0)
             then ret (true, None, Route_Spec_Host newRoute)
             else ret (false, None, host)
         end.

Definition WaitForRouteReady (r : Route) : M (string * option error) :=
  let host := "" in
  '(err, host) <- PollEnv time.Second deploymentCreateTimeout
                    (RouteReadyCondition r) host ;;
  ret (host, err).

(** *** Daemon sets *)

Definition daemonSetRolledOut (d : DaemonSet) : bool :=
  (Generation (DaemonSet_ObjectMeta d)
     <=? DaemonSetStatus_ObservedGeneration (DaemonSet_Status d))%Z
  && (DaemonSetStatus_UpdatedNumberScheduled (DaemonSet_Status d)
        =? DaemonSetStatus_DesiredNumberScheduled (DaemonSet_Status d))%Z
  && (DaemonSetStatus_NumberUnavailable (DaemonSet_Status d) =? 0)%Z.

Definition DaemonSetRolloutCondition (ds : DaemonSet)
  : M (bool * option error) :=
  '(d, err) <- Get KDaemonSet (GetNamespace ds) (GetName ds) ;;
  if notNil err then ret (false, err)
  else if daemonSetRolledOut d then ret (true, None)
  else ret (false, None).

Definition WaitForDaemonSetRollout (ds : DaemonSet) : M (option error) :=
  Poll time.Second deploymentCreateTimeout (DaemonSetRolloutCondition ds).

Definition CreateDaemonSet (ds : DaemonSet) : M (option error) :=
  '(d, err) <- Create KDaemonSet (GetNamespace ds) ds ;;
  if notNil err then ret err
  else WaitForDaemonSetRollout d.

Definition UpdateDaemonSet (ds : DaemonSet) : M (option error) :=
  '(updated, err) <- Update KDaemonSet (GetNamespace ds) ds ;;
  if notNil err then ret err
  else WaitForDaemonSetRollout updated.

Definition CreateOrUpdateDaemonSet (ds : DaemonSet) : M (option error) :=
  '(_, err) <- Get KDaemonSet (GetNamespace ds) (GetName ds) ;;
  if IsNotFound err then
    err <- CreateDaemonSet ds ;;
    ret (Wrap err "creating DaemonSet object failed")
  else if notNil err then
    ret (Wrap err "retrieving DaemonSet object failed")
  else
    err <- UpdateDaemonSet ds ;;
    ret (Wrap err "updating DaemonSet object failed").

(** *** Secrets, config maps, services, endpoints *)

Definition CreateOrUpdateSecret (s : Manifest) : M (option error) :=
  '(_, err) <- Get KSecret (GetNamespace s) (GetName s) ;;
  if IsNotFound err then
    '(_, err) <- Create KSecret (GetNamespace s) s ;;
    ret (Wrap err "creating Secret object failed")
  else if notNil err then
    ret (Wrap err "retrieving Secret object failed")
  else
    '(_, err) <- Update KSecret (GetNamespace s) s ;;
    ret (Wrap err "updating Secret object failed").

Definition CreateIfNotExistSecret (s : Manifest) : M (option error) :=
  '(_, err) <- Get KSecret (GetNamespace s) (GetName s) ;;
  if IsNotFound err then
    '(_, err) <- Create KSecret (GetNamespace s) s ;;
    ret (Wrap err "creating Secret object failed")
  else ret (Wrap err "retrieving Secret object failed").

Definition CreateOrUpdateConfigMap (cm : Manifest) : M (option error) :=
  '(_, err) <- Get KConfigMap (GetNamespace cm) (GetName cm) ;;
  if IsNotFound err then
    '(_, err) <- Create KConfigMap (GetNamespace cm) cm ;;
    ret (Wrap err "creating ConfigMap object failed")
  else if notNil err then
    ret (Wrap err "retrieving ConfigMap object failed")
  else
    '(_, err) <- Update KConfigMap (GetNamespace cm) cm ;;
    ret (Wrap err "updating ConfigMap object failed").

(** The loop over [cml.Items]: the first error returns. *)
Fixpoint CreateOrUpdateConfigMapList (cml : list Manifest) : M (option error) :=
  match cml with
  | [] => ret None
  | cm :: rest =>
      err <- CreateOrUpdateConfigMap cm ;;
      if notNil err then ret err
      else CreateOrUpdateConfigMapList rest
  end.

Definition CreateIfNotExistConfigMap (cm : Manifest) : M (option error) :=
  '(_, err) <- Get KConfigMap (GetNamespace cm) (GetName cm) ;;
  if IsNotFound err then
    '(_, err) <- Create KConfigMap (GetNamespace cm) cm ;;
    ret (Wrap err "creating ConfigMap object failed")
  else ret (Wrap err "retrieving ConfigMap object failed").

(** The assignments to [svc.ResourceVersion] and [svc.Spec.ClusterIP]. *)
Definition Service_setResourceVersion (svc : Service) (rv : string) : Service :=
  mkService (withResourceVersion (Service_ObjectMeta svc) rv) (Service_Spec svc).

Definition Service_setClusterIP (svc : Service) (ip : string) : Service :=
  mkService (Service_ObjectMeta svc)
    (mkServiceSpec (ServiceSpec_Type (Service_Spec svc)) ip
       (ServiceSpec_Ports (Service_Spec svc))).

Definition Manifest_setResourceVersion (m : Manifest) (rv : string) : Manifest :=
  mkManifest (withResourceVersion (Manifest_ObjectMeta m) rv) (Manifest_Body m).

Definition CreateOrUpdateService (svc : Service) : M (option error) :=
  '(s, err) <- Get KService (GetNamespace svc) (GetName svc) ;;
  if IsNotFound err then
    '(_, err) <- Create KService (GetNamespace svc) svc ;;
    ret (Wrap err "creating Service object failed")
  else if notNil err then
    ret (Wrap err "retrieving Service object failed")
  else
    let svc' :=
      Service_setResourceVersion svc (ResourceVersion (Service_ObjectMeta s)) in
    let svc'' :=
      if ServiceSpec_Type (Service_Spec svc') =? ServiceTypeClusterIP
      then Service_setClusterIP svc' (ServiceSpec_ClusterIP (Service_Spec s))
      else svc' in
    '(_, err) <- Update KService (GetNamespace svc) svc'' ;;
    ret (Wrap err "updating Service object failed").

Definition CreateOrUpdateEndpoints (endpoints : Manifest) : M (option error) :=
  '(e, err) <- Get KEndpoints (GetNamespace endpoints) (GetName endpoints) ;;
  if IsNotFound err then
    '(_, err) <- Create KEndpoints (GetNamespace endpoints) endpoints ;;
    ret (Wrap err "creating Endpoints object failed")
  else if notNil err then
    ret (Wrap err "retrieving Endpoints object failed")
  else
    let endpoints' :=
      Manifest_setResourceVersion endpoints
        (ResourceVersion (Manifest_ObjectMeta e)) in
    '(_, err) <- Update KEndpoints (GetNamespace endpoints) endpoints' ;;
    ret (Wrap err "updating Endpoints object failed").

(** *** Roles, bindings, accounts, service monitors, ingresses *)

Definition CreateOrUpdateRoleBinding (rb : Manifest) : M (option error) :=
  '(_, err) <- Get KRoleBinding (GetNamespace rb) (GetName rb) ;;
  if IsNotFound err then
    '(_, err) <- Create KRoleBinding (GetNamespace rb) rb ;;
    ret (Wrap err "creating RoleBinding object failed")
  else if notNil err then
    ret (Wrap err "retrieving RoleBinding object failed")
  else
    '(_, err) <- Update KRoleBinding (GetNamespace rb) rb ;;
    ret (Wrap err "updating RoleBinding object failed").

Definition CreateOrUpdateRole (r : Manifest) : M (option error) :=
  '(_, err) <- Get KRole (GetNamespace r) (GetName r) ;;
  if IsNotFound err then
    '(_, err) <- Create KRole (GetNamespace r) r ;;
    ret (Wrap err "creating Role object failed")
  else if notNil err then
    ret (Wrap err "retrieving Role object failed")
  else
    '(_, err) <- Update KRole (GetNamespace r) r ;;
    ret (Wrap err "updating Role object failed").

Definition CreateOrUpdateClusterRole (cr : Manifest) : M (option error) :=
  '(_, err) <- Get KClusterRole NamespaceNone (GetName cr) ;;
  if IsNotFound err then
    '(_, err) <- Create KClusterRole NamespaceNone cr ;;
    ret (Wrap err "creating ClusterRole object failed")
  else if notNil err then
    ret (Wrap err "retrieving ClusterRole object failed")
  else
    '(_, err) <- Update KClusterRole NamespaceNone cr ;;
    ret (Wrap err "updating ClusterRole object failed").

Definition CreateOrUpdateClusterRoleBinding (crb : Manifest) : M (option error) :=
  '(_, err) <- Get KClusterRoleBinding NamespaceNone (GetName crb) ;;
  if IsNotFound err then
    '(_, err) <- Create KClusterRoleBinding NamespaceNone crb ;;
    ret (Wrap err "creating ClusterRoleBinding object failed")
  else if notNil err then
    ret (Wrap err "retrieving ClusterRoleBinding object failed")
  else
    '(_, err) <- Update KClusterRoleBinding NamespaceNone crb ;;
    ret (Wrap err "updating ClusterRoleBinding object failed").

(** No update: the method returns after the read, and what follows the
    return in the source is commented out. *)
Definition CreateOrUpdateServiceAccount (sa : Manifest) : M (option error) :=
  '(_, err) <- Get KServiceAccount (GetNamespace sa) (GetName sa) ;;
  if IsNotFound err then
    '(_, err) <- Create KServiceAccount (GetNamespace sa) sa ;;
    ret (Wrap err "creating ServiceAccount object failed")
  else ret (Wrap err "retrieving ServiceAccount object failed").

Definition CreateOrUpdateServiceMonitor (sm : Manifest) : M (option error) :=
  '(_, err) <- Get KServiceMonitor (GetNamespace sm) (GetName sm) ;;
  if IsNotFound err then
    '(_, err) <- Create KServiceMonitor (GetNamespace sm) sm ;;
    ret (Wrap err "creating ServiceMonitor object failed")
  else if notNil err then
    ret (Wrap err "retrieving ServiceMonitor object failed")
  else
    '(_, err) <- Update KServiceMonitor (GetNamespace sm) sm ;;
    ret (Wrap err "updating ServiceMonitor object failed").

Definition CreateOrUpdateIngress (ing : Manifest) : M (option error) :=
  '(_, err) <- Get KIngress (GetNamespace ing) (GetName ing) ;;
  if IsNotFound err then
    '(_, err) <- Create KIngress (GetNamespace ing) ing ;;
    ret (Wrap err "creating Ingress object failed")
  else if notNil err then
    ret (Wrap err "retrieving Ingress object failed")
  else
    '(_, err) <- Update KIngress (GetNamespace ing) ing ;;
    ret (Wrap err "creating Ingress object failed").

End ClientMethods.

(** ** The reconcile operation of each kind

    [CreateOrUpdate k] is the method of [Client] that reconciles kind [k], if
    it has one; routes have [CreateRouteIfNotExists] only, schemas and pods
    are never written. *)

Definition CreateOrUpdate {World} (c : Client World) (k : Kind)
  : option (objOf k -> M World (option error)) :=
  match k return option (objOf k -> M World (option error)) with
  | KSecurityContextConstraints =>
      Some (CreateOrUpdateSecurityContextConstraints c)
  | KPrometheus => Some (CreateOrUpdatePrometheus c)
  | KPrometheusRule => Some (CreateOrUpdatePrometheusRule c)
  | KAlertmanager => Some (CreateOrUpdateAlertmanager c)
  | KServiceMonitor => Some (CreateOrUpdateServiceMonitor c)
  | KDeployment => Some (CreateOrUpdateDeployment c)
  | KDaemonSet => Some (CreateOrUpdateDaemonSet c)
  | KSecret => Some (CreateOrUpdateSecret c)
  | KConfigMap => Some (CreateOrUpdateConfigMap c)
  | KService => Some (CreateOrUpdateService c)
  | KEndpoints => Some (CreateOrUpdateEndpoints c)
  | KRoleBinding => Some (CreateOrUpdateRoleBinding c)
  | KRole => Some (CreateOrUpdateRole c)
  | KClusterRole => Some (CreateOrUpdateClusterRole c)
  | KClusterRoleBinding => Some (CreateOrUpdateClusterRoleBinding c)
  | KServiceAccount => Some (CreateOrUpdateServiceAccount c)
  | KIngress => Some (CreateOrUpdateIngress c)
  | KRoute | KCustomResourceDefinition | KPod => None
  end.

(** The kinds whose reconcile operation waits for the rollout. *)
Definition waitsForRollout (k : Kind) : bool :=
  match k with KDeployment | KDaemonSet => true | _ => false end.

(** The kinds whose reconcile operation assigns the version read back. *)
Definition carriesResourceVersion (k : Kind) : bool :=
  match k with KService | KEndpoints => true | _ => false end.

(** The namespace under which the reconcile operation of a kind addresses
    an object: none for the cluster-scoped kinds. *)
Definition namespaceOf (k : Kind) (o : objOf k) : string :=
  match k with
  | KSecurityContextConstraints | KClusterRole | KClusterRoleBinding =>
      NamespaceNone
  | _ => Namespace (metaOf k o)
  end.

(** ** Ticks of a poll that keep it going

    [Pending fn n a b]: from the closure variables and state [a], [n]
    evaluations in a row of the condition say false with no error, and lead
    to [b]. *)

Inductive Pending {World L} (fn : L -> M World (bool * option error * L))
  : nat -> L * State World -> L * State World -> Prop :=
| Pending_O : forall a, Pending fn 0 a a
| Pending_S : forall n l s l1 s1 b,
    fn l s = (Ok (false, None, l1), s1) ->
    Pending fn n (l1, s1) b ->
    Pending fn (S n) (l, s) b.

(** How a poll that returns has ended: on the last evaluation of its
    condition, after ticks that all said false with no error. *)
Inductive Ended (n k : nat) : bool -> option error -> option error -> Prop :=
| Ended_error : forall ok e, Ended n k ok (Some e) (Some e)
| Ended_ready : Ended n k true None None
| Ended_timeout : k = n -> Ended n k false None (Some ErrWaitTimeout).

(** [Pending] for a condition that assigns no variable. *)
Definition Ticks {World} (cond : M World (bool * option error)) (n : nat)
  (s s' : State World) : Prop :=
  Pending (closed cond) n (tt, s) (tt, s').

(** A condition of a schema on which the loop of [CRDReady] returns. *)
Definition decides (cond : CustomResourceDefinitionCondition) : bool :=
  ((Condition_Type cond =? Established)
   && (Condition_Status cond =? ConditionTrue))
  || ((Condition_Type cond =? NamesAccepted)
      && (Condition_Status cond =? ConditionFalse)).

(** An ingress of a route that has a condition of type Admitted with status
    True. *)
Definition admittedIngress (ing : RouteIngress) : Prop :=
  exists cnd, In cnd (RouteIngress_Conditions ing)
              /\ RouteIngressCondition_Type cnd = "Admitted"
              /\ RouteIngressCondition_Status cnd = "True".

(** A read of the rollout poll of a deployment, or of a daemon set, that
    keeps the poll going: answered without error, by an object not yet
    rolled out. *)
Definition pendingDeploymentRead (dep : Deployment) (ev : Event) : Prop :=
  exists d, ev = EvGet KDeployment (GetNamespace dep) (GetName dep) d None
            /\ deploymentRolledOut d = false.

Definition pendingDaemonSetRead (ds : DaemonSet) (ev : Event) : Prop :=
  exists d, ev = EvGet KDaemonSet (GetNamespace ds) (GetName ds) d None
            /\ daemonSetRolledOut d = false.


(** A method that returns: on no state does it panic. *)
Definition returns {World A} (m : M World A) : Prop :=
  forall s, exists a s', m s = (Ok a, s').

(** ** What the reconcile operations say and send

    The name under which the messages of the client speak of a kind. *)
Definition kindName (k : Kind) : string :=
  match k with
  | KSecurityContextConstraints => "SecurityContextConstraints"
  | KRoute => "Route"
  | KPrometheus => "Prometheus"
  | KPrometheusRule => "PrometheusRule"
  | KAlertmanager => "Alertmanager"
  | KServiceMonitor => "ServiceMonitor"
  | KDeployment => "deployment"
  | KDaemonSet => "DaemonSet"
  | KSecret => "Secret"
  | KConfigMap => "ConfigMap"
  | KService => "Service"
  | KEndpoints => "Endpoints"
  | KRoleBinding => "RoleBinding"
  | KRole => "Role"
  | KClusterRole => "ClusterRole"
  | KClusterRoleBinding => "ClusterRoleBinding"
  | KServiceAccount => "ServiceAccount"
  | KIngress => "Ingress"
  | KCustomResourceDefinition => "CustomResourceDefinition"
  | KPod => "Pod"
  end.

(** The operation the message of a failed update names: for an ingress the
    source says creating. *)
Definition updateVerb (k : Kind) : string :=
  match k with KIngress => "creating" | _ => "updating" end.

(** The object a reconcile operation sends to Update, from the object read
    and the object declared. *)
Definition sentOnUpdate (k : Kind) : objOf k -> objOf k -> objOf k :=
  match k return objOf k -> objOf k -> objOf k with
  | KService =>
      fun obs svc =>
        let svc' :=
          Service_setResourceVersion svc
            (ResourceVersion (Service_ObjectMeta obs)) in
        if ServiceSpec_Type (Service_Spec svc') =? ServiceTypeClusterIP
        then Service_setClusterIP svc' (ServiceSpec_ClusterIP (Service_Spec obs))
        else svc'
  | KEndpoints =>
      fun obs endpoints =>
        Manifest_setResourceVersion endpoints
          (ResourceVersion (Manifest_ObjectMeta obs))
  | _ => fun _ desired => desired
  end.

(** The calls that change nothing on the server. *)
Definition isRead (e : Event) : bool :=
  match e with
  | EvGet _ _ _ _ _ | EvList _ _ _ _ _ | EvStatus _ _ _ _ _ => true
  | _ => false
  end.

(** The config maps of a list reconciled one after the other, each without
    error, from one state to another. *)
Inductive AllReconciled {World} (c : Client World)
  : list Manifest -> State World -> State World -> Prop :=
| AllReconciled_nil : forall s, AllReconciled c [] s s
| AllReconciled_cons : forall cm rest s s1 s2,
    CreateOrUpdateConfigMap c cm s = (Ok None, s1) ->
    AllReconciled c rest s1 s2 ->
    AllReconciled c (cm :: rest) s s2.

(** The conditions of the polls of [WaitForPrometheus] and
    [WaitForAlertmanager], by name. *)
Definition PrometheusReadyCondition {World} (c : Client World)
  (p : Prometheus) : M World (bool * option error) :=
  '(p', err) <- Get c KPrometheus (GetNamespace p) (GetName p) ;;
  if notNil err then
    ret (false, Wrap err "retrieving Prometheus object failed")
  else
  '(status, err) <- Status c KPrometheus p' ;;
  if notNil err then
    ret (false, Wrap err "retrieving Prometheus status failed")
  else
  match Prometheus_Spec_Replicas p' with
  | None => panic nilDereference
  | Some expectedReplicas =>
      if (UpdatedReplicas status =? expectedReplicas)%Z
         && (AvailableReplicas status >=? expectedReplicas)%Z
      then ret (true, None)
      else ret (false, None)
  end.

Definition AlertmanagerReadyCondition {World} (c : Client World)
  (a : Alertmanager) : M World (bool * option error) :=
  '(a', err) <- Get c KAlertmanager (GetNamespace a) (GetName a) ;;
  if notNil err then
    ret (false, Wrap err "retrieving Alertmanager object failed")
  else
  '(status, err) <- Status c KAlertmanager a' ;;
  if notNil err then
    ret (false, Wrap err "retrieving Alertmanager status failed")
  else
  match Alertmanager_Spec_Replicas a' with
  | None => panic nilDereference
  | Some expectedReplicas =>
      if (UpdatedReplicas status =? expectedReplicas)%Z
         && (AvailableReplicas status >=? expectedReplicas)%Z
      then ret (true, None)
      else ret (false, None)
  end.

(** A method that only reads: whatever it returns, the calls it adds to the
    trace are all reads. *)
Definition readsOnly {World A} (m : M World A) : Prop :=
  forall s, exists evs,
    trace (snd (m s)) = (trace s ++ evs)%list /\ forallb isRead evs = true.

(** A condition that makes one call each time it is evaluated. *)
Definition oneCall {World L} (fn : L -> M World (bool * option error * L))
  : Prop :=
  forall l s, exists ev, trace (snd (fn l s)) = (trace s ++ [ev])%list.

(** A condition of a schema that is Established with status True, and one
    that is NamesAccepted with status False. *)
Definition isEstablished (cond : CustomResourceDefinitionCondition) : Prop :=
  Condition_Type cond = Established /\ Condition_Status cond = ConditionTrue.

Definition isNamesConflict (cond : CustomResourceDefinitionCondition) : Prop :=
  Condition_Type cond = NamesAccepted /\ Condition_Status cond = ConditionFalse.

(** * The image tags of the command line ([main.go])

    ** [strings.Split] and [strings.Join]

    [strings.Split] at a separator of one byte, which is how [Set] calls it
    (at "," and at "="): the substrings between the separators, one more
    than there are separators, so [[""]] for the empty string. *)

Fixpoint Split (s : string) (sep : Ascii.ascii) : list string :=
  match s with
  | EmptyString => [EmptyString]
  | String ch rest =>
      if Ascii.eqb ch sep then EmptyString :: Split rest sep
      else match Split rest sep with
           | first :: others => String ch first :: others
           | [] => [String ch EmptyString]
           end
  end.

Fixpoint Join (elems : list string) (sep : string) : string :=
  match elems with
  | [] => EmptyString
  | [x] => x
  | x :: rest => x ++ sep ++ Join rest sep
  end.

(** A string in which a byte occurs. *)
Fixpoint hasByte (b : Ascii.ascii) (s : string) : bool :=
  match s with
  | EmptyString => false
  | String ch rest => Ascii.eqb ch b || hasByte b rest
  end.

(** ** Go maps from strings to strings

    A map that is not nil is the list of its entries, one for each key;
    ranging over it meets them in an order the language leaves open, here
    the order of the list.  [None] is the nil map: it reads as empty and
    panics when assigned to. *)

Definition entries : Type := list (string * string).

Fixpoint lookup (es : entries) (k : string) : option string :=
  match es with
  | [] => None
  | (k', v) :: rest => if k' =? k then Some v else lookup rest k
  end.

(** [m[k] = v] *)
Fixpoint put (es : entries) (kv : string * string) : entries :=
  match es with
  | [] => [kv]
  | (k', v') :: rest =>
      if k' =? fst kv then (k', snd kv) :: rest
      else (k', v') :: put rest kv
  end.

Definition tags : Type := option entries.

Definition nilMapAssignment : string :=
  "assignment to entry in nil map".

(** ** The methods of [tags] *)

(** The error of [Set]: its format has a verb and no operand, which
    [fmt.Errorf] prints as missing. *)
Definition malformedPair : error :=
  errorString
    ("Pair %!v(MISSING) is malformed. Key value pairs must be in the form of "
     ++ String (Ascii.ascii_of_nat 34)
          ("key=value"
           ++ String (Ascii.ascii_of_nat 34)
                ". Multiple pairs must be comma separated.")).

Definition equalsSign : Ascii.ascii := Ascii.ascii_of_nat 61.
Definition comma : Ascii.ascii := Ascii.ascii_of_nat 44.

(** The loop of [Set] over the pairs: the map as it is left, and nil, the
    error, or the panic of an assignment to the nil map. *)
Fixpoint tags_Set_pairs (m : tags) (pairs : list string)
  : Result (option error) * tags :=
  match pairs with
  | [] => (Ok None, m)
  | pair_ :: rest =>
      match Split pair_ equalsSign with
      | [imageName; imageTag] =>
          match m with
          | None => (Panic nilMapAssignment, m)
          | Some es => tags_Set_pairs (Some (put es (imageName, imageTag))) rest
          end
      | _ => (Ok (Some malformedPair), m)
      end
  end.

Definition tags_Set (t : tags) (value : string)
  : Result (option error) * tags :=
  tags_Set_pairs t (Split value comma).

Definition tags_asSlice (t : tags) : list string :=
  match t with
  | None => []
  | Some es => map (fun '(name, tag) => name ++ "=" ++ tag) es
  end.

Definition tags_String (t : tags) : string :=
  Join (tags_asSlice t) ",".

(** [make] gives a map that is not nil, also for the nil map. *)
Definition tags_asMap (t : tags) : tags :=
  match t with
  | None => Some []
  | Some es => Some (fold_left put es [])
  end.

Definition tags_Type (t : tags) : string := "map[string]string".

(** What a pair reads as: a name and a tag when it splits in two at "=". *)
Definition parsePair (pair_ : string) : option (string * string) :=
  match Split pair_ equalsSign with
  | [imageName; imageTag] => Some (imageName, imageTag)
  | _ => None
  end.

(** The tag of the last pair of a list that names [k]. *)
Fixpoint lookupLast (ps : entries) (k : string) : option string :=
  match ps with
  | [] => None
  | (k', v) :: rest =>
      match lookupLast rest k with
      | Some v' => Some v'
      | None => if k' =? k then Some v else None
      end
  end.

(** A name or a tag that has neither "," nor "=" in it. *)
Definition clean (s : string) : bool :=
  negb (hasByte comma s) && negb (hasByte equalsSign s).

(** ** A scripted API server

    The world is the list of the answers still to be given; each call takes
    the next one.  An answer of the wrong shape, or none left, is an error
    of the transport. *)

Module Mock.

Definition Kind_eq_dec (a b : Kind) : {a = b} + {a <> b}.
Proof. decide equality. Defined.

Definition meta0 : ObjectMeta := mkObjectMeta "" "" "" 0.

(** The zero value of the type of a kind. *)
Definition zero (k : Kind) : objOf k :=
  match k return objOf k with
  | KRoute => mkRoute meta0 "" []
  | KPrometheus => mkPrometheus meta0 None ""
  | KAlertmanager => mkAlertmanager meta0 None ""
  | KDeployment => mkDeployment meta0 "" (mkDeploymentStatus 0 0 0 0)
  | KDaemonSet => mkDaemonSet meta0 "" (mkDaemonSetStatus 0 0 0 0)
  | KService => mkService meta0 (mkServiceSpec "" "" "")
  | KCustomResourceDefinition => mkCRD meta0 []
  | _ => mkManifest meta0 ""
  end.

Inductive Reply :=
| ReplyObj (k : Kind) (o : objOf k) (e : option error)
| ReplyErr (e : option error)
| ReplyList (k : Kind) (l : list (objOf k)) (e : option error)
| ReplyStatus (st : ReplicaStatus) (e : option error).

Definition World : Type := list Reply.

Definition unexpected : option error := Some (errorString "unexpected call").

Definition cast {T : Kind -> Type} (k k' : Kind) (x : T k) : option (T k') :=
  match Kind_eq_dec k k' with
  | left H => Some (eq_rect k T x k' H)
  | right _ => None
  end.

Definition serveObj (k : Kind) (w : World) : objOf k * option error * World :=
  match w with
  | ReplyObj k0 o e :: w' =>
      match cast (T := objOf) k0 k o with
      | Some o' => (o', e, w')
      | None => (zero k, unexpected, w')
      end
  | _ :: w' => (zero k, unexpected, w')
  | [] => (zero k, unexpected, [])
  end.

Definition serveErr (w : World) : option error * World :=
  match w with
  | ReplyErr e :: w' => (e, w')
  | _ :: w' => (unexpected, w')
  | [] => (unexpected, [])
  end.

Definition serveList (k : Kind) (w : World)
  : list (objOf k) * option error * World :=
  match w with
  | ReplyList k0 l e :: w' =>
      match cast (T := fun k => list (objOf k)) k0 k l with
      | Some l' => (l', e, w')
      | None => ([], unexpected, w')
      end
  | _ :: w' => ([], unexpected, w')
  | [] => ([], unexpected, [])
  end.

Definition serveStatus (w : World) : ReplicaStatus * option error * World :=
  match w with
  | ReplyStatus st e :: w' => (st, e, w')
  | _ :: w' => (mkReplicaStatus 0 0, unexpected, w')
  | [] => (mkReplicaStatus 0 0, unexpected, [])
  end.

Definition server : Interface World :=
  {| doGet := fun k _ _ => serveObj k;
     doCreate := fun k _ _ => serveObj k;
     doUpdate := fun k _ _ => serveObj k;
     doDelete := fun _ _ _ _ => serveErr;
     doList := fun k _ _ => serveList k;
     doStatus := fun _ _ => serveStatus |}.

Definition client : Client World :=
  mkClient "openshift-monitoring" "cluster-monitoring-operator" server.

(** The selector of the prometheus-operator for the pods of a Prometheus. *)
Definition ListOptions (name : string) : ListOptions :=
  mkListOptions ("app=prometheus,prometheus=" ++ name).

Definition notFound : option error :=
  Some (StatusError StatusReasonNotFound "not found").
Definition forbidden : option error :=
  Some (StatusError StatusReasonForbidden "forbidden").
Definition refused : option error :=
  Some (errorString "dial tcp: connection refused").

Definition meta (ns name rv : string) (generation : Z) : ObjectMeta :=
  mkObjectMeta name ns rv generation.

(** *** Objects and scripts of the scenarios *)

Definition monitoring : string := "openshift-monitoring".

(** The kube-state-metrics deployment, three replicas declared, at
    generation 2. *)
Definition kubeStateMetrics (status : DeploymentStatus) : Deployment :=
  mkDeployment (meta monitoring "kube-state-metrics" "7" 2) "replicas: 3"
    status.

(** [observedGeneration=1, updatedReplicas=2, unavailableReplicas=1] *)
Definition rollingOut : Deployment :=
  kubeStateMetrics (mkDeploymentStatus 1 3 2 1).

(** [observedGeneration=2, updatedReplicas=3, unavailableReplicas=0] *)
Definition rolledOut : Deployment :=
  kubeStateMetrics (mkDeploymentStatus 2 3 3 0).

(** The service account of the operator: what is declared, and what the
    server holds, with the token secret it has generated. *)
Definition declaredAccount : Manifest :=
  mkManifest (meta monitoring "prometheus-k8s" "" 0) "secrets: []".

Definition storedAccount : Manifest :=
  mkManifest (meta monitoring "prometheus-k8s" "311" 0)
    "secrets: [prometheus-k8s-token-x2x7k]".

(** The schema of the Prometheus kind, as declared and as read back. *)
Definition prometheusCRD : CustomResourceDefinition :=
  mkCRD (meta "" "prometheuses.monitoring.coreos.com" "" 0) [].

Definition crdRead (conds : list CustomResourceDefinitionCondition)
  : CustomResourceDefinition :=
  mkCRD (meta "" "prometheuses.monitoring.coreos.com" "9" 1) conds.

Definition namesAccepted : CustomResourceDefinitionCondition :=
  mkCRDCondition NamesAccepted ConditionTrue "NoConflicts".
Definition notEstablished : CustomResourceDefinitionCondition :=
  mkCRDCondition Established ConditionFalse "Installing".


(** The route of Prometheus: as declared, as read back before the router has
    seen it, and as read back once admitted. *)
Definition prometheusRoute : Route :=
  mkRoute (meta monitoring "prometheus-k8s" "" 0) "" [].

Definition routeNotSeen : Route :=
  mkRoute (meta monitoring "prometheus-k8s" "12" 1) "example.test" [].

Definition routeAdmittedAt : Route :=
  mkRoute (meta monitoring "prometheus-k8s" "13" 1) "example.test"
    [mkRouteIngress [mkRouteIngressCondition "Admitted" "True"]].

(** The kube-state-metrics deployment as declared. *)
Definition declaredDeployment : Deployment :=
  mkDeployment (meta monitoring "kube-state-metrics" "" 0) "replicas: 3"
    (mkDeploymentStatus 0 0 0 0).

(** The node-exporter daemon set: declared, rolling out, rolled out. *)
Definition declaredDaemonSet : DaemonSet :=
  mkDaemonSet (meta monitoring "node-exporter" "" 0) "hostNetwork: true"
    (mkDaemonSetStatus 0 0 0 0).

Definition daemonSetRollingOut : DaemonSet :=
  mkDaemonSet (meta monitoring "node-exporter" "21" 3) "hostNetwork: true"
    (mkDaemonSetStatus 3 5 4 1).

Definition daemonSetDone : DaemonSet :=
  mkDaemonSet (meta monitoring "node-exporter" "22" 3) "hostNetwork: true"
    (mkDaemonSetStatus 3 5 5 0).


(** The daemon set is there; it is updated and never rolls out. *)
Definition updateAndStall : World :=
  ReplyObj KDaemonSet daemonSetDone None
  :: ReplyObj KDaemonSet daemonSetRollingOut None
  :: repeat (ReplyObj KDaemonSet daemonSetRollingOut None) 301.

(** The Prometheus of the cluster and one of its pods. *)
Definition k8s : Prometheus :=
  mkPrometheus (meta monitoring "k8s" "5" 1) (Some 2) "retention: 15d".

Definition pod0 : Manifest :=
  mkManifest (meta monitoring "prometheus-k8s-0" "77" 1) "phase: Running".


(** The Prometheus is not there, and a pod of it never goes away. *)
Definition absentWithPod : World :=
  ReplyErr notFound :: repeat (ReplyList KPod [pod0] None) 61.

(** A service monitor name, for the delete that takes names. *)
Definition kubelet : string := "kubelet".

(** The Prometheus is not there and no pod of it is left. *)
Definition absentAndDrained : World :=
  [ReplyErr notFound; ReplyList KPod [] None].

(** The first read of the rollout fails in the transport; the second would
    find the rollout done. *)
Definition refusedThenRolledOut : World :=
  [ReplyObj KDeployment (zero KDeployment) refused;
   ReplyObj KDeployment rolledOut None].

(** The kinds of the prometheus-operator, its group and the constructor of
    their schemas, as that package has them. *)
Definition DefaultCrdKinds : CrdKinds :=
  mkCrdKinds (mkCrdKind "Prometheus" "prometheuses")
             (mkCrdKind "Alertmanager" "alertmanagers")
             (mkCrdKind "ServiceMonitor" "servicemonitors").

Definition Group : string := "monitoring.coreos.com".

Definition NewCustomResourceDefinition (k : CrdKind) (group : string)
  : CustomResourceDefinition :=
  mkCRD (meta "" (CrdKind_Plural k ++ "." ++ group) "" 0) [].

(** A secret of the stack. *)
Definition grafanaDatasources : Manifest :=
  mkManifest (meta monitoring "grafana-datasources" "" 0) "prometheus.yaml".

(** The server refuses the read: the caller may not read this kind. *)
Definition readForbidden (k : Kind) : World :=
  [ReplyObj k (zero k) forbidden].

(** The Prometheus as declared: no version in it. *)
Definition declaredPrometheus : Prometheus :=
  mkPrometheus (meta monitoring "k8s" "" 0) (Some 2) "retention: 30d".

(** The Prometheus is there, at version 5, and the update is accepted. *)
Definition prometheusThere : World :=
  [ReplyObj KPrometheus k8s None; ReplyObj KPrometheus k8s None].

(** The service of Prometheus, of type NodePort: as declared, and as stored
    with the address the cluster has allocated. *)
Definition declaredNodePort : Service :=
  mkService (meta monitoring "prometheus-k8s" "" 0)
    (mkServiceSpec "NodePort" "" "web:9090").

Definition storedNodePort : Service :=
  mkService (meta monitoring "prometheus-k8s" "41" 0)
    (mkServiceSpec "NodePort" "172.30.14.2" "web:9090").

Definition nodePortThere : World :=
  [ReplyObj KService storedNodePort None;
   ReplyObj KService storedNodePort None].

(** The service of the Alertmanager, of type ClusterIP. *)
Definition declaredClusterIP : Service :=
  mkService (meta monitoring "alertmanager-main" "" 0)
    (mkServiceSpec "ClusterIP" "" "web:9093,mesh:6783").

Definition storedClusterIP : Service :=
  mkService (meta monitoring "alertmanager-main" "38" 0)
    (mkServiceSpec "ClusterIP" "172.30.9.1" "web:9093").

Definition clusterIPThere : World :=
  [ReplyObj KService storedClusterIP None;
   ReplyObj KService storedClusterIP None].

(** Endpoints of the kubelet: declared, and stored at version 64. *)
Definition declaredEndpoints : Manifest :=
  mkManifest (meta "kube-system" "kubelet" "" 0) "10.0.0.4,10.0.0.5".

Definition storedEndpoints : Manifest :=
  mkManifest (meta "kube-system" "kubelet" "64" 0) "10.0.0.4".

Definition endpointsThere : World :=
  [ReplyObj KEndpoints storedEndpoints None;
   ReplyObj KEndpoints storedEndpoints None].

(** The deployment is there; the update is accepted and the rollout is done
    at the second read of the poll. *)
Definition updateAndRollOut : World :=
  [ReplyObj KDeployment rolledOut None;
   ReplyObj KDeployment rollingOut None;
   ReplyObj KDeployment rollingOut None;
   ReplyObj KDeployment rolledOut None].


(** *** Scenarios of the further facts *)

(** The secret is not there and the server accepts its creation. *)
Definition secretAbsent : World :=
  [ReplyObj KSecret (zero KSecret) notFound;
   ReplyObj KSecret grafanaDatasources None].

(** The server refuses the read of the config map. *)
Definition clusterMonitoringConfig : Manifest :=
  mkManifest (meta monitoring "cluster-monitoring-config" "" 0) "config.yaml".

(** Three config maps; the first is there and is updated, the read of the
    second is refused. *)
Definition configMapA : Manifest :=
  mkManifest (meta monitoring "prometheus-k8s-rules" "" 0) "rules".
Definition configMapB : Manifest :=
  mkManifest (meta monitoring "grafana-dashboards" "" 0) "dashboards".
Definition configMapC : Manifest :=
  mkManifest (meta monitoring "serving-certs-ca-bundle" "" 0) "ca".

Definition secondRefused : World :=
  [ReplyObj KConfigMap configMapA None;
   ReplyObj KConfigMap configMapA None;
   ReplyObj KConfigMap (zero KConfigMap) forbidden;
   ReplyObj KConfigMap configMapC None].

(** The Prometheus read back with two replicas declared, and with none. *)
Definition k8sNoReplicas : Prometheus :=
  mkPrometheus (meta monitoring "k8s" "5" 1) None "retention: 15d".

Definition twoOfTwo : ReplicaStatus := mkReplicaStatus 2 2.
Definition oneOfTwo : ReplicaStatus := mkReplicaStatus 2 1.

(** A schema that is being installed: its names are accepted, it is not
    established yet. *)
Definition crdInstalling : CustomResourceDefinition :=
  crdRead [namesAccepted; notEstablished].

(** The deployment cannot be deleted: the server is not reachable. *)
Definition deleteRefused : World := [ReplyErr refused].

(** The secret is there already, with other content than is declared. *)
Definition storedSecret : Manifest :=
  mkManifest (meta monitoring "grafana-datasources" "90" 0) "edited by hand".

(** The ingress is there and the server rejects its update. *)
Definition grafanaIngress : Manifest :=
  mkManifest (meta monitoring "grafana" "" 0) "host: grafana.example.test".

Definition conflict : error :=
  StatusError StatusReasonConflict "the object has been modified".

Definition ingressUpdateRejected : World :=
  [ReplyObj KIngress grafanaIngress None;
   ReplyObj KIngress (zero KIngress) (Some conflict)].



End Mock.

(** * Facts *)

Unset Implicit Arguments.

(** ** The loop of a poll *)

Section PollFacts.

Variable World : Type.
Variable L : Type.
Variable fn : ConditionFunc World L.

Lemma WaitFor_step (n : nat) (l : L) (s : State World) :
  WaitFor n fn l s =
  match fn l s with
  | (Ok (ok, err, l'), s') =>
      if notNil err then (Ok (err, l'), s')
      else if ok then (Ok (None, l'), s')
      else match n with
           | O => (Ok (Some ErrWaitTimeout, l'), s')
           | S m => WaitFor m fn l' s'
           end
  | (Panic msg, s') => (Panic msg, s')
  end.
Proof.
  destruct n; simpl; unfold bind;
    destruct (fn l s) as [[[[ok err] l'] | msg] s']; try reflexivity;
    destruct (notNil err), ok; reflexivity.
Qed.

(** After [k] ticks that keep the poll going, with [k] within the budget,
    the poll is where it would be with the budget left. *)
Lemma WaitFor_Pending (k : nat) :
  forall n a b, Pending fn k a b ->
    WaitFor (k + n) fn (fst a) (snd a) = WaitFor n fn (fst b) (snd b).
Proof.
  induction k as [|k IH]; intros n a b HP; inversion HP; subst; simpl fst;
    simpl snd.
  - reflexivity.
  - rewrite WaitFor_step.
    match goal with H : fn _ _ = _ |- _ => rewrite H end.
    cbn [notNil Nat.add]. exact (IH n (l1, s1) b ltac:(assumption)).
Qed.

Lemma WaitFor_error_after (k n : nat) l s l1 s1 ok e l2 s2 :
  Pending fn k (l, s) (l1, s1) -> (k <= n)%nat ->
  fn l1 s1 = (Ok (ok, Some e, l2), s2) ->
  WaitFor n fn l s = (Ok (Some e, l2), s2).
Proof.
  intros HP Hk Hfn.
  replace n with (k + (n - k))%nat by lia.
  pose proof (WaitFor_Pending k (n - k) _ _ HP) as E. cbn [fst snd] in E.
  rewrite E, WaitFor_step, Hfn. reflexivity.
Qed.

Lemma WaitFor_ready_after (k n : nat) l s l1 s1 l2 s2 :
  Pending fn k (l, s) (l1, s1) -> (k <= n)%nat ->
  fn l1 s1 = (Ok (true, None, l2), s2) ->
  WaitFor n fn l s = (Ok (None, l2), s2).
Proof.
  intros HP Hk Hfn.
  replace n with (k + (n - k))%nat by lia.
  pose proof (WaitFor_Pending k (n - k) _ _ HP) as E. cbn [fst snd] in E.
  rewrite E, WaitFor_step, Hfn. reflexivity.
Qed.

Lemma WaitFor_timeout_after (n : nat) l s l1 s1 l2 s2 :
  Pending fn n (l, s) (l1, s1) ->
  fn l1 s1 = (Ok (false, None, l2), s2) ->
  WaitFor n fn l s = (Ok (Some ErrWaitTimeout, l2), s2).
Proof.
  intros HP Hfn.
  replace n with (n + 0)%nat by lia.
  pose proof (WaitFor_Pending n 0 _ _ HP) as E. cbn [fst snd] in E.
  rewrite E, WaitFor_step, Hfn. reflexivity.
Qed.

Lemma WaitFor_inv (n : nat) :
  forall l s r l' s',
    WaitFor n fn l s = (Ok (r, l'), s') ->
    exists k l1 s1 ok e,
      (k <= n)%nat /\ Pending fn k (l, s) (l1, s1) /\
      fn l1 s1 = (Ok (ok, e, l'), s') /\ Ended n k ok e r.
Proof.
  induction n as [|n IH]; intros l s r l' s' H; rewrite WaitFor_step in H;
    destruct (fn l s) as [[[[ok err] l1] | msg] s1] eqn:Hfn; try discriminate;
    destruct err as [e|]; cbn [notNil] in H.
  - inversion H; subst. exists 0%nat, l, s, ok, (Some e).
    repeat split; auto; constructor.
  - destruct ok; inversion H; subst;
      exists 0%nat, l, s; eexists _, None;
      repeat split; eauto; constructor; auto.
  - inversion H; subst. exists 0%nat, l, s, ok, (Some e).
    repeat split; auto; try lia; constructor.
  - destruct ok.
    + inversion H; subst. exists 0%nat, l, s, true, None.
      repeat split; auto; try lia; constructor.
    + destruct (IH _ _ _ _ _ H) as (k & l2 & s2 & ok & e & Hk & HP & Hl & HE).
      exists (S k), l2, s2, ok, e. repeat split; auto; try lia.
      * econstructor; eauto.
      * destruct HE; constructor; lia.
Qed.

(** A poll whose condition does not panic returns. *)
Lemma WaitFor_total :
  (forall l s, exists r s', fn l s = (Ok r, s')) ->
  forall n l s, exists r s', WaitFor n fn l s = (Ok r, s').
Proof.
  intros Hfn. induction n as [|n IH]; intros l s; rewrite WaitFor_step;
    destruct (Hfn l s) as ([[ok e] l'] & s' & H); rewrite H;
    destruct (notNil e), ok; eauto.
Qed.

End PollFacts.

(** ** Polls whose condition assigns no variable *)

Section ClosedPollFacts.

Variable World : Type.
Variable cond : M World (bool * option error).

Lemma closed_run (u : unit) (s : State World) :
  closed cond u s =
  match cond s with
  | (Ok r, s') => (Ok (r, u), s')
  | (Panic msg, s') => (Panic msg, s')
  end.
Proof.
  unfold closed, bind, ret. destruct (cond s) as [[r | msg] s']; reflexivity.
Qed.

Lemma closed_Ok (s : State World) ok e (u : unit) s' :
  closed cond tt s = (Ok (ok, e, u), s') <-> cond s = (Ok (ok, e), s').
Proof.
  rewrite closed_run. destruct (cond s) as [[[ok' e'] | msg] s1]; destruct u.
  - split; intros H; inversion H; reflexivity.
  - split; discriminate.
Qed.

Lemma Poll_run (interval timeout : Z) (s : State World) :
  Poll interval timeout cond s =
  match WaitFor (poller interval timeout) (closed cond) tt s with
  | (Ok r, s') => (Ok (fst r), s')
  | (Panic msg, s') => (Panic msg, s')
  end.
Proof.
  unfold Poll, PollEnv, bind, ret.
  destruct (WaitFor _ _ _ _) as [[r | msg] s']; reflexivity.
Qed.

Lemma Poll_error_after interval timeout k s s1 ok e s2 :
  Ticks cond k s s1 -> (k <= poller interval timeout)%nat ->
  cond s1 = (Ok (ok, Some e), s2) ->
  Poll interval timeout cond s = (Ok (Some e), s2).
Proof.
  intros HT Hk Hc. rewrite Poll_run.
  erewrite WaitFor_error_after with (l2 := tt); [reflexivity|exact HT|exact Hk|].
  apply closed_Ok, Hc.
Qed.

Lemma Poll_ready_after interval timeout k s s1 s2 :
  Ticks cond k s s1 -> (k <= poller interval timeout)%nat ->
  cond s1 = (Ok (true, None), s2) ->
  Poll interval timeout cond s = (Ok None, s2).
Proof.
  intros HT Hk Hc. rewrite Poll_run.
  erewrite WaitFor_ready_after with (l2 := tt); [reflexivity|exact HT|exact Hk|].
  apply closed_Ok, Hc.
Qed.

Lemma Poll_timeout_after interval timeout s s1 s2 :
  Ticks cond (poller interval timeout) s s1 ->
  cond s1 = (Ok (false, None), s2) ->
  Poll interval timeout cond s = (Ok (Some ErrWaitTimeout), s2).
Proof.
  intros HT Hc. rewrite Poll_run.
  erewrite WaitFor_timeout_after with (l2 := tt); [reflexivity|exact HT|].
  apply closed_Ok, Hc.
Qed.

Lemma Poll_inv interval timeout s r s' :
  Poll interval timeout cond s = (Ok r, s') ->
  exists k s1 ok e,
    (k <= poller interval timeout)%nat /\ Ticks cond k s s1 /\
    cond s1 = (Ok (ok, e), s') /\ Ended (poller interval timeout) k ok e r.
Proof.
  rewrite Poll_run.
  destruct (WaitFor _ _ _ _) as [[[r0 u] | msg] s0] eqn:HW; try discriminate.
  intros H; inversion H; subst; clear H.
  destruct (WaitFor_inv _ _ _ _ _ _ _ _ _ HW) as (k & l1 & s1 & ok & e & Hk & HP & Hfn & HE).
  destruct l1. exists k, s1, ok, e. repeat split; auto.
  eapply closed_Ok; eauto.
Qed.

Lemma Poll_total interval timeout :
  (forall s, exists r s', cond s = (Ok r, s')) ->
  forall s, exists r s', Poll interval timeout cond s = (Ok r, s').
Proof.
  intros Hc s. rewrite Poll_run.
  destruct (WaitFor_total World unit (closed cond)) with
    (n := poller interval timeout) (l := tt) (s := s) as (r & s' & H).
  - intros l s0. rewrite closed_run.
    destruct (Hc s0) as (r & s' & H). rewrite H. eauto.
  - rewrite H. eauto.
Qed.

(** A tick that keeps the poll going is an evaluation of the condition. *)
Lemma Ticks_S_inv n s s2 :
  Ticks cond (S n) s s2 ->
  exists s1, cond s = (Ok (false, None), s1) /\ Ticks cond n s1 s2.
Proof.
  unfold Ticks. intros H. inversion H; subst.
  match goal with u : unit |- _ => destruct u end.
  eexists; split; [eapply closed_Ok|]; eauto.
Qed.

Lemma Ticks_O_inv s s2 : Ticks cond 0 s s2 -> s2 = s.
Proof. unfold Ticks. intros H. inversion H; reflexivity. Qed.

Lemma Ticks_O s : Ticks cond 0 s s.
Proof. constructor. Qed.

Lemma Ticks_S n s s1 s2 :
  cond s = (Ok (false, None), s1) -> Ticks cond n s1 s2 ->
  Ticks cond (S n) s s2.
Proof.
  intros Hc HT. unfold Ticks. econstructor; [|exact HT].
  apply closed_Ok, Hc.
Qed.

End ClosedPollFacts.

Ltac unfold_calls :=
  unfold run, bind, ret, Get, Create, Update, Delete, List_, Status in *;
  cbn [world trace] in *.

(** ** Rollout of a deployment *)

Lemma deploymentRolledOut_iff (d : Deployment) :
  deploymentRolledOut d = true <->
  Generation (Deployment_ObjectMeta d)
    <= DeploymentStatus_ObservedGeneration (Deployment_Status d)
  /\ DeploymentStatus_UpdatedReplicas (Deployment_Status d)
     = DeploymentStatus_Replicas (Deployment_Status d)
  /\ DeploymentStatus_UnavailableReplicas (Deployment_Status d) = 0.
Proof.
  unfold deploymentRolledOut.
  rewrite !andb_true_iff, Z.leb_le, !Z.eqb_eq. tauto.
Qed.

Section RolloutFacts.

Variable World : Type.
Variable c : Client World.

(** One evaluation of the condition: one read, and the test on what was
    read. *)
Lemma DeploymentRolloutCondition_run (dep : Deployment) (s : State World) :
  DeploymentRolloutCondition c dep s =
  let '(d, e, w) :=
    doGet (clientset c) KDeployment (GetNamespace dep) (GetName dep) (world s)
  in
  (Ok (if notNil e then (false, e) else (deploymentRolledOut d, None)),
   mkState w (trace s ++ [EvGet KDeployment (GetNamespace dep) (GetName dep)
                            d e])%list).
Proof.
  unfold DeploymentRolloutCondition. unfold_calls.
  destruct (doGet _ _ _ _ _) as [[d e] w].
  destruct (notNil e); [reflexivity|].
  destruct (deploymentRolledOut d); reflexivity.
Qed.

(** C6.  The condition of the rollout of a deployment, on an object read
    back without error, says ready exactly when the generation is at most
    the observed generation, the updated replicas equal the replicas of the
    status and no replica is unavailable; otherwise it says pending, with no
    error. *)
Theorem DeploymentRolloutCondition_ready_iff (dep d : Deployment)
  (w w1 : World) :
  doGet (clientset c) KDeployment (GetNamespace dep) (GetName dep) w
    = (d, None, w1) ->
  let verdict := fst (run (DeploymentRolloutCondition c dep) w) in
  let rolledOut :=
    Generation (Deployment_ObjectMeta d)
      <= DeploymentStatus_ObservedGeneration (Deployment_Status d)
    /\ DeploymentStatus_UpdatedReplicas (Deployment_Status d)
       = DeploymentStatus_Replicas (Deployment_Status d)
    /\ DeploymentStatus_UnavailableReplicas (Deployment_Status d) = 0 in
  (verdict = Ok (true, None) <-> rolledOut)
  /\ (verdict = Ok (false, None) <-> ~ rolledOut).
Proof.
  intros Hget verdict rolledOut. subst verdict rolledOut.
  unfold run. rewrite DeploymentRolloutCondition_run. cbn [world trace].
  rewrite Hget. cbn [notNil fst].
  rewrite <- deploymentRolledOut_iff.
  destruct (deploymentRolledOut d); split; split; intros H;
    try reflexivity; try discriminate; try congruence.
Qed.

End RolloutFacts.

(** The scenario of the rollout: generation 2 observed at 1, two of three
    replicas updated and one unavailable, says pending; observed at 2, three
    updated and none unavailable, says ready. *)
Lemma DeploymentRolloutCondition_ready_iff_witness :
  fst (run (DeploymentRolloutCondition Mock.client Mock.rollingOut)
         [Mock.ReplyObj KDeployment Mock.rollingOut None])
    = Ok (false, None)
  /\ fst (run (DeploymentRolloutCondition Mock.client Mock.rolledOut)
            [Mock.ReplyObj KDeployment Mock.rolledOut None])
       = Ok (true, None).
Proof.
  split.
  - apply (proj2 (DeploymentRolloutCondition_ready_iff
                    _ Mock.client Mock.rollingOut Mock.rollingOut
                    [Mock.ReplyObj KDeployment Mock.rollingOut None] []
                    eq_refl)).
    simpl. lia.
  - apply (proj1 (DeploymentRolloutCondition_ready_iff
                    _ Mock.client Mock.rolledOut Mock.rolledOut
                    [Mock.ReplyObj KDeployment Mock.rolledOut None] []
                    eq_refl)).
    simpl. lia.
Defined.

(** The same scenario through the poll: pending on the first tick, ready on
    the second, and the wait returns there. *)
Example WaitForDeploymentRollout_scenario :
  run (WaitForDeploymentRollout Mock.client Mock.rolledOut)
      [Mock.ReplyObj KDeployment Mock.rollingOut None;
       Mock.ReplyObj KDeployment Mock.rolledOut None]
  = (Ok None,
     mkState []
       [EvGet KDeployment Mock.monitoring "kube-state-metrics"
          Mock.rollingOut None;
        EvGet KDeployment Mock.monitoring "kube-state-metrics"
          Mock.rolledOut None]).
Proof. vm_compute. reflexivity. Qed.

(** ** Service accounts *)

Section ServiceAccountFacts.

Variable World : Type.
Variable c : Client World.

(** C5.  Reconciling a service account never updates: whatever the server
    answers, no Update is among the calls made; when the account is there,
    whatever it holds and whatever is declared, the read is the only call and
    the world is the one the read left; and nothing is written unless the
    read answered not-found. *)
Theorem CreateOrUpdateServiceAccount_never_updates (sa : Manifest) (w : World) :
  let out := run (CreateOrUpdateServiceAccount c sa) w in
  count isUpdate (trace (snd out)) = 0%nat
  /\ (forall obs w1,
        doGet (clientset c) KServiceAccount (GetNamespace sa) (GetName sa) w
          = (obs, None, w1) ->
        out = (Ok None,
               mkState w1 [EvGet KServiceAccount (GetNamespace sa) (GetName sa)
                             obs None]))
  /\ (forall obs e w1,
        doGet (clientset c) KServiceAccount (GetNamespace sa) (GetName sa) w
          = (obs, e, w1) ->
        IsNotFound e = false ->
        out = (Ok (Wrap e "retrieving ServiceAccount object failed"),
               mkState w1 [EvGet KServiceAccount (GetNamespace sa) (GetName sa)
                             obs e])).
Proof.
  cbv zeta. unfold CreateOrUpdateServiceAccount. unfold_calls.
  destruct (doGet _ _ _ _ _) as [[obs e] w1] eqn:Hget.
  repeat split.
  - destruct (IsNotFound e); [|reflexivity].
    destruct (doCreate _ _ _ _ _) as [[o' e'] w2]. reflexivity.
  - intros obs' w1' H; inversion H; subst. reflexivity.
  - intros obs' e' w1' H Hnf; inversion H; subst. rewrite Hnf. reflexivity.
Qed.

End ServiceAccountFacts.

Lemma CreateOrUpdateServiceAccount_never_updates_witness :
  run (CreateOrUpdateServiceAccount Mock.client Mock.declaredAccount)
      [Mock.ReplyObj KServiceAccount Mock.storedAccount None]
  = (Ok None,
     mkState []
       [EvGet KServiceAccount Mock.monitoring "prometheus-k8s"
          Mock.storedAccount None]).
Proof.
  apply (proj1 (proj2 (CreateOrUpdateServiceAccount_never_updates
                         _ Mock.client Mock.declaredAccount
                         [Mock.ReplyObj KServiceAccount Mock.storedAccount
                            None]))
           Mock.storedAccount []).
  reflexivity.
Defined.

(** ** Establishment of a schema *)

Lemma CRDReady_conditions_skip (name : string) (err : option error)
  (pre rest : list CustomResourceDefinitionCondition) :
  forallb (fun x => negb (decides x)) pre = true ->
  CRDReady_conditions name (pre ++ rest)%list err
  = CRDReady_conditions name rest err.
Proof.
  induction pre as [|x pre IH]; [reflexivity|].
  cbn [forallb app CRDReady_conditions]. rewrite andb_true_iff.
  intros [Hx Hpre]. rewrite (IH Hpre). unfold decides in Hx.
  destruct (Condition_Type x =? Established);
    destruct (Condition_Status x =? ConditionTrue);
    destruct (Condition_Type x =? NamesAccepted);
    destruct (Condition_Status x =? ConditionFalse);
    try reflexivity; discriminate.
Qed.



Lemma CRDReady_conditions_undecided name err conds :
  forallb (fun x => negb (decides x)) conds = true ->
  CRDReady_conditions name conds err = (false, err).
Proof.
  intros H. rewrite <- (app_nil_r conds).
  rewrite (CRDReady_conditions_skip name err _ _ H). reflexivity.
Qed.


Section CRDFacts.

Variable World : Type.
Variable c : Client World.

Lemma CRDReady_run (crd : CustomResourceDefinition) (s : State World) :
  CRDReady c crd s =
  let '(crdEst, e, w) :=
    doGet (clientset c) KCustomResourceDefinition NamespaceNone
      (Name (CRD_ObjectMeta crd)) (world s) in
  (Ok (if notNil e then (false, e)
       else CRDReady_conditions (Name (CRD_ObjectMeta crd))
              (CRD_Status_Conditions crdEst) e),
   mkState w (trace s ++ [EvGet KCustomResourceDefinition NamespaceNone
                            (Name (CRD_ObjectMeta crd)) crdEst e])%list).
Proof.
  unfold CRDReady. unfold_calls.
  destruct (doGet _ _ _ _ _) as [[crdEst e] w].
  destruct (notNil e); reflexivity.
Qed.


End CRDFacts.



(** ** Admission of a route *)

Lemma routeAdmitted_iff (ing : RouteIngress) :
  routeAdmitted (RouteIngress_Conditions ing) = true <-> admittedIngress ing.
Proof.
  unfold routeAdmitted, admittedIngress. rewrite existsb_exists.
  split; intros (cnd & Hin & H); exists cnd; split; auto.
  - rewrite andb_true_iff, !String.eqb_eq in H. exact H.
  - rewrite andb_true_iff, !String.eqb_eq. exact H.
Qed.

Section RouteFacts.

Variable World : Type.
Variable c : Client World.

Lemma RouteReadyCondition_run (r : Route) (host : string) (s : State World) :
  RouteReadyCondition c r host s =
  let '(newRoute, e, w) :=
    doGet (clientset c) KRoute (GetNamespace r) (GetName r) (world s) in
  (Ok (if notNil e then (false, e, host)
       else match Route_Status_Ingress newRoute with
            | [] => (false, None, host)
            | ingress0 :: _ =>
                if routeAdmitted (RouteIngress_Conditions ingress0)
                then (true, None, Route_Spec_Host newRoute)
                else (false, None, host)
            end),
   mkState w (trace s ++ [EvGet KRoute (GetNamespace r) (GetName r)
                            newRoute e])%list).
Proof.
  unfold RouteReadyCondition. unfold_calls.
  destruct (doGet _ _ _ _ _) as [[newRoute e] w].
  destruct (notNil e); [reflexivity|].
  destruct (Route_Status_Ingress newRoute) as [|i0 rest]; [reflexivity|].
  destruct (routeAdmitted _); reflexivity.
Qed.

(** Whatever an evaluation of the condition returns, [host] is assigned
    only when it says ready. *)
Lemma RouteReadyCondition_host (r : Route) host s ok e host' s' :
  RouteReadyCondition c r host s = (Ok (ok, e, host'), s') ->
  (ok = true /\ e = None /\
   exists newRoute i0 rest,
     trace s' = (trace s ++ [EvGet KRoute (GetNamespace r) (GetName r)
                               newRoute None])%list
     /\ Route_Status_Ingress newRoute = i0 :: rest
     /\ admittedIngress i0 /\ host' = Route_Spec_Host newRoute)
  \/ (ok = false /\ host' = host).
Proof.
  rewrite RouteReadyCondition_run.
  destruct (doGet _ _ _ _ _) as [[newRoute e0] w].
  destruct e0 as [e0|]; cbn [notNil].
  - intros H; inversion H; subst. right; auto.
  - destruct (Route_Status_Ingress newRoute) as [|i0 rest] eqn:Hing.
    + intros H; inversion H; subst. right; auto.
    + destruct (routeAdmitted _) eqn:Hadm; intros H; inversion H; subst.
      * left. repeat split. exists newRoute, i0, rest.
        repeat split; auto. apply routeAdmitted_iff, Hadm.
      * right; auto.
Qed.

Lemma RouteReadyCondition_pending_host (r : Route) (k : nat) a b :
  Pending (RouteReadyCondition c r) k a b -> fst b = fst a.
Proof.
  induction 1 as [|n l s l1 s1 b Hfn HP IH]; [reflexivity|].
  cbn [fst] in *. rewrite IH.
  destruct (RouteReadyCondition_host _ _ _ _ _ _ _ Hfn)
    as [(Hok & _) | (_ & Hh)]; [discriminate | exact Hh].
Qed.

(** C7.  The condition of the admission of a route, on a route read back
    without error: with no ingress it says pending and leaves the host as it
    was; with one, it says ready, and assigns the host of the specification,
    exactly when the first ingress has a condition Admitted with status
    True.  The wait returns that host when the route is admitted; and
    whenever the wait returns without error, the host it returns is that of
    the route read last, admitted on its first ingress; with an error it
    returns the empty host. *)
Theorem WaitForRouteReady_admitted (r : Route) :
  (forall (w w1 : World) (newRoute : Route) (host : string),
     doGet (clientset c) KRoute (GetNamespace r) (GetName r) w
       = (newRoute, None, w1) ->
     let verdict := fst (run (RouteReadyCondition c r host) w) in
     (Route_Status_Ingress newRoute = [] -> verdict = Ok (false, None, host))
     /\ (forall i0 rest,
           Route_Status_Ingress newRoute = i0 :: rest ->
           (verdict = Ok (true, None, Route_Spec_Host newRoute)
            <-> admittedIngress i0)
           /\ (verdict = Ok (false, None, host) <-> ~ admittedIngress i0)
           /\ (admittedIngress i0 ->
               run (WaitForRouteReady c r) w
               = (Ok (Route_Spec_Host newRoute, None),
                  mkState w1 [EvGet KRoute (GetNamespace r) (GetName r)
                                newRoute None]))))
  /\ (forall (w : World) (host : string) (err : option error) s',
        run (WaitForRouteReady c r) w = (Ok (host, err), s') ->
        (err = None ->
         exists pre newRoute i0 rest,
           trace s' = (pre ++ [EvGet KRoute (GetNamespace r) (GetName r)
                                 newRoute None])%list
           /\ Route_Status_Ingress newRoute = i0 :: rest
           /\ admittedIngress i0 /\ host = Route_Spec_Host newRoute)
        /\ (err <> None -> host = "")).
Proof.
  split.
  - intros w w1 newRoute host Hget verdict.
    assert (Hrun : forall h,
               run (RouteReadyCondition c r h) w
               = (Ok match Route_Status_Ingress newRoute with
                     | [] => (false, None, h)
                     | ingress0 :: _ =>
                         if routeAdmitted (RouteIngress_Conditions ingress0)
                         then (true, None, Route_Spec_Host newRoute)
                         else (false, None, h)
                     end,
                  mkState w1 [EvGet KRoute (GetNamespace r) (GetName r)
                                newRoute None])).
    { intros h. unfold run. rewrite RouteReadyCondition_run.
      cbn [world trace]. rewrite Hget. reflexivity. }
    subst verdict. rewrite Hrun; cbn [fst]. split.
    + intros ->. reflexivity.
    + intros i0 rest Hing. rewrite <- routeAdmitted_iff.
      rewrite Hing.
      destruct (routeAdmitted (RouteIngress_Conditions i0)) eqn:Hadm.
      * split; [split; reflexivity|].
        split; [split; [discriminate | intros H; exfalso; apply H; reflexivity]|].
        intros _. specialize (Hrun ""). rewrite Hing, Hadm in Hrun.
        unfold WaitForRouteReady, PollEnv. unfold run in *.
        unfold bind at 1.
        erewrite WaitFor_ready_after with (k := 0%nat);
          [reflexivity | constructor | apply Nat.le_0_l | exact Hrun].
      * split; [split; discriminate|].
        split; [split; [intros _; discriminate | reflexivity]|].
        discriminate.
  - intros w host err s' Hrun.
    unfold WaitForRouteReady, PollEnv, run in Hrun. unfold bind at 1 in Hrun.
    destruct (WaitFor _ _ _ _) as [[[e h] | msg] s0] eqn:HW; try discriminate.
    unfold ret in Hrun. inversion Hrun; subst; clear Hrun.
    destruct (WaitFor_inv _ _ _ _ _ _ _ _ _ HW)
      as (k & l1 & s1 & ok & e0 & Hk & HP & Hfn & HE).
    pose proof (RouteReadyCondition_pending_host _ _ _ _ HP) as Hl.
    cbn [fst] in Hl. subst l1.
    destruct (RouteReadyCondition_host _ _ _ _ _ _ _ Hfn)
      as [(Hok & He & newRoute & i0 & rest & Htr & Hing & Hadm & Hh)
         | (Hok & Hh)].
    + subst. inversion HE; subst. split; [|congruence].
      intros _. exists (trace s1), newRoute, i0, rest. auto.
    + subst. inversion HE; subst; split; auto; discriminate.
Qed.

End RouteFacts.

(** The scenario of the route: with no ingress the condition says pending
    and assigns no host; admitted, the wait returns the host
    ["example.test"]. *)
Lemma WaitForRouteReady_admitted_witness :
  fst (run (RouteReadyCondition Mock.client Mock.prometheusRoute "")
         [Mock.ReplyObj KRoute Mock.routeNotSeen None])
    = Ok (false, None, "")
  /\ run (WaitForRouteReady Mock.client Mock.prometheusRoute)
         [Mock.ReplyObj KRoute Mock.routeAdmittedAt None]
     = (Ok ("example.test", None),
        mkState []
          [EvGet KRoute Mock.monitoring "prometheus-k8s"
             Mock.routeAdmittedAt None]).
Proof.
  split.
  - exact (proj1 (proj1 (WaitForRouteReady_admitted _ Mock.client
                           Mock.prometheusRoute)
                    [Mock.ReplyObj KRoute Mock.routeNotSeen None] []
                    Mock.routeNotSeen "" eq_refl)
             eq_refl).
  - refine (proj2 (proj2 (proj2 (proj1 (WaitForRouteReady_admitted _ Mock.client
                                   Mock.prometheusRoute)
                            [Mock.ReplyObj KRoute Mock.routeAdmittedAt None] []
                            Mock.routeAdmittedAt "" eq_refl)
                     (mkRouteIngress [mkRouteIngressCondition "Admitted" "True"])
                     [] eq_refl)) _).
    exists (mkRouteIngressCondition "Admitted" "True").
    split; [left; reflexivity | split; reflexivity].
Defined.

(** The same scenario through the poll: pending on the first tick, admitted
    on the second. *)
Example WaitForRouteReady_scenario :
  run (WaitForRouteReady Mock.client Mock.prometheusRoute)
      [Mock.ReplyObj KRoute Mock.routeNotSeen None;
       Mock.ReplyObj KRoute Mock.routeAdmittedAt None]
  = (Ok ("example.test", None),
     mkState []
       [EvGet KRoute Mock.monitoring "prometheus-k8s" Mock.routeNotSeen None;
        EvGet KRoute Mock.monitoring "prometheus-k8s" Mock.routeAdmittedAt
          None]).
Proof. vm_compute. reflexivity. Qed.

(** ** Reconciling a deployment waits for its rollout *)

Section DeploymentFacts.

Variable World : Type.
Variable c : Client World.

Lemma DeploymentRollout_ticks (dep : Deployment) (k : nat) :
  forall s s1,
    Ticks (DeploymentRolloutCondition c dep) k s s1 ->
    exists reads,
      trace s1 = (trace s ++ reads)%list /\ length reads = k
      /\ Forall (pendingDeploymentRead dep) reads.
Proof.
  induction k as [|k IH]; intros s s1 HT.
  - apply Ticks_O_inv in HT. subst. exists []. rewrite app_nil_r. auto.
  - apply Ticks_S_inv in HT. destruct HT as (s0 & Hc & HT).
    destruct (IH _ _ HT) as (reads & Htr & Hlen & Hall).
    rewrite DeploymentRolloutCondition_run in Hc.
    destruct (doGet _ _ _ _ _) as [[d e] w].
    destruct e as [e|]; cbn [notNil] in Hc; [discriminate|].
    inversion Hc as [[Hd Hs]]. subst s0. cbn [trace] in Htr.
    exists (EvGet KDeployment (GetNamespace dep) (GetName dep) d None :: reads).
    rewrite Htr, <- app_assoc. cbn [app length]. repeat split; auto.
    constructor; [exists d; auto | exact Hall].
Qed.

(** How the wait for the rollout returns: after reads that all found the
    rollout under way, on a last read that failed, or found it done, or found
    it still under way at the deadline. *)
Lemma WaitForDeploymentRollout_inv (dep : Deployment) (s s' : State World)
  (r : option error) :
  WaitForDeploymentRollout c dep s = (Ok r, s') ->
  exists reads d e,
    trace s' = (trace s ++ reads
                ++ [EvGet KDeployment (GetNamespace dep) (GetName dep) d e])%list
    /\ Forall (pendingDeploymentRead dep) reads
    /\ (length reads <= poller time.Second deploymentCreateTimeout)%nat
    /\ (r = None -> e = None /\ deploymentRolledOut d = true)
    /\ (r <> None -> r = e \/ (e = None /\ r = Some ErrWaitTimeout
                               /\ deploymentRolledOut d = false)).
Proof.
  unfold WaitForDeploymentRollout. intros H.
  apply Poll_inv in H. destruct H as (k & s1 & ok & e & Hk & HT & Hc & HE).
  destruct (DeploymentRollout_ticks _ _ _ _ HT) as (reads & Htr & Hlen & Hall).
  rewrite DeploymentRolloutCondition_run in Hc.
  destruct (doGet _ _ _ _ _) as [[d e0] w].
  exists reads, d, e0. inversion Hc; subst; clear Hc. cbn [trace].
  rewrite Htr, <- app_assoc. repeat split; auto.
  - destruct e0; cbn [notNil] in *;
      match goal with H : (_, _) = (_, _) |- _ => inversion H; subst end;
      inversion HE; subst; try discriminate; auto.
  - destruct e0; cbn [notNil] in *;
      match goal with H : (_, _) = (_, _) |- _ => inversion H; subst end;
      inversion HE; subst; try discriminate; auto.
  - intros Hr. destruct e0; cbn [notNil] in *;
      match goal with H : (_, _) = (_, _) |- _ => inversion H; subst end;
      inversion HE; subst; try congruence; auto.
Qed.

Lemma WaitForDeploymentRollout_total (dep : Deployment) (s : State World) :
  exists r s', WaitForDeploymentRollout c dep s = (Ok r, s').
Proof.
  apply Poll_total. intros s0. rewrite DeploymentRolloutCondition_run.
  destruct (doGet _ _ _ _ _) as [[d e] w]. eauto.
Qed.

(** The method, call by call. *)
Lemma CreateOrUpdateDeployment_run (dep : Deployment) (s : State World) :
  CreateOrUpdateDeployment c dep s =
  let ns := GetNamespace dep in
  let '(obs, e0, w1) :=
    doGet (clientset c) KDeployment ns (GetName dep) (world s) in
  let s1 :=
    mkState w1 (trace s ++ [EvGet KDeployment ns (GetName dep) obs e0])%list in
  if IsNotFound e0 then
    let '(written, e1, w2) := doCreate (clientset c) KDeployment ns dep w1 in
    let s2 :=
      mkState w2 (trace s1 ++ [EvCreate KDeployment ns dep written e1])%list in
    if notNil e1 then (Ok (Wrap e1 "creating deployment object failed"), s2)
    else match WaitForDeploymentRollout c written s2 with
         | (Ok r, s3) => (Ok (Wrap r "creating deployment object failed"), s3)
         | (Panic msg, s3) => (Panic msg, s3)
         end
  else if notNil e0 then
    (Ok (Wrap e0 "retrieving deployment object failed"), s1)
  else
    let '(written, e1, w2) := doUpdate (clientset c) KDeployment ns dep w1 in
    let s2 :=
      mkState w2 (trace s1 ++ [EvUpdate KDeployment ns dep written e1])%list in
    if notNil e1 then (Ok (Wrap e1 "updating deployment object failed"), s2)
    else match WaitForDeploymentRollout c written s2 with
         | (Ok r, s3) => (Ok (Wrap r "updating deployment object failed"), s3)
         | (Panic msg, s3) => (Panic msg, s3)
         end.
Proof.
  unfold CreateOrUpdateDeployment, CreateDeployment, UpdateDeployment.
  unfold_calls.
  destruct (doGet _ _ _ _ _) as [[obs e0] w1].
  destruct (IsNotFound e0).
  - destruct (doCreate _ _ _ _ _) as [[written e1] w2].
    destruct e1 as [e1|]; cbn [notNil]; [reflexivity|].
    destruct (WaitForDeploymentRollout _ _ _) as [[r|msg] s3]; reflexivity.
  - destruct e0 as [e0|]; cbn [notNil]; [reflexivity|].
    destruct (doUpdate _ _ _ _ _) as [[written e1] w2].
    destruct e1 as [e1|]; cbn [notNil]; [reflexivity|].
    destruct (WaitForDeploymentRollout _ _ _) as [[r|msg] s3]; reflexivity.
Qed.




End DeploymentFacts.

(** ** Reconciling a daemon set waits for its rollout *)

Section DaemonSetFacts.

Variable World : Type.
Variable c : Client World.

(** One evaluation of the condition: one read, and the test on what was
    read. *)
Lemma DaemonSetRolloutCondition_run (ds : DaemonSet) (s : State World) :
  DaemonSetRolloutCondition c ds s =
  let '(d, e, w) :=
    doGet (clientset c) KDaemonSet (GetNamespace ds) (GetName ds) (world s)
  in
  (Ok (if notNil e then (false, e) else (daemonSetRolledOut d, None)),
   mkState w (trace s ++ [EvGet KDaemonSet (GetNamespace ds) (GetName ds)
                            d e])%list).
Proof.
  unfold DaemonSetRolloutCondition. unfold_calls.
  destruct (doGet _ _ _ _ _) as [[d e] w].
  destruct (notNil e); [reflexivity|].
  destruct (daemonSetRolledOut d); reflexivity.
Qed.

Lemma DaemonSetRollout_ticks (ds : DaemonSet) (k : nat) :
  forall s s1,
    Ticks (DaemonSetRolloutCondition c ds) k s s1 ->
    exists reads,
      trace s1 = (trace s ++ reads)%list /\ length reads = k
      /\ Forall (pendingDaemonSetRead ds) reads.
Proof.
  induction k as [|k IH]; intros s s1 HT.
  - apply Ticks_O_inv in HT. subst. exists []. rewrite app_nil_r. auto.
  - apply Ticks_S_inv in HT. destruct HT as (s0 & Hc & HT).
    destruct (IH _ _ HT) as (reads & Htr & Hlen & Hall).
    rewrite DaemonSetRolloutCondition_run in Hc.
    destruct (doGet _ _ _ _ _) as [[d e] w].
    destruct e as [e|]; cbn [notNil] in Hc; [discriminate|].
    inversion Hc as [[Hd Hs]]. subst s0. cbn [trace] in Htr.
    exists (EvGet KDaemonSet (GetNamespace ds) (GetName ds) d None :: reads).
    rewrite Htr, <- app_assoc. cbn [app length]. repeat split; auto.
    constructor; [exists d; auto | exact Hall].
Qed.

(** How the wait for the rollout returns: after reads that all found the
    rollout under way, on a last read that failed, or found it done, or found
    it still under way at the deadline. *)
Lemma WaitForDaemonSetRollout_inv (ds : DaemonSet) (s s' : State World)
  (r : option error) :
  WaitForDaemonSetRollout c ds s = (Ok r, s') ->
  exists reads d e,
    trace s' = (trace s ++ reads
                ++ [EvGet KDaemonSet (GetNamespace ds) (GetName ds) d e])%list
    /\ Forall (pendingDaemonSetRead ds) reads
    /\ (length reads <= poller time.Second deploymentCreateTimeout)%nat
    /\ (r = None -> e = None /\ daemonSetRolledOut d = true)
    /\ (r <> None -> r = e \/ (e = None /\ r = Some ErrWaitTimeout
                               /\ daemonSetRolledOut d = false)).
Proof.
  unfold WaitForDaemonSetRollout. intros H.
  apply Poll_inv in H. destruct H as (k & s1 & ok & e & Hk & HT & Hc & HE).
  destruct (DaemonSetRollout_ticks _ _ _ _ HT) as (reads & Htr & Hlen & Hall).
  rewrite DaemonSetRolloutCondition_run in Hc.
  destruct (doGet _ _ _ _ _) as [[d e0] w].
  exists reads, d, e0. inversion Hc; subst; clear Hc. cbn [trace].
  rewrite Htr, <- app_assoc. repeat split; auto.
  - destruct e0; cbn [notNil] in *;
      match goal with H : (_, _) = (_, _) |- _ => inversion H; subst end;
      inversion HE; subst; try discriminate; auto.
  - destruct e0; cbn [notNil] in *;
      match goal with H : (_, _) = (_, _) |- _ => inversion H; subst end;
      inversion HE; subst; try discriminate; auto.
  - intros Hr. destruct e0; cbn [notNil] in *;
      match goal with H : (_, _) = (_, _) |- _ => inversion H; subst end;
      inversion HE; subst; try congruence; auto.
Qed.

Lemma WaitForDaemonSetRollout_total (ds : DaemonSet) (s : State World) :
  exists r s', WaitForDaemonSetRollout c ds s = (Ok r, s').
Proof.
  apply Poll_total. intros s0. rewrite DaemonSetRolloutCondition_run.
  destruct (doGet _ _ _ _ _) as [[d e] w]. eauto.
Qed.

(** The method, call by call. *)
Lemma CreateOrUpdateDaemonSet_run (ds : DaemonSet) (s : State World) :
  CreateOrUpdateDaemonSet c ds s =
  let ns := GetNamespace ds in
  let '(obs, e0, w1) :=
    doGet (clientset c) KDaemonSet ns (GetName ds) (world s) in
  let s1 :=
    mkState w1 (trace s ++ [EvGet KDaemonSet ns (GetName ds) obs e0])%list in
  if IsNotFound e0 then
    let '(written, e1, w2) := doCreate (clientset c) KDaemonSet ns ds w1 in
    let s2 :=
      mkState w2 (trace s1 ++ [EvCreate KDaemonSet ns ds written e1])%list in
    if notNil e1 then (Ok (Wrap e1 "creating DaemonSet object failed"), s2)
    else match WaitForDaemonSetRollout c written s2 with
         | (Ok r, s3) => (Ok (Wrap r "creating DaemonSet object failed"), s3)
         | (Panic msg, s3) => (Panic msg, s3)
         end
  else if notNil e0 then
    (Ok (Wrap e0 "retrieving DaemonSet object failed"), s1)
  else
    let '(written, e1, w2) := doUpdate (clientset c) KDaemonSet ns ds w1 in
    let s2 :=
      mkState w2 (trace s1 ++ [EvUpdate KDaemonSet ns ds written e1])%list in
    if notNil e1 then (Ok (Wrap e1 "updating DaemonSet object failed"), s2)
    else match WaitForDaemonSetRollout c written s2 with
         | (Ok r, s3) => (Ok (Wrap r "updating DaemonSet object failed"), s3)
         | (Panic msg, s3) => (Panic msg, s3)
         end.
Proof.
  unfold CreateOrUpdateDaemonSet, CreateDaemonSet, UpdateDaemonSet.
  unfold_calls.
  destruct (doGet _ _ _ _ _) as [[obs e0] w1].
  destruct (IsNotFound e0).
  - destruct (doCreate _ _ _ _ _) as [[written e1] w2].
    destruct e1 as [e1|]; cbn [notNil]; [reflexivity|].
    destruct (WaitForDaemonSetRollout _ _ _) as [[r|msg] s3]; reflexivity.
  - destruct e0 as [e0|]; cbn [notNil]; [reflexivity|].
    destruct (doUpdate _ _ _ _ _) as [[written e1] w2].
    destruct e1 as [e1|]; cbn [notNil]; [reflexivity|].
    destruct (WaitForDaemonSetRollout _ _ _) as [[r|msg] s3]; reflexivity.
Qed.




End DaemonSetFacts.





(** The daemon set that never rolls out: the update succeeded, and the
    method returns the timeout of the poll, wrapped, after 301 reads. *)
Example CreateOrUpdateDaemonSet_stalled :
  let out := run (CreateOrUpdateDaemonSet Mock.client Mock.declaredDaemonSet)
                 Mock.updateAndStall in
  fst out
  = Ok (Some (withMessage ErrWaitTimeout "updating DaemonSet object failed"))
  /\ count isGet (trace (snd out)) = 302%nat
  /\ count isUpdate (trace (snd out)) = 1%nat
  /\ world (snd out) = [].
Proof. vm_compute. repeat split. Qed.

(** ** Deleting *)

Section DeleteFacts.

Variable World : Type.
Variable c : Client World.
Variable ListOptionsOf : string -> ListOptions.

Lemma PrometheusPodsGone_run (p : Prometheus) (s : State World) :
  PrometheusPodsGone c ListOptionsOf p s =
  let '(pods, e, w) :=
    doList (clientset c) KPod (GetNamespace p) (ListOptionsOf (GetName p))
      (world s) in
  (Ok (if notNil e
       then (false, Wrap e "retrieving pods during polling failed")
       else (Nat.eqb (length pods) 0, None)),
   mkState w (trace s ++ [EvList KPod (GetNamespace p)
                            (ListOptionsOf (GetName p)) pods e])%list).
Proof.
  unfold PrometheusPodsGone. unfold_calls.
  destruct (doList _ _ _ _ _) as [[pods e] w].
  destruct (notNil e); reflexivity.
Qed.



Lemma PrometheusPodsGone_poll_total (p : Prometheus) (s : State World) :
  exists r s',
    Poll (time.Second * 10) (time.Minute * 10)
      (PrometheusPodsGone c ListOptionsOf p) s = (Ok r, s').
Proof.
  apply Poll_total. intros s0. rewrite PrometheusPodsGone_run.
  destruct (doList _ _ _ _ _) as [[pods e] w]. eauto.
Qed.

(** The method, call by call. *)
Lemma DeletePrometheus_run (p : Prometheus) (s : State World) :
  DeletePrometheus c ListOptionsOf p s =
  let '(e, w1) :=
    doDelete (clientset c) KPrometheus (GetNamespace p) (GetName p) None
      (world s) in
  let s1 :=
    mkState w1 (trace s ++ [EvDelete KPrometheus (GetNamespace p) (GetName p)
                              None e])%list in
  if notNil e && negb (IsNotFound e) then
    (Ok (Wrap e "deleting Prometheus object failed"), s1)
  else
    match Poll (time.Second * 10) (time.Minute * 10)
            (PrometheusPodsGone c ListOptionsOf p) s1 with
    | (Ok r, s2) =>
        (Ok (Wrap r "waiting for Prometheus Pods to be gone failed"), s2)
    | (Panic msg, s2) => (Panic msg, s2)
    end.
Proof.
  unfold DeletePrometheus. unfold_calls.
  destruct (doDelete _ _ _ _ _ _) as [e w1].
  destruct (notNil e && negb (IsNotFound e)); [reflexivity|].
  destruct (Poll _ _ _ _) as [[r|msg] s2]; reflexivity.
Qed.



End DeleteFacts.



Section DeleteAbsentFacts.

Variable World : Type.
Variable c : Client World.
Variable ListOptionsOf : string -> ListOptions.

(** C8, as the code has it.  Deleting a deployment, a daemon set or a service
    monitor that is not there returns nil, and the Delete is the only call.
    Deleting a Prometheus that is not there does not return the not-found
    either, but goes on to the poll for the pods: the method returns what the
    poll returns, wrapped, which is nil when the first listing is answered
    without error and is empty. *)
Theorem Delete_absent_not_found :
  (forall (d : Deployment) (w w1 : World) (e : option error),
     doDelete (clientset c) KDeployment (GetNamespace d) (GetName d)
       (Some (mkDeleteOptions (Some DeletePropagationForeground) None)) w
       = (e, w1) ->
     IsNotFound e = true ->
     run (DeleteDeployment c d) w
     = (Ok None,
        mkState w1
          [EvDelete KDeployment (GetNamespace d) (GetName d)
             (Some (mkDeleteOptions (Some DeletePropagationForeground) None))
             e]))
  /\ (forall (d : DaemonSet) (w w1 : World) (e : option error),
        doDelete (clientset c) KDaemonSet (GetNamespace d) (GetName d)
          (Some (mkDeleteOptions None (Some false))) w = (e, w1) ->
        IsNotFound e = true ->
        run (DeleteDaemonSet c d) w
        = (Ok None,
           mkState w1
             [EvDelete KDaemonSet (GetNamespace d) (GetName d)
                (Some (mkDeleteOptions None (Some false))) e]))
  /\ (forall (namespace name : string) (w w1 : World) (e : option error),
        doDelete (clientset c) KServiceMonitor namespace name None w
          = (e, w1) ->
        IsNotFound e = true ->
        run (DeleteServiceMonitor c namespace name) w
        = (Ok None,
           mkState w1 [EvDelete KServiceMonitor namespace name None e]))
  /\ (forall (p : Prometheus) (w w1 : World) (e : option error),
        doDelete (clientset c) KPrometheus (GetNamespace p) (GetName p) None w
          = (e, w1) ->
        IsNotFound e = true ->
        let deleted :=
          EvDelete KPrometheus (GetNamespace p) (GetName p) None e in
        (exists r s',
           Poll (time.Second * 10) (time.Minute * 10)
             (PrometheusPodsGone c ListOptionsOf p) (mkState w1 [deleted])
           = (Ok r, s')
           /\ run (DeletePrometheus c ListOptionsOf p) w
              = (Ok (Wrap r "waiting for Prometheus Pods to be gone failed"),
                 s'))
        /\ (forall w2,
              doList (clientset c) KPod (GetNamespace p)
                (ListOptionsOf (GetName p)) w1 = ([], None, w2) ->
              run (DeletePrometheus c ListOptionsOf p) w
              = (Ok None,
                 mkState w2
                   [deleted;
                    EvList KPod (GetNamespace p) (ListOptionsOf (GetName p))
                      [] None]))).
Proof.
  split; [|split; [|split]].
  - intros d w w1 e Hdel Hnf. unfold DeleteDeployment. unfold_calls.
    rewrite Hdel, Hnf. reflexivity.
  - intros d w w1 e Hdel Hnf. unfold DeleteDaemonSet. unfold_calls.
    rewrite Hdel, Hnf. reflexivity.
  - intros namespace name w w1 e Hdel Hnf. unfold DeleteServiceMonitor.
    unfold_calls. rewrite Hdel, Hnf, andb_false_r. reflexivity.
  - intros p w w1 e Hdel Hnf deleted.
    assert (Hrun : run (DeletePrometheus c ListOptionsOf p) w
                   = match Poll (time.Second * 10) (time.Minute * 10)
                             (PrometheusPodsGone c ListOptionsOf p)
                             (mkState w1 [deleted]) with
                     | (Ok r, s2) =>
                         (Ok (Wrap r
                                "waiting for Prometheus Pods to be gone failed"),
                          s2)
                     | (Panic msg, s2) => (Panic msg, s2)
                     end).
    { unfold run. rewrite DeletePrometheus_run. cbn [world trace app].
      rewrite Hdel. cbv zeta. rewrite Hnf, andb_false_r. reflexivity. }
    split.
    + destruct (PrometheusPodsGone_poll_total _ c ListOptionsOf p
                  (mkState w1 [deleted])) as (r & s' & HP).
      exists r, s'. split; [exact HP|]. rewrite Hrun, HP. reflexivity.
    + intros w2 Hlist. rewrite Hrun.
      erewrite Poll_ready_after with (k := 0%nat);
        [reflexivity | apply Ticks_O | apply Nat.le_0_l |].
      rewrite PrometheusPodsGone_run. cbn [world trace app].
      rewrite Hlist. reflexivity.
Qed.

End DeleteAbsentFacts.

Lemma Delete_absent_not_found_witness :
  run (DeleteDeployment Mock.client Mock.rolledOut) [Mock.ReplyErr Mock.notFound]
  = (Ok None,
     mkState []
       [EvDelete KDeployment Mock.monitoring "kube-state-metrics"
          (Some (mkDeleteOptions (Some DeletePropagationForeground) None))
          Mock.notFound])
  /\ run (DeleteDaemonSet Mock.client Mock.daemonSetDone)
         [Mock.ReplyErr Mock.notFound]
     = (Ok None,
        mkState []
          [EvDelete KDaemonSet Mock.monitoring "node-exporter"
             (Some (mkDeleteOptions None (Some false))) Mock.notFound])
  /\ run (DeleteServiceMonitor Mock.client Mock.monitoring Mock.kubelet)
         [Mock.ReplyErr Mock.notFound]
     = (Ok None,
        mkState []
          [EvDelete KServiceMonitor Mock.monitoring Mock.kubelet None
             Mock.notFound])
  /\ run (DeletePrometheus Mock.client Mock.ListOptions Mock.k8s)
         Mock.absentAndDrained
     = (Ok None,
        mkState []
          [EvDelete KPrometheus Mock.monitoring "k8s" None Mock.notFound;
           EvList KPod Mock.monitoring (Mock.ListOptions "k8s") [] None]).
Proof.
  pose proof (Delete_absent_not_found _ Mock.client Mock.ListOptions)
    as (Hdep & Hds & Hsm & Hprom).
  split; [|split; [|split]].
  - exact (Hdep Mock.rolledOut [Mock.ReplyErr Mock.notFound] [] Mock.notFound
             eq_refl eq_refl).
  - exact (Hds Mock.daemonSetDone [Mock.ReplyErr Mock.notFound] []
             Mock.notFound eq_refl eq_refl).
  - exact (Hsm Mock.monitoring Mock.kubelet [Mock.ReplyErr Mock.notFound] []
             Mock.notFound eq_refl eq_refl).
  - exact (proj2 (Hprom Mock.k8s Mock.absentAndDrained
                    [Mock.ReplyList KPod [] None] Mock.notFound
                    eq_refl eq_refl) [] eq_refl).
Defined.

(** C8 as stated fails for the Prometheus kind: the Prometheus is not there,
    the Delete answers not-found, a pod of it is still listed until the
    deadline, and the method returns an error. *)
Lemma DeletePrometheus_absent_returns_error :
  let out := run (DeletePrometheus Mock.client Mock.ListOptions Mock.k8s)
                 Mock.absentWithPod in
  hd_error (trace (snd out))
  = Some (EvDelete KPrometheus Mock.monitoring "k8s" None
            (Some (StatusError StatusReasonNotFound "not found")))
  /\ fst out
     = Ok (Some (withMessage ErrWaitTimeout
                   "waiting for Prometheus Pods to be gone failed"))
  /\ fst out <> Ok None.
Proof. vm_compute. repeat split. discriminate. Qed.

(** ** Errors of the condition of a poll *)

(** C3, as the code has it.  A poll returns the first error its condition
    returns, on the tick on which it returns it, whatever the error: after
    [k] ticks on which the condition said false with no error, [k] within the
    ticks of the poll, an error of the condition is the result of the poll.
    Only such ticks keep a poll going: a poll that returns has ended on the
    first evaluation that gave an error, or said true, or was the one at the
    deadline, with the timeout error.  So a read that fails ends the wait
    for the rollout of a deployment, and the wait for a Prometheus, on that
    tick. *)
Theorem Poll_returns_first_error (World : Type) :
  (forall (L : Type) (fn : ConditionFunc World L) (interval timeout : Z)
          (k : nat) l s l1 s1 ok e l2 s2,
     Pending fn k (l, s) (l1, s1) ->
     (k <= poller interval timeout)%nat ->
     fn l1 s1 = (Ok (ok, Some e, l2), s2) ->
     PollEnv interval timeout fn l s = (Ok (Some e, l2), s2))
  /\ (forall (cond : M World (bool * option error)) (interval timeout : Z)
             (k : nat) s s1 ok e s2,
        Ticks cond k s s1 ->
        (k <= poller interval timeout)%nat ->
        cond s1 = (Ok (ok, Some e), s2) ->
        Poll interval timeout cond s = (Ok (Some e), s2))
  /\ (forall (cond : M World (bool * option error)) (interval timeout : Z)
             s s1 s2,
        Ticks cond (poller interval timeout) s s1 ->
        cond s1 = (Ok (false, None), s2) ->
        Poll interval timeout cond s = (Ok (Some ErrWaitTimeout), s2))
  /\ (forall (cond : M World (bool * option error)) (interval timeout : Z)
             s r s',
        Poll interval timeout cond s = (Ok r, s') ->
        exists k s1 ok e,
          (k <= poller interval timeout)%nat /\ Ticks cond k s s1
          /\ cond s1 = (Ok (ok, e), s')
          /\ Ended (poller interval timeout) k ok e r)
  /\ (forall (c : Client World) (dep d : Deployment) (w w1 : World)
             (e : error),
        doGet (clientset c) KDeployment (GetNamespace dep) (GetName dep) w
          = (d, Some e, w1) ->
        run (WaitForDeploymentRollout c dep) w
        = (Ok (Some e),
           mkState w1 [EvGet KDeployment (GetNamespace dep) (GetName dep) d
                         (Some e)]))
  /\ (forall (c : Client World) (p p' : Prometheus) (w w1 : World)
             (e : error),
        doGet (clientset c) KPrometheus (GetNamespace p) (GetName p) w
          = (p', Some e, w1) ->
        run (WaitForPrometheus c p) w
        = (Ok (Some (withMessage e "retrieving Prometheus object failed")),
           mkState w1 [EvGet KPrometheus (GetNamespace p) (GetName p) p'
                         (Some e)])).
Proof.
  split; [|split; [|split; [|split; [|split]]]].
  - intros L fn interval timeout k l s l1 s1 ok e l2 s2 HP Hk Hfn.
    unfold PollEnv. eapply WaitFor_error_after; eassumption.
  - intros cond interval timeout k s s1 ok e s2 HT Hk Hc.
    eapply Poll_error_after; eassumption.
  - intros cond interval timeout s s1 s2 HT Hc.
    eapply Poll_timeout_after; eassumption.
  - intros cond interval timeout s r s' H. apply Poll_inv, H.
  - intros c dep d w w1 e Hget. unfold WaitForDeploymentRollout, run.
    eapply Poll_error_after with (k := 0%nat);
      [apply Ticks_O | apply Nat.le_0_l |].
    rewrite DeploymentRolloutCondition_run. cbn [world trace app].
    rewrite Hget. reflexivity.
  - intros c p p' w w1 e Hget. unfold WaitForPrometheus, run.
    eapply Poll_error_after with (k := 0%nat);
      [apply Ticks_O | apply Nat.le_0_l |].
    unfold_calls. rewrite Hget. reflexivity.
Qed.

Lemma Poll_returns_first_error_witness :
  run (WaitForDeploymentRollout Mock.client Mock.rolledOut)
      Mock.refusedThenRolledOut
  = (Ok Mock.refused,
     mkState [Mock.ReplyObj KDeployment Mock.rolledOut None]
       [EvGet KDeployment Mock.monitoring "kube-state-metrics"
          (Mock.zero KDeployment) Mock.refused]).
Proof.
  exact (proj1 (proj2 (proj2 (proj2 (proj2
           (Poll_returns_first_error Mock.World)))))
           Mock.client Mock.rolledOut (Mock.zero KDeployment)
           Mock.refusedThenRolledOut
           [Mock.ReplyObj KDeployment Mock.rolledOut None]
           (errorString "dial tcp: connection refused") eq_refl).
Defined.

(** C3 as stated fails: the read of the first tick fails in the transport,
    the deadline is five minutes away and the next read would find the
    rollout done, and the wait returns the error of the transport after that
    one read. *)
Lemma WaitForDeploymentRollout_stops_on_read_error :
  let out := run (WaitForDeploymentRollout Mock.client Mock.rolledOut)
                 Mock.refusedThenRolledOut in
  fst out = Ok (Some (errorString "dial tcp: connection refused"))
  /\ trace (snd out)
     = [EvGet KDeployment Mock.monitoring "kube-state-metrics"
          (Mock.zero KDeployment)
          (Some (errorString "dial tcp: connection refused"))]
  /\ world (snd out) = [Mock.ReplyObj KDeployment Mock.rolledOut None]
  /\ poller time.Second deploymentCreateTimeout = 300%nat
  /\ fst (run (DeploymentRolloutCondition Mock.client Mock.rolledOut)
            (world (snd out)))
     = Ok (true, None).
Proof. vm_compute. repeat split. Qed.

(** ** Errors that are dropped *)

Section ReturnsFacts.

Variable World : Type.

Lemma returns_ret {A} (a : A) : returns (@ret World A a).
Proof. intros s. unfold ret. eauto. Qed.

Lemma returns_bind {A B} (m : M World A) (f : A -> M World B) :
  returns m -> (forall a, returns (f a)) -> returns (bind m f).
Proof.
  intros Hm Hf s. unfold bind. destruct (Hm s) as (a & s' & H). rewrite H.
  apply Hf.
Qed.

Lemma returns_Poll interval timeout (cond : M World (bool * option error)) :
  returns cond -> returns (Poll interval timeout cond).
Proof. intros H s. apply Poll_total, H. Qed.

Variable c : Client World.

Lemma returns_Get k ns name : returns (Get c k ns name).
Proof.
  intros s. unfold Get. destruct (doGet _ _ _ _ _) as [[o e] w]. eauto.
Qed.

Lemma returns_List k ns opts : returns (List_ c k ns opts).
Proof.
  intros s. unfold List_. destruct (doList _ _ _ _ _) as [[o e] w]. eauto.
Qed.

Lemma returns_WaitForCRDReady crd : returns (WaitForCRDReady c crd).
Proof.
  apply returns_Poll. intros s. rewrite CRDReady_run.
  destruct (doGet _ _ _ _ _) as [[o e] w]. eauto.
Qed.

(** Whatever the server answers, and whatever the poll on the schemas
    returns, [WaitForPrometheusOperatorCRDsReady] returns nil. *)
Lemma WaitForPrometheusOperatorCRDsReady_nil
  (kinds : CrdKinds) (group : string)
  (new : CrdKind -> string -> CustomResourceDefinition) (w : World) :
  fst (run (WaitForPrometheusOperatorCRDsReady c kinds group new) w) = Ok None.
Proof.
  unfold WaitForPrometheusOperatorCRDsReady, run.
  match goal with
  | |- fst (bind ?m ?f ?s) = _ =>
      assert (Hm : returns m); [|unfold bind at 1;
        destruct (Hm s) as (a & s' & H); rewrite H; reflexivity]
  end.
  apply returns_Poll.
  repeat (apply returns_bind;
          [first [apply returns_WaitForCRDReady | apply returns_List]
          | intros ?]);
    repeat match goal with
           | |- returns (if ?b then _ else _) => destruct b
           | |- returns (match ?x with (_, _) => _ end) => destruct x
           | |- returns (ret _) => apply returns_ret
           | |- returns (bind _ _) =>
               apply returns_bind;
               [first [apply returns_WaitForCRDReady | apply returns_List]
               | intros ?]
           end.
Qed.

(** A read that fails other than by not-found: [CreateRouteIfNotExists]
    returns nil, [CreateIfNotExistSecret] and [CreateIfNotExistConfigMap]
    return the error, wrapped. *)
Lemma CreateRouteIfNotExists_read_error (r obs : Route) (w w1 : World)
  (e : option error) :
  doGet (clientset c) KRoute (GetNamespace r) (GetName r) w = (obs, e, w1) ->
  IsNotFound e = false ->
  run (CreateRouteIfNotExists c r) w
  = (Ok None, mkState w1 [EvGet KRoute (GetNamespace r) (GetName r) obs e]).
Proof.
  intros Hget Hnf. unfold CreateRouteIfNotExists. unfold_calls.
  rewrite Hget, Hnf. reflexivity.
Qed.

Lemma CreateIfNotExistSecret_read_error (s obs : Manifest) (w w1 : World)
  (e : option error) :
  doGet (clientset c) KSecret (GetNamespace s) (GetName s) w = (obs, e, w1) ->
  IsNotFound e = false ->
  run (CreateIfNotExistSecret c s) w
  = (Ok (Wrap e "retrieving Secret object failed"),
     mkState w1 [EvGet KSecret (GetNamespace s) (GetName s) obs e]).
Proof.
  intros Hget Hnf. unfold CreateIfNotExistSecret. unfold_calls.
  rewrite Hget, Hnf. reflexivity.
Qed.

End ReturnsFacts.

(** C4, where the code departs from it.  The server answers the read of the
    route with Forbidden: [CreateRouteIfNotExists] makes no other call and
    returns nil, the error is lost; on the same answer
    [CreateIfNotExistSecret] returns the error wrapped.  And the first read
    of a schema fails in the transport: the poll of
    [WaitForPrometheusOperatorCRDsReady] ends with that error, after that one
    call, and the method returns nil. *)
Theorem CreateRouteIfNotExists_drops_read_error :
  run (CreateRouteIfNotExists Mock.client Mock.prometheusRoute)
      (Mock.readForbidden KRoute)
  = (Ok None,
     mkState []
       [EvGet KRoute Mock.monitoring "prometheus-k8s" (Mock.zero KRoute)
          (Some (StatusError StatusReasonForbidden "forbidden"))])
  /\ run (CreateIfNotExistSecret Mock.client Mock.grafanaDatasources)
         (Mock.readForbidden KSecret)
     = (Ok (Some (withMessage (StatusError StatusReasonForbidden "forbidden")
                    "retrieving Secret object failed")),
        mkState []
          [EvGet KSecret Mock.monitoring "grafana-datasources"
             (Mock.zero KSecret)
             (Some (StatusError StatusReasonForbidden "forbidden"))])
  /\ run (WaitForPrometheusOperatorCRDsReady Mock.client Mock.DefaultCrdKinds
            Mock.Group Mock.NewCustomResourceDefinition)
         [Mock.ReplyObj KCustomResourceDefinition
            (Mock.zero KCustomResourceDefinition) Mock.refused]
     = (Ok None,
        mkState []
          [EvGet KCustomResourceDefinition NamespaceNone
             "prometheuses.monitoring.coreos.com"
             (Mock.zero KCustomResourceDefinition) Mock.refused]).
Proof. vm_compute. repeat split. Qed.

(** ** Reconciling an object that is there *)

Section ReconcileFacts.

Variable World : Type.
Variable c : Client World.

(** The kinds that are reconciled by a read and then a create or an update,
    with no wait: on an object that is there, the read and one update. *)
Lemma CreateOrUpdate_present_plain (k : Kind)
  (f : objOf k -> M World (option error)) (desired obs : objOf k)
  (w w1 : World) :
  CreateOrUpdate c k = Some f ->
  k <> KServiceAccount ->
  waitsForRollout k = false ->
  doGet (clientset c) k (namespaceOf k desired) (Name (metaOf k desired)) w
    = (obs, None, w1) ->
  exists sent ret e w2 msg,
    doUpdate (clientset c) k (namespaceOf k desired) sent w1 = (ret, e, w2)
    /\ run (f desired) w
       = (Ok (Wrap e msg),
          mkState w2
            [EvGet k (namespaceOf k desired) (Name (metaOf k desired)) obs None;
             EvUpdate k (namespaceOf k desired) sent ret e])
    /\ (carriesResourceVersion k = true ->
        ResourceVersion (metaOf k sent) = ResourceVersion (metaOf k obs))
    /\ (carriesResourceVersion k = false -> sent = desired).
Proof.
  intros Hf Hsa Hwait Hget.
  destruct k; cbn in Hf; try discriminate; try congruence;
    inversion Hf; subst f; clear Hf;
    cbn [namespaceOf metaOf] in *;
    unfold CreateOrUpdateSecurityContextConstraints, CreateOrUpdatePrometheus,
      CreateOrUpdatePrometheusRule, CreateOrUpdateAlertmanager,
      CreateOrUpdateServiceMonitor, CreateOrUpdateSecret,
      CreateOrUpdateConfigMap, CreateOrUpdateService, CreateOrUpdateEndpoints,
      CreateOrUpdateRoleBinding, CreateOrUpdateRole, CreateOrUpdateClusterRole,
      CreateOrUpdateClusterRoleBinding, CreateOrUpdateIngress;
    unfold_calls; unfold GetName, GetNamespace;
    cbn [GetObjectMeta Object_Manifest Object_Service Object_Prometheus
           Object_Alertmanager];
    rewrite Hget;
    cbn [IsNotFound ReasonForError StatusReason_eqb notNil];
    match goal with
    | |- context [doUpdate ?i ?k ?ns ?o ?w] =>
        destruct (doUpdate i k ns o w) as [[ret e] w2] eqn:Hupd;
        exists o, ret, e, w2
    end;
    eexists; (split; [exact Hupd|]); (split; [reflexivity|]);
    split; intros Hc; try discriminate Hc; try reflexivity.
  destruct (ServiceSpec_Type _ =? ServiceTypeClusterIP); reflexivity.
Qed.

(** A service that is there: the version read back is assigned, and the
    address read back when the declared type is ClusterIP. *)
Lemma CreateOrUpdateService_present (svc obs : Service) (w w1 : World) :
  doGet (clientset c) KService (GetNamespace svc) (GetName svc) w
    = (obs, None, w1) ->
  exists sent ret e w2,
    doUpdate (clientset c) KService (GetNamespace svc) sent w1 = (ret, e, w2)
    /\ run (CreateOrUpdateService c svc) w
       = (Ok (Wrap e "updating Service object failed"),
          mkState w2
            [EvGet KService (GetNamespace svc) (GetName svc) obs None;
             EvUpdate KService (GetNamespace svc) sent ret e])
    /\ ResourceVersion (Service_ObjectMeta sent)
       = ResourceVersion (Service_ObjectMeta obs)
    /\ (ServiceSpec_Type (Service_Spec svc) = ServiceTypeClusterIP ->
        ServiceSpec_ClusterIP (Service_Spec sent)
        = ServiceSpec_ClusterIP (Service_Spec obs))
    /\ (ServiceSpec_Type (Service_Spec svc) <> ServiceTypeClusterIP ->
        Service_Spec sent = Service_Spec svc).
Proof.
  intros Hget. unfold CreateOrUpdateService. unfold_calls.
  rewrite Hget. cbn [IsNotFound ReasonForError StatusReason_eqb notNil].
  match goal with
  | |- context [doUpdate ?i ?k ?ns ?o ?w] =>
      destruct (doUpdate i k ns o w) as [[ret e] w2] eqn:Hupd;
      exists o, ret, e, w2
  end.
  split; [exact Hupd|]. split; [reflexivity|].
  cbn [Service_setResourceVersion Service_Spec Service_ObjectMeta].
  destruct (String.eqb_spec (ServiceSpec_Type (Service_Spec svc))
              ServiceTypeClusterIP) as [Heq|Hne].
  - repeat split; try reflexivity. intros Hc. contradiction.
  - repeat split; try reflexivity. intros Hc. contradiction.
Qed.

Lemma pendingDeploymentRead_isGet (dep : Deployment) (reads : list Event) :
  Forall (pendingDeploymentRead dep) reads -> forallb isGet reads = true.
Proof.
  induction 1 as [|ev reads (d & -> & _) _ IH]; [reflexivity|].
  cbn [forallb isGet]. exact IH.
Qed.

Lemma pendingDaemonSetRead_isGet (ds : DaemonSet) (reads : list Event) :
  Forall (pendingDaemonSetRead ds) reads -> forallb isGet reads = true.
Proof.
  induction 1 as [|ev reads (d & -> & _) _ IH]; [reflexivity|].
  cbn [forallb isGet]. exact IH.
Qed.

(** A deployment that is there: the read, the update of the object as it
    is declared, and, when the update succeeded, the reads of the rollout
    poll. *)
Lemma CreateOrUpdateDeployment_present (dep obs : Deployment) (w w1 : World) :
  doGet (clientset c) KDeployment (GetNamespace dep) (GetName dep) w
    = (obs, None, w1) ->
  exists ret e reads,
    trace (snd (run (CreateOrUpdateDeployment c dep) w))
    = EvGet KDeployment (GetNamespace dep) (GetName dep) obs None
      :: EvUpdate KDeployment (GetNamespace dep) dep ret e :: reads
    /\ forallb isGet reads = true
    /\ (e = None <-> reads <> []).
Proof.
  intros Hget. unfold run. rewrite CreateOrUpdateDeployment_run.
  cbn [world trace app]. rewrite Hget. cbv zeta.
  cbn [IsNotFound ReasonForError StatusReason_eqb notNil].
  destruct (doUpdate _ _ _ _ _) as [[written e1] w2].
  destruct e1 as [e1|]; cbn [notNil].
  - exists written, (Some e1), []. cbn [snd trace app].
    repeat split; try discriminate. intros H; contradiction.
  - destruct (WaitForDeploymentRollout_total _ c written
                (mkState w2
                   [EvGet KDeployment (GetNamespace dep) (GetName dep) obs None;
                    EvUpdate KDeployment (GetNamespace dep) dep written None]))
      as (r & s' & HW).
    rewrite HW. cbn [snd].
    apply WaitForDeploymentRollout_inv in HW.
    destruct HW as (reads & d & e & Htr & Hall & _).
    cbn [trace app] in Htr.
    exists written, None,
      (reads ++ [EvGet KDeployment (GetNamespace written) (GetName written)
                   d e])%list.
    split; [exact Htr|]. split.
    + rewrite forallb_app, (pendingDeploymentRead_isGet _ _ Hall).
      reflexivity.
    + split; [|reflexivity]. intros _ Hnil.
      apply app_eq_nil in Hnil. destruct Hnil as [_ Hnil]. discriminate.
Qed.

Lemma CreateOrUpdateDaemonSet_present (ds obs : DaemonSet) (w w1 : World) :
  doGet (clientset c) KDaemonSet (GetNamespace ds) (GetName ds) w
    = (obs, None, w1) ->
  exists ret e reads,
    trace (snd (run (CreateOrUpdateDaemonSet c ds) w))
    = EvGet KDaemonSet (GetNamespace ds) (GetName ds) obs None
      :: EvUpdate KDaemonSet (GetNamespace ds) ds ret e :: reads
    /\ forallb isGet reads = true
    /\ (e = None <-> reads <> []).
Proof.
  intros Hget. unfold run. rewrite CreateOrUpdateDaemonSet_run.
  cbn [world trace app]. rewrite Hget. cbv zeta.
  cbn [IsNotFound ReasonForError StatusReason_eqb notNil].
  destruct (doUpdate _ _ _ _ _) as [[written e1] w2].
  destruct e1 as [e1|]; cbn [notNil].
  - exists written, (Some e1), []. cbn [snd trace app].
    repeat split; try discriminate. intros H; contradiction.
  - destruct (WaitForDaemonSetRollout_total _ c written
                (mkState w2
                   [EvGet KDaemonSet (GetNamespace ds) (GetName ds) obs None;
                    EvUpdate KDaemonSet (GetNamespace ds) ds written None]))
      as (r & s' & HW).
    rewrite HW. cbn [snd].
    apply WaitForDaemonSetRollout_inv in HW.
    destruct HW as (reads & d & e & Htr & Hall & _).
    cbn [trace app] in Htr.
    exists written, None,
      (reads ++ [EvGet KDaemonSet (GetNamespace written) (GetName written)
                   d e])%list.
    split; [exact Htr|]. split.
    + rewrite forallb_app, (pendingDaemonSetRead_isGet _ _ Hall).
      reflexivity.
    + split; [|reflexivity]. intros _ Hnil.
      apply app_eq_nil in Hnil. destruct Hnil as [_ Hnil]. discriminate.
Qed.

End ReconcileFacts.

(** C1, as the code has it.  On an object that is there:
    - every kind that is reconciled with no wait (all but service accounts,
      deployments and daemon sets) makes one Get, no Create and one Update;
      the object sent has the version read back for services and endpoints,
      and is the object as declared, unchanged, for every other kind;
    - a service is sent with the version read back, with the address read
      back when its declared type is ClusterIP, and with its declared
      specification otherwise;
    - for a deployment and for a daemon set the calls are the Get, the Update
      of the object as declared, and then reads only: none when the update
      failed, those of the rollout poll when it succeeded. *)
Theorem CreateOrUpdate_present (World : Type) (c : Client World) :
  (forall (k : Kind) (f : objOf k -> M World (option error))
          (desired obs : objOf k) (w w1 : World),
     CreateOrUpdate c k = Some f ->
     k <> KServiceAccount ->
     waitsForRollout k = false ->
     doGet (clientset c) k (namespaceOf k desired) (Name (metaOf k desired)) w
       = (obs, None, w1) ->
     exists sent ret e w2 msg,
       doUpdate (clientset c) k (namespaceOf k desired) sent w1 = (ret, e, w2)
       /\ run (f desired) w
          = (Ok (Wrap e msg),
             mkState w2
               [EvGet k (namespaceOf k desired) (Name (metaOf k desired))
                  obs None;
                EvUpdate k (namespaceOf k desired) sent ret e])
       /\ count isGet (trace (snd (run (f desired) w))) = 1%nat
       /\ count isCreate (trace (snd (run (f desired) w))) = 0%nat
       /\ count isUpdate (trace (snd (run (f desired) w))) = 1%nat
       /\ (carriesResourceVersion k = true ->
           ResourceVersion (metaOf k sent) = ResourceVersion (metaOf k obs))
       /\ (carriesResourceVersion k = false -> sent = desired))
  /\ (forall (svc obs : Service) (w w1 : World),
        doGet (clientset c) KService (GetNamespace svc) (GetName svc) w
          = (obs, None, w1) ->
        exists sent ret e w2,
          doUpdate (clientset c) KService (GetNamespace svc) sent w1
            = (ret, e, w2)
          /\ run (CreateOrUpdateService c svc) w
             = (Ok (Wrap e "updating Service object failed"),
                mkState w2
                  [EvGet KService (GetNamespace svc) (GetName svc) obs None;
                   EvUpdate KService (GetNamespace svc) sent ret e])
          /\ ResourceVersion (Service_ObjectMeta sent)
             = ResourceVersion (Service_ObjectMeta obs)
          /\ (ServiceSpec_Type (Service_Spec svc) = ServiceTypeClusterIP ->
              ServiceSpec_ClusterIP (Service_Spec sent)
              = ServiceSpec_ClusterIP (Service_Spec obs))
          /\ (ServiceSpec_Type (Service_Spec svc) <> ServiceTypeClusterIP ->
              Service_Spec sent = Service_Spec svc))
  /\ (forall (dep obs : Deployment) (w w1 : World),
        doGet (clientset c) KDeployment (GetNamespace dep) (GetName dep) w
          = (obs, None, w1) ->
        exists ret e reads,
          trace (snd (run (CreateOrUpdateDeployment c dep) w))
          = EvGet KDeployment (GetNamespace dep) (GetName dep) obs None
            :: EvUpdate KDeployment (GetNamespace dep) dep ret e :: reads
          /\ forallb isGet reads = true
          /\ (e = None <-> reads <> []))
  /\ (forall (ds obs : DaemonSet) (w w1 : World),
        doGet (clientset c) KDaemonSet (GetNamespace ds) (GetName ds) w
          = (obs, None, w1) ->
        exists ret e reads,
          trace (snd (run (CreateOrUpdateDaemonSet c ds) w))
          = EvGet KDaemonSet (GetNamespace ds) (GetName ds) obs None
            :: EvUpdate KDaemonSet (GetNamespace ds) ds ret e :: reads
          /\ forallb isGet reads = true
          /\ (e = None <-> reads <> [])).
Proof.
  split; [|split; [|split]].
  - intros k f desired obs w w1 Hf Hsa Hwait Hget.
    destruct (CreateOrUpdate_present_plain _ c k f desired obs w w1
                Hf Hsa Hwait Hget)
      as (sent & ret & e & w2 & msg & Hupd & Hrun & Hrv & Hsame).
    exists sent, ret, e, w2, msg. rewrite Hrun. cbn [snd trace].
    repeat split; assumption.
  - apply CreateOrUpdateService_present.
  - apply CreateOrUpdateDeployment_present.
  - apply CreateOrUpdateDaemonSet_present.
Qed.

(** Endpoints that are there are sent with the version read back, and a
    service of type ClusterIP with the address read back as well. *)
Lemma CreateOrUpdate_present_witness :
  (exists sent ret e w2 msg,
     doUpdate (clientset Mock.client) KEndpoints "kube-system" sent
       [Mock.ReplyObj KEndpoints Mock.storedEndpoints None] = (ret, e, w2)
     /\ run (CreateOrUpdateEndpoints Mock.client Mock.declaredEndpoints)
            Mock.endpointsThere
        = (Ok (Wrap e msg),
           mkState w2
             [EvGet KEndpoints "kube-system" "kubelet" Mock.storedEndpoints
                None;
              EvUpdate KEndpoints "kube-system" sent ret e])
     /\ count isGet
          (trace (snd (run (CreateOrUpdateEndpoints Mock.client
                              Mock.declaredEndpoints) Mock.endpointsThere)))
        = 1%nat
     /\ count isCreate
          (trace (snd (run (CreateOrUpdateEndpoints Mock.client
                              Mock.declaredEndpoints) Mock.endpointsThere)))
        = 0%nat
     /\ count isUpdate
          (trace (snd (run (CreateOrUpdateEndpoints Mock.client
                              Mock.declaredEndpoints) Mock.endpointsThere)))
        = 1%nat
     /\ (carriesResourceVersion KEndpoints = true ->
         ResourceVersion (metaOf KEndpoints sent) = "64")
     /\ (carriesResourceVersion KEndpoints = false ->
         sent = Mock.declaredEndpoints))
  /\ (exists sent ret e w2,
        doUpdate (clientset Mock.client) KService Mock.monitoring sent
          [Mock.ReplyObj KService Mock.storedClusterIP None] = (ret, e, w2)
        /\ run (CreateOrUpdateService Mock.client Mock.declaredClusterIP)
               Mock.clusterIPThere
           = (Ok (Wrap e "updating Service object failed"),
              mkState w2
                [EvGet KService Mock.monitoring "alertmanager-main"
                   Mock.storedClusterIP None;
                 EvUpdate KService Mock.monitoring sent ret e])
        /\ ResourceVersion (Service_ObjectMeta sent) = "38"
        /\ (ServiceSpec_Type (Service_Spec Mock.declaredClusterIP)
            = ServiceTypeClusterIP ->
            ServiceSpec_ClusterIP (Service_Spec sent) = "172.30.9.1")
        /\ (ServiceSpec_Type (Service_Spec Mock.declaredClusterIP)
            <> ServiceTypeClusterIP ->
            Service_Spec sent = Service_Spec Mock.declaredClusterIP)).
Proof.
  split.
  - refine (proj1 (CreateOrUpdate_present _ Mock.client)
              KEndpoints (CreateOrUpdateEndpoints Mock.client)
              Mock.declaredEndpoints Mock.storedEndpoints
              Mock.endpointsThere
              [Mock.ReplyObj KEndpoints Mock.storedEndpoints None]
              eq_refl _ eq_refl eq_refl).
    discriminate.
  - exact (proj1 (proj2 (CreateOrUpdate_present _ Mock.client))
             Mock.declaredClusterIP Mock.storedClusterIP
             Mock.clusterIPThere
             [Mock.ReplyObj KService Mock.storedClusterIP None]
             eq_refl).
Defined.

(** C1 as stated fails.  A Prometheus that is there at version 5 is updated
    with the object as declared, which has no version.  A service of type
    NodePort that is there is updated with no address, not with the address
    read back.  And reconciling a deployment that is there makes, after the
    update, the reads of the rollout poll: three Gets here, not one. *)
Lemma CreateOrUpdate_present_not_carried :
  (run (CreateOrUpdatePrometheus Mock.client Mock.declaredPrometheus)
       Mock.prometheusThere
   = (Ok None,
      mkState []
        [EvGet KPrometheus Mock.monitoring "k8s" Mock.k8s None;
         EvUpdate KPrometheus Mock.monitoring Mock.declaredPrometheus
           Mock.k8s None])
   /\ ResourceVersion (Prometheus_ObjectMeta Mock.declaredPrometheus)
      <> ResourceVersion (Prometheus_ObjectMeta Mock.k8s))
  /\ (exists sent,
        run (CreateOrUpdateService Mock.client Mock.declaredNodePort)
            Mock.nodePortThere
        = (Ok None,
           mkState []
             [EvGet KService Mock.monitoring "prometheus-k8s"
                Mock.storedNodePort None;
              EvUpdate KService Mock.monitoring sent Mock.storedNodePort None])
        /\ ServiceSpec_ClusterIP (Service_Spec sent) = ""
        /\ ServiceSpec_ClusterIP (Service_Spec Mock.storedNodePort)
           = "172.30.14.2")
  /\ (fst (run (CreateOrUpdateDeployment Mock.client Mock.declaredDeployment)
             Mock.updateAndRollOut) = Ok None
      /\ count isGet
           (trace (snd (run (CreateOrUpdateDeployment Mock.client
                               Mock.declaredDeployment)
                          Mock.updateAndRollOut)))
         = 3%nat).
Proof.
  split; [|split].
  - split; [vm_compute; reflexivity | vm_compute; discriminate].
  - eexists. split; [vm_compute; reflexivity | split; reflexivity].
  - split; vm_compute; reflexivity.
Qed.

(** * More of the client *)

(** ** Reconciling, whatever the server answers *)

Section ReconcileRunFacts.

Variable World : Type.
Variable c : Client World.

(** The reconcile operation of a kind that does not wait, call by call. *)
Lemma CreateOrUpdate_run (k : Kind) (f : objOf k -> M World (option error))
  (desired : objOf k) (w : World) :
  CreateOrUpdate c k = Some f ->
  waitsForRollout k = false ->
  run (f desired) w =
  let ns := namespaceOf k desired in
  let name := Name (metaOf k desired) in
  let '(obs, e0, w1) := doGet (clientset c) k ns name w in
  let read := EvGet k ns name obs e0 in
  if IsNotFound e0 then
    let '(ret, e1, w2) := doCreate (clientset c) k ns desired w1 in
    (Ok (Wrap e1 ("creating " ++ kindName k ++ " object failed")),
     mkState w2 [read; EvCreate k ns desired ret e1])
  else if notNil e0 then
    (Ok (Wrap e0 ("retrieving " ++ kindName k ++ " object failed")),
     mkState w1 [read])
  else
    match k with
    | KServiceAccount => (Ok None, mkState w1 [read])
    | _ =>
        let '(ret, e1, w2) :=
          doUpdate (clientset c) k ns (sentOnUpdate k obs desired) w1 in
        (Ok (Wrap e1 (updateVerb k ++ " " ++ kindName k ++ " object failed")),
         mkState w2 [read; EvUpdate k ns (sentOnUpdate k obs desired) ret e1])
    end.
Proof.
  intros Hf Hwait.
  destruct k; cbn in Hf; try discriminate;
    inversion Hf; subst f; clear Hf;
    cbn [namespaceOf metaOf kindName updateVerb sentOnUpdate append];
    unfold CreateOrUpdateSecurityContextConstraints, CreateOrUpdatePrometheus,
      CreateOrUpdatePrometheusRule, CreateOrUpdateAlertmanager,
      CreateOrUpdateServiceMonitor, CreateOrUpdateSecret,
      CreateOrUpdateConfigMap, CreateOrUpdateService, CreateOrUpdateEndpoints,
      CreateOrUpdateRoleBinding, CreateOrUpdateRole, CreateOrUpdateClusterRole,
      CreateOrUpdateClusterRoleBinding, CreateOrUpdateIngress,
      CreateOrUpdateServiceAccount;
    unfold_calls; unfold GetName, GetNamespace;
    cbn [GetObjectMeta Object_Manifest Object_Service Object_Prometheus
           Object_Alertmanager];
    destruct (doGet _ _ _ _ _) as [[obs e0] w1];
    destruct (IsNotFound e0);
    try (destruct (doCreate _ _ _ _ _) as [[ret e1] w2]; reflexivity);
    destruct e0 as [e0|]; cbn [notNil Wrap]; try reflexivity;
    destruct (doUpdate _ _ _ _ _) as [[ret e1] w2]; reflexivity.
Qed.

End ReconcileRunFacts.

Lemma reads_write_nothing (reads : list Event) :
  forallb isGet reads = true ->
  count isCreate reads = 0%nat /\ count isUpdate reads = 0%nat
  /\ count isDelete reads = 0%nat.
Proof.
  unfold count. induction reads as [|ev reads IH]; [auto|].
  cbn [forallb]. rewrite andb_true_iff. intros [Hev Hall].
  destruct ev; try discriminate Hev. cbn [filter isCreate isUpdate isDelete].
  apply IH, Hall.
Qed.

Section ReconcileAbsentFacts.

Variable World : Type.
Variable c : Client World.

(** A deployment that is not there: the read, the creation of the object
    as it is declared, and, when the creation succeeded, the reads of the
    rollout poll. *)
Lemma CreateOrUpdateDeployment_absent (dep obs : Deployment) (w w1 : World)
  (e0 : option error) :
  doGet (clientset c) KDeployment (GetNamespace dep) (GetName dep) w
    = (obs, e0, w1) ->
  IsNotFound e0 = true ->
  exists ret e reads,
    trace (snd (run (CreateOrUpdateDeployment c dep) w))
    = EvGet KDeployment (GetNamespace dep) (GetName dep) obs e0
      :: EvCreate KDeployment (GetNamespace dep) dep ret e :: reads
    /\ forallb isGet reads = true
    /\ (e = None <-> reads <> []).
Proof.
  intros Hget Hnf. unfold run. rewrite CreateOrUpdateDeployment_run.
  cbn [world trace app]. rewrite Hget. cbv zeta. rewrite Hnf.
  destruct (doCreate _ _ _ _ _) as [[written e1] w2].
  destruct e1 as [e1|]; cbn [notNil].
  - exists written, (Some e1), []. cbn [snd trace app].
    repeat split; try discriminate. intros H; contradiction.
  - destruct (WaitForDeploymentRollout_total _ c written
                (mkState w2
                   [EvGet KDeployment (GetNamespace dep) (GetName dep) obs e0;
                    EvCreate KDeployment (GetNamespace dep) dep written None]))
      as (r & s' & HW).
    rewrite HW. cbn [snd].
    apply WaitForDeploymentRollout_inv in HW.
    destruct HW as (reads & d & e & Htr & Hall & _).
    cbn [trace app] in Htr.
    exists written, None,
      (reads ++ [EvGet KDeployment (GetNamespace written) (GetName written)
                   d e])%list.
    split; [exact Htr|]. split.
    + rewrite forallb_app, (pendingDeploymentRead_isGet _ _ Hall).
      reflexivity.
    + split; [|reflexivity]. intros _ Hnil.
      apply app_eq_nil in Hnil. destruct Hnil as [_ Hnil]. discriminate.
Qed.

Lemma CreateOrUpdateDaemonSet_absent (ds obs : DaemonSet) (w w1 : World)
  (e0 : option error) :
  doGet (clientset c) KDaemonSet (GetNamespace ds) (GetName ds) w
    = (obs, e0, w1) ->
  IsNotFound e0 = true ->
  exists ret e reads,
    trace (snd (run (CreateOrUpdateDaemonSet c ds) w))
    = EvGet KDaemonSet (GetNamespace ds) (GetName ds) obs e0
      :: EvCreate KDaemonSet (GetNamespace ds) ds ret e :: reads
    /\ forallb isGet reads = true
    /\ (e = None <-> reads <> []).
Proof.
  intros Hget Hnf. unfold run. rewrite CreateOrUpdateDaemonSet_run.
  cbn [world trace app]. rewrite Hget. cbv zeta. rewrite Hnf.
  destruct (doCreate _ _ _ _ _) as [[written e1] w2].
  destruct e1 as [e1|]; cbn [notNil].
  - exists written, (Some e1), []. cbn [snd trace app].
    repeat split; try discriminate. intros H; contradiction.
  - destruct (WaitForDaemonSetRollout_total _ c written
                (mkState w2
                   [EvGet KDaemonSet (GetNamespace ds) (GetName ds) obs e0;
                    EvCreate KDaemonSet (GetNamespace ds) ds written None]))
      as (r & s' & HW).
    rewrite HW. cbn [snd].
    apply WaitForDaemonSetRollout_inv in HW.
    destruct HW as (reads & d & e & Htr & Hall & _).
    cbn [trace app] in Htr.
    exists written, None,
      (reads ++ [EvGet KDaemonSet (GetNamespace written) (GetName written)
                   d e])%list.
    split; [exact Htr|]. split.
    + rewrite forallb_app, (pendingDaemonSetRead_isGet _ _ Hall).
      reflexivity.
    + split; [|reflexivity]. intros _ Hnil.
      apply app_eq_nil in Hnil. destruct Hnil as [_ Hnil]. discriminate.
Qed.

(** X1.  Reconciling an object that is not there creates it, as it is
    declared, and updates nothing.  For every kind whose reconcile operation
    does not wait (service accounts among them) the calls are the Get and one
    Create of the declared object, and the result is the error of the Create
    wrapped as "creating <kind> object failed", nil when it has none.  For a
    deployment and a daemon set the Get and the Create are followed by reads
    only, those of the rollout poll when the Create succeeded. *)
Theorem CreateOrUpdate_absent_creates :
  (forall (k : Kind) (f : objOf k -> M World (option error))
          (desired obs created : objOf k) (w w1 w2 : World)
          (e0 e1 : option error),
     CreateOrUpdate c k = Some f ->
     waitsForRollout k = false ->
     doGet (clientset c) k (namespaceOf k desired) (Name (metaOf k desired)) w
       = (obs, e0, w1) ->
     IsNotFound e0 = true ->
     doCreate (clientset c) k (namespaceOf k desired) desired w1
       = (created, e1, w2) ->
     run (f desired) w
     = (Ok (Wrap e1 ("creating " ++ kindName k ++ " object failed")),
        mkState w2
          [EvGet k (namespaceOf k desired) (Name (metaOf k desired)) obs e0;
           EvCreate k (namespaceOf k desired) desired created e1])
     /\ count isGet (trace (snd (run (f desired) w))) = 1%nat
     /\ count isCreate (trace (snd (run (f desired) w))) = 1%nat
     /\ count isUpdate (trace (snd (run (f desired) w))) = 0%nat)
  /\ (forall (dep obs : Deployment) (w w1 : World) (e0 : option error),
        doGet (clientset c) KDeployment (GetNamespace dep) (GetName dep) w
          = (obs, e0, w1) ->
        IsNotFound e0 = true ->
        exists ret e reads,
          trace (snd (run (CreateOrUpdateDeployment c dep) w))
          = EvGet KDeployment (GetNamespace dep) (GetName dep) obs e0
            :: EvCreate KDeployment (GetNamespace dep) dep ret e :: reads
          /\ forallb isGet reads = true
          /\ (e = None <-> reads <> [])
          /\ count isCreate
               (trace (snd (run (CreateOrUpdateDeployment c dep) w))) = 1%nat
          /\ count isUpdate
               (trace (snd (run (CreateOrUpdateDeployment c dep) w))) = 0%nat)
  /\ (forall (ds obs : DaemonSet) (w w1 : World) (e0 : option error),
        doGet (clientset c) KDaemonSet (GetNamespace ds) (GetName ds) w
          = (obs, e0, w1) ->
        IsNotFound e0 = true ->
        exists ret e reads,
          trace (snd (run (CreateOrUpdateDaemonSet c ds) w))
          = EvGet KDaemonSet (GetNamespace ds) (GetName ds) obs e0
            :: EvCreate KDaemonSet (GetNamespace ds) ds ret e :: reads
          /\ forallb isGet reads = true
          /\ (e = None <-> reads <> [])
          /\ count isCreate
               (trace (snd (run (CreateOrUpdateDaemonSet c ds) w))) = 1%nat
          /\ count isUpdate
               (trace (snd (run (CreateOrUpdateDaemonSet c ds) w))) = 0%nat).
Proof.
  split; [|split].
  - intros k f desired obs created w w1 w2 e0 e1 Hf Hwait Hget Hnf Hcreate.
    rewrite (CreateOrUpdate_run _ c k f desired w Hf Hwait).
    cbv zeta. rewrite Hget, Hnf, Hcreate. cbn [snd trace].
    repeat split.
  - intros dep obs w w1 e0 Hget Hnf.
    destruct (CreateOrUpdateDeployment_absent dep obs w w1 e0 Hget Hnf)
      as (ret & e & reads & Htr & Hreads & He).
    exists ret, e, reads. rewrite Htr.
    destruct (reads_write_nothing reads Hreads) as (Hc & Hu & _).
    unfold count in *. cbn [filter isCreate isUpdate length].
    rewrite Hc, Hu. repeat split; try assumption; apply He.
  - intros ds obs w w1 e0 Hget Hnf.
    destruct (CreateOrUpdateDaemonSet_absent ds obs w w1 e0 Hget Hnf)
      as (ret & e & reads & Htr & Hreads & He).
    exists ret, e, reads. rewrite Htr.
    destruct (reads_write_nothing reads Hreads) as (Hc & Hu & _).
    unfold count in *. cbn [filter isCreate isUpdate length].
    rewrite Hc, Hu. repeat split; try assumption; apply He.
Qed.

(** X2.  When the read fails, other than by not-found, nothing is written:
    for every kind that has a reconcile operation the Get is the only call,
    the world is the one the Get left, and the result is the error of the
    Get wrapped as "retrieving <kind> object failed". *)
Theorem CreateOrUpdate_read_failure_writes_nothing
  (k : Kind) (f : objOf k -> M World (option error))
  (desired obs : objOf k) (w w1 : World) (e : error) :
  CreateOrUpdate c k = Some f ->
  doGet (clientset c) k (namespaceOf k desired) (Name (metaOf k desired)) w
    = (obs, Some e, w1) ->
  IsNotFound (Some e) = false ->
  run (f desired) w
  = (Ok (Some (withMessage e ("retrieving " ++ kindName k
                              ++ " object failed"))),
     mkState w1
       [EvGet k (namespaceOf k desired) (Name (metaOf k desired)) obs
          (Some e)]).
Proof.
  intros Hf Hget Hnf.
  destruct (waitsForRollout k) eqn:Hwait.
  - destruct k; try discriminate Hwait; cbn in Hf; inversion Hf; subst f;
      unfold run;
      [rewrite CreateOrUpdateDeployment_run
      | rewrite CreateOrUpdateDaemonSet_run];
      cbn [world trace app]; cbn [namespaceOf metaOf] in Hget;
      unfold GetName, GetNamespace;
      cbn [GetObjectMeta Object_Deployment Object_DaemonSet];
      rewrite Hget; cbv zeta; rewrite Hnf; reflexivity.
  - rewrite (CreateOrUpdate_run _ c k f desired w Hf Hwait).
    cbv zeta. rewrite Hget, Hnf. reflexivity.
Qed.

(** X3.  A reconcile operation that neither waits nor is that of service
    accounts returns nil exactly when its last call is a Create or an Update
    that the server answered without error. *)
Theorem CreateOrUpdate_nil_iff_written
  (k : Kind) (f : objOf k -> M World (option error)) (desired : objOf k)
  (w : World) :
  CreateOrUpdate c k = Some f ->
  waitsForRollout k = false ->
  k <> KServiceAccount ->
  let out := run (f desired) w in
  fst out = Ok None <->
  exists pre obj ret,
    trace (snd out)
    = (pre ++ [EvCreate k (namespaceOf k desired) obj ret None])%list
    \/ trace (snd out)
       = (pre ++ [EvUpdate k (namespaceOf k desired) obj ret None])%list.
Proof.
  intros Hf Hwait Hsa out. subst out.
  rewrite (CreateOrUpdate_run _ c k f desired w Hf Hwait). cbv zeta.
  destruct (doGet _ _ _ _ _) as [[obs e0] w1].
  assert (Htail : forall (a b x : Event) (pre : list Event),
             [a; b] = (pre ++ [x])%list -> b = x).
  { intros a b x pre H. change [a; b] with ([a] ++ [b])%list in H.
    apply app_inj_tail in H. apply H. }
  assert (Hone : forall (a x : Event) (pre : list Event),
             [a] = (pre ++ [x])%list -> a = x).
  { intros a x pre H. change [a] with ([] ++ [a])%list in H.
    apply app_inj_tail in H. apply H. }
  destruct (IsNotFound e0).
  - destruct (doCreate _ _ _ _ _) as [[ret e1] w2]. cbn [fst snd trace].
    split.
    + intros H. destruct e1; [discriminate|].
      eexists [_], desired, ret. left. reflexivity.
    + intros (pre & obj & ret' & [H|H]); apply Htail in H.
      * inversion H; subst. reflexivity.
      * discriminate H.
  - destruct e0 as [e0|]; cbn [notNil Wrap fst snd trace].
    + split; [discriminate|].
      intros (pre & obj & ret' & [H|H]); apply Hone in H; discriminate H.
    + destruct k; try congruence; try discriminate Hwait;
        destruct (doUpdate _ _ _ _ _) as [[ret e1] w2]; cbn [fst snd trace];
        (split;
         [ intros H; destruct e1; [discriminate|];
           eexists [_], _, ret; right; reflexivity
         | intros (pre & obj & ret' & [H|H]); apply Htail in H;
           [ discriminate H | inversion H; subst; reflexivity ] ]).
Qed.

End ReconcileAbsentFacts.

Lemma CreateOrUpdate_absent_creates_witness :
  run (CreateOrUpdateSecret Mock.client Mock.grafanaDatasources)
      Mock.secretAbsent
  = (Ok None,
     mkState []
       [EvGet KSecret Mock.monitoring "grafana-datasources"
          (Mock.zero KSecret) Mock.notFound;
        EvCreate KSecret Mock.monitoring Mock.grafanaDatasources
          Mock.grafanaDatasources None]).
Proof.
  exact (proj1 (proj1 (CreateOrUpdate_absent_creates _ Mock.client)
                  KSecret (CreateOrUpdateSecret Mock.client)
                  Mock.grafanaDatasources (Mock.zero KSecret)
                  Mock.grafanaDatasources Mock.secretAbsent
                  [Mock.ReplyObj KSecret Mock.grafanaDatasources None] []
                  Mock.notFound None eq_refl eq_refl eq_refl eq_refl eq_refl)).
Defined.

Lemma CreateOrUpdate_read_failure_writes_nothing_witness :
  run (CreateOrUpdateConfigMap Mock.client Mock.clusterMonitoringConfig)
      (Mock.readForbidden KConfigMap)
  = (Ok (Some (withMessage (StatusError StatusReasonForbidden "forbidden")
                 "retrieving ConfigMap object failed")),
     mkState []
       [EvGet KConfigMap Mock.monitoring "cluster-monitoring-config"
          (Mock.zero KConfigMap) Mock.forbidden]).
Proof.
  exact (CreateOrUpdate_read_failure_writes_nothing _ Mock.client
           KConfigMap (CreateOrUpdateConfigMap Mock.client)
           Mock.clusterMonitoringConfig (Mock.zero KConfigMap)
           (Mock.readForbidden KConfigMap) []
           (StatusError StatusReasonForbidden "forbidden")
           eq_refl eq_refl eq_refl).
Defined.

Lemma CreateOrUpdate_nil_iff_written_witness :
  exists pre obj ret,
    trace (snd (run (CreateOrUpdateSecret Mock.client Mock.grafanaDatasources)
                  Mock.secretAbsent))
    = (pre ++ [EvCreate KSecret Mock.monitoring obj ret None])%list
    \/ trace (snd (run (CreateOrUpdateSecret Mock.client
                          Mock.grafanaDatasources) Mock.secretAbsent))
       = (pre ++ [EvUpdate KSecret Mock.monitoring obj ret None])%list.
Proof.
  refine (proj1 (CreateOrUpdate_nil_iff_written _ Mock.client
                   KSecret (CreateOrUpdateSecret Mock.client)
                   Mock.grafanaDatasources Mock.secretAbsent
                   eq_refl eq_refl _) eq_refl).
  discriminate.
Defined.

(** ** A list of config maps *)

Section ConfigMapListFacts.

Variable World : Type.
Variable c : Client World.

Lemma CreateOrUpdateConfigMapList_cons (cm : Manifest) (rest : list Manifest)
  (s : State World) :
  CreateOrUpdateConfigMapList c (cm :: rest) s =
  match CreateOrUpdateConfigMap c cm s with
  | (Ok None, s1) => CreateOrUpdateConfigMapList c rest s1
  | (Ok (Some e), s1) => (Ok (Some e), s1)
  | (Panic msg, s1) => (Panic msg, s1)
  end.
Proof.
  cbn [CreateOrUpdateConfigMapList]. unfold bind, ret.
  destruct (CreateOrUpdateConfigMap c cm s) as [[[e|]|msg] s1]; reflexivity.
Qed.

Lemma CreateOrUpdateConfigMapList_all (cml : list Manifest) :
  forall s s', AllReconciled c cml s s' ->
               CreateOrUpdateConfigMapList c cml s = (Ok None, s').
Proof.
  induction cml as [|cm rest IH]; intros s s' H; inversion H; subst.
  - reflexivity.
  - rewrite CreateOrUpdateConfigMapList_cons.
    match goal with H : CreateOrUpdateConfigMap _ _ _ = _ |- _ => rewrite H end.
    apply IH. assumption.
Qed.

Lemma CreateOrUpdateConfigMapList_stops (pre : list Manifest) :
  forall (cm : Manifest) (post : list Manifest) s s1 s2 e,
    AllReconciled c pre s s1 ->
    CreateOrUpdateConfigMap c cm s1 = (Ok (Some e), s2) ->
    CreateOrUpdateConfigMapList c (pre ++ cm :: post)%list s
    = (Ok (Some e), s2).
Proof.
  induction pre as [|x pre IH]; intros cm post s s1 s2 e H Hcm;
    inversion H; subst; cbn [app]; rewrite CreateOrUpdateConfigMapList_cons.
  - rewrite Hcm. reflexivity.
  - match goal with H : CreateOrUpdateConfigMap _ x _ = _ |- _ => rewrite H end.
    eapply IH; eassumption.
Qed.

Lemma CreateOrUpdateConfigMapList_inv (cml : list Manifest) :
  forall s r s',
    CreateOrUpdateConfigMapList c cml s = (Ok r, s') ->
    match r with
    | None => AllReconciled c cml s s'
    | Some e =>
        exists pre cm post s1,
          cml = (pre ++ cm :: post)%list /\ AllReconciled c pre s s1
          /\ CreateOrUpdateConfigMap c cm s1 = (Ok (Some e), s')
    end.
Proof.
  induction cml as [|cm rest IH]; intros s r s' H.
  - cbn in H. unfold ret in H. inversion H; subst. constructor.
  - rewrite CreateOrUpdateConfigMapList_cons in H.
    destruct (CreateOrUpdateConfigMap c cm s) as [[[e|]|msg] s1] eqn:Hcm;
      try discriminate.
    + inversion H; subst. exists [], cm, rest, s.
      repeat split; [constructor | exact Hcm].
    + specialize (IH _ _ _ H). destruct r as [e|].
      * destruct IH as (pre & x & post & s2 & -> & Hpre & Hx).
        exists (cm :: pre), x, post, s2. repeat split; auto.
        econstructor; eassumption.
      * econstructor; eassumption.
Qed.

(** X4.  [CreateOrUpdateConfigMapList] reconciles the config maps in the
    order of the list and stops at the first one that fails: it returns nil
    exactly when every one was reconciled without error, one after the other;
    and it returns an error exactly when that is the error of one config map
    of the list, those before it were reconciled without error, and the state
    it ends in is the one that reconcile left: nothing is called for the
    config maps after it. *)
Theorem CreateOrUpdateConfigMapList_stops_at_first_error
  (cml : list Manifest) (s s' : State World) :
  (CreateOrUpdateConfigMapList c cml s = (Ok None, s')
   <-> AllReconciled c cml s s')
  /\ (forall e,
        CreateOrUpdateConfigMapList c cml s = (Ok (Some e), s')
        <-> exists pre cm post s1,
              cml = (pre ++ cm :: post)%list /\ AllReconciled c pre s s1
              /\ CreateOrUpdateConfigMap c cm s1 = (Ok (Some e), s')).
Proof.
  split.
  - split.
    + intros H. exact (CreateOrUpdateConfigMapList_inv cml s None s' H).
    + apply CreateOrUpdateConfigMapList_all.
  - intros e. split.
    + intros H. exact (CreateOrUpdateConfigMapList_inv cml s (Some e) s' H).
    + intros (pre & cm & post & s1 & -> & Hpre & Hcm).
      eapply CreateOrUpdateConfigMapList_stops; eassumption.
Qed.

End ConfigMapListFacts.

(** The first config map is updated, the read of the second is refused, and
    the third is never asked for: its answer is still to be given. *)
Lemma CreateOrUpdateConfigMapList_stops_at_first_error_witness :
  run (CreateOrUpdateConfigMapList Mock.client
         [Mock.configMapA; Mock.configMapB; Mock.configMapC])
      Mock.secondRefused
  = (Ok (Some (withMessage (StatusError StatusReasonForbidden "forbidden")
                 "retrieving ConfigMap object failed")),
     mkState [Mock.ReplyObj KConfigMap Mock.configMapC None]
       [EvGet KConfigMap Mock.monitoring "prometheus-k8s-rules"
          Mock.configMapA None;
        EvUpdate KConfigMap Mock.monitoring Mock.configMapA Mock.configMapA
          None;
        EvGet KConfigMap Mock.monitoring "grafana-dashboards"
          (Mock.zero KConfigMap) Mock.forbidden]).
Proof.
  apply (proj2 (proj2 (CreateOrUpdateConfigMapList_stops_at_first_error
                         _ Mock.client
                         [Mock.configMapA; Mock.configMapB; Mock.configMapC]
                         (mkState Mock.secondRefused []) _) _)).
  exists [Mock.configMapA], Mock.configMapB, [Mock.configMapC].
  eexists. split; [reflexivity|]. split.
  - econstructor; [reflexivity | constructor].
  - reflexivity.
Defined.

(** ** Rollout of a daemon set *)

Lemma daemonSetRolledOut_iff (d : DaemonSet) :
  daemonSetRolledOut d = true <->
  Generation (DaemonSet_ObjectMeta d)
    <= DaemonSetStatus_ObservedGeneration (DaemonSet_Status d)
  /\ DaemonSetStatus_UpdatedNumberScheduled (DaemonSet_Status d)
     = DaemonSetStatus_DesiredNumberScheduled (DaemonSet_Status d)
  /\ DaemonSetStatus_NumberUnavailable (DaemonSet_Status d) = 0.
Proof.
  unfold daemonSetRolledOut.
  rewrite !andb_true_iff, Z.leb_le, !Z.eqb_eq. tauto.
Qed.

(** X5.  The condition of the rollout of a daemon set, on an object read
    back without error, says ready exactly when the generation is at most
    the observed generation, as many pods are updated as are desired and
    none is unavailable; otherwise it says pending, with no error. *)
Theorem DaemonSetRolloutCondition_ready_iff (World : Type) (c : Client World)
  (ds d : DaemonSet) (w w1 : World) :
  doGet (clientset c) KDaemonSet (GetNamespace ds) (GetName ds) w
    = (d, None, w1) ->
  let verdict := fst (run (DaemonSetRolloutCondition c ds) w) in
  let rolledOut :=
    Generation (DaemonSet_ObjectMeta d)
      <= DaemonSetStatus_ObservedGeneration (DaemonSet_Status d)
    /\ DaemonSetStatus_UpdatedNumberScheduled (DaemonSet_Status d)
       = DaemonSetStatus_DesiredNumberScheduled (DaemonSet_Status d)
    /\ DaemonSetStatus_NumberUnavailable (DaemonSet_Status d) = 0 in
  (verdict = Ok (true, None) <-> rolledOut)
  /\ (verdict = Ok (false, None) <-> ~ rolledOut).
Proof.
  intros Hget verdict rolledOut. subst verdict rolledOut.
  unfold run. rewrite DaemonSetRolloutCondition_run. cbn [world trace].
  rewrite Hget. cbn [notNil fst].
  rewrite <- daemonSetRolledOut_iff.
  destruct (daemonSetRolledOut d); split; split; intros H;
    try reflexivity; try discriminate; try congruence.
Qed.

Lemma DaemonSetRolloutCondition_ready_iff_witness :
  fst (run (DaemonSetRolloutCondition Mock.client Mock.declaredDaemonSet)
         [Mock.ReplyObj KDaemonSet Mock.daemonSetRollingOut None])
    = Ok (false, None)
  /\ fst (run (DaemonSetRolloutCondition Mock.client Mock.declaredDaemonSet)
            [Mock.ReplyObj KDaemonSet Mock.daemonSetDone None])
       = Ok (true, None).
Proof.
  split.
  - apply (proj2 (DaemonSetRolloutCondition_ready_iff
                    _ Mock.client Mock.declaredDaemonSet
                    Mock.daemonSetRollingOut
                    [Mock.ReplyObj KDaemonSet Mock.daemonSetRollingOut None]
                    [] eq_refl)).
    simpl. lia.
  - apply (proj1 (DaemonSetRolloutCondition_ready_iff
                    _ Mock.client Mock.declaredDaemonSet Mock.daemonSetDone
                    [Mock.ReplyObj KDaemonSet Mock.daemonSetDone None]
                    [] eq_refl)).
    simpl. lia.
Defined.

(** ** Replicas of the monitoring stack *)

Section ReplicaFacts.

Variable World : Type.
Variable c : Client World.

Lemma WaitForPrometheus_condition (p : Prometheus) :
  WaitForPrometheus c p
  = Poll (time.Second * 10) (time.Minute * 5) (PrometheusReadyCondition c p).
Proof. reflexivity. Qed.

Lemma WaitForAlertmanager_condition (a : Alertmanager) :
  WaitForAlertmanager c a
  = Poll (time.Second * 10) (time.Minute * 5) (AlertmanagerReadyCondition c a).
Proof. reflexivity. Qed.

(** One evaluation of the condition, once the object and its status have
    been read without error. *)
Lemma PrometheusReadyCondition_run (p p' : Prometheus) (st : ReplicaStatus)
  (w w1 w2 : World) :
  doGet (clientset c) KPrometheus (GetNamespace p) (GetName p) w
    = (p', None, w1) ->
  doStatus (clientset c) KPrometheus p' w1 = (st, None, w2) ->
  run (PrometheusReadyCondition c p) w =
  (match Prometheus_Spec_Replicas p' with
   | None => Panic nilDereference
   | Some n => Ok ((UpdatedReplicas st =? n)%Z && (AvailableReplicas st >=? n)%Z,
                   None)
   end,
   mkState w2
     [EvGet KPrometheus (GetNamespace p) (GetName p) p' None;
      EvStatus KPrometheus (Namespace (Prometheus_ObjectMeta p'))
        (Name (Prometheus_ObjectMeta p')) st None]).
Proof.
  intros Hget Hst. unfold PrometheusReadyCondition. unfold_calls.
  rewrite Hget. cbn [notNil world trace]. rewrite Hst.
  cbn [notNil metaOf app].
  destruct (Prometheus_Spec_Replicas p') as [n|]; [|reflexivity].
  destruct ((UpdatedReplicas st =? n)%Z && (AvailableReplicas st >=? n)%Z);
    reflexivity.
Qed.

Lemma AlertmanagerReadyCondition_run (a a' : Alertmanager) (st : ReplicaStatus)
  (w w1 w2 : World) :
  doGet (clientset c) KAlertmanager (GetNamespace a) (GetName a) w
    = (a', None, w1) ->
  doStatus (clientset c) KAlertmanager a' w1 = (st, None, w2) ->
  run (AlertmanagerReadyCondition c a) w =
  (match Alertmanager_Spec_Replicas a' with
   | None => Panic nilDereference
   | Some n => Ok ((UpdatedReplicas st =? n)%Z && (AvailableReplicas st >=? n)%Z,
                   None)
   end,
   mkState w2
     [EvGet KAlertmanager (GetNamespace a) (GetName a) a' None;
      EvStatus KAlertmanager (Namespace (Alertmanager_ObjectMeta a'))
        (Name (Alertmanager_ObjectMeta a')) st None]).
Proof.
  intros Hget Hst. unfold AlertmanagerReadyCondition. unfold_calls.
  rewrite Hget. cbn [notNil world trace]. rewrite Hst.
  cbn [notNil metaOf app].
  destruct (Alertmanager_Spec_Replicas a') as [n|]; [|reflexivity].
  destruct ((UpdatedReplicas st =? n)%Z && (AvailableReplicas st >=? n)%Z);
    reflexivity.
Qed.

Lemma replicas_ready_iff (st : ReplicaStatus) (n : Z) :
  (UpdatedReplicas st =? n)%Z && (AvailableReplicas st >=? n)%Z = true
  <-> UpdatedReplicas st = n /\ n <= AvailableReplicas st.
Proof. rewrite andb_true_iff, Z.eqb_eq, Z.geb_le. tauto. Qed.

(** X6.  The conditions of the waits for a Prometheus and for an
    Alertmanager, once the object and its replica status have been read
    without error and the object declares [n] replicas: ready exactly when
    the updated replicas are [n] and the available ones at least [n],
    pending otherwise; and the wait returns nil on the first tick that is
    ready. *)
Theorem WaitForPrometheus_ready_iff :
  (forall (p p' : Prometheus) (st : ReplicaStatus) (n : Z) (w w1 w2 : World),
     doGet (clientset c) KPrometheus (GetNamespace p) (GetName p) w
       = (p', None, w1) ->
     doStatus (clientset c) KPrometheus p' w1 = (st, None, w2) ->
     Prometheus_Spec_Replicas p' = Some n ->
     let verdict := fst (run (PrometheusReadyCondition c p) w) in
     let ready := UpdatedReplicas st = n /\ n <= AvailableReplicas st in
     (verdict = Ok (true, None) <-> ready)
     /\ (verdict = Ok (false, None) <-> ~ ready)
     /\ (ready -> fst (run (WaitForPrometheus c p) w) = Ok None))
  /\ (forall (a a' : Alertmanager) (st : ReplicaStatus) (n : Z)
             (w w1 w2 : World),
        doGet (clientset c) KAlertmanager (GetNamespace a) (GetName a) w
          = (a', None, w1) ->
        doStatus (clientset c) KAlertmanager a' w1 = (st, None, w2) ->
        Alertmanager_Spec_Replicas a' = Some n ->
        let verdict := fst (run (AlertmanagerReadyCondition c a) w) in
        let ready := UpdatedReplicas st = n /\ n <= AvailableReplicas st in
        (verdict = Ok (true, None) <-> ready)
        /\ (verdict = Ok (false, None) <-> ~ ready)
        /\ (ready -> fst (run (WaitForAlertmanager c a) w) = Ok None)).
Proof.
  split.
  - intros p p' st n w w1 w2 Hget Hst Hn verdict ready.
    pose proof (PrometheusReadyCondition_run p p' st w w1 w2 Hget Hst) as Hrun.
    rewrite Hn in Hrun. subst verdict ready. rewrite Hrun. cbn [fst].
    rewrite <- replicas_ready_iff.
    destruct ((UpdatedReplicas st =? n)%Z && (AvailableReplicas st >=? n)%Z)
      eqn:Hb.
    + split; [split; reflexivity|].
      split; [split; [discriminate | intros H; exfalso; apply H; reflexivity]|].
      intros _. rewrite WaitForPrometheus_condition. unfold run in *.
      erewrite Poll_ready_after with (k := 0%nat);
        [reflexivity | apply Ticks_O | apply Nat.le_0_l | exact Hrun].
    + split; [split; discriminate|].
      split; [split; [intros _; discriminate | reflexivity]|]. discriminate.
  - intros a a' st n w w1 w2 Hget Hst Hn verdict ready.
    pose proof (AlertmanagerReadyCondition_run a a' st w w1 w2 Hget Hst)
      as Hrun.
    rewrite Hn in Hrun. subst verdict ready. rewrite Hrun. cbn [fst].
    rewrite <- replicas_ready_iff.
    destruct ((UpdatedReplicas st =? n)%Z && (AvailableReplicas st >=? n)%Z)
      eqn:Hb.
    + split; [split; reflexivity|].
      split; [split; [discriminate | intros H; exfalso; apply H; reflexivity]|].
      intros _. rewrite WaitForAlertmanager_condition. unfold run in *.
      erewrite Poll_ready_after with (k := 0%nat);
        [reflexivity | apply Ticks_O | apply Nat.le_0_l | exact Hrun].
    + split; [split; discriminate|].
      split; [split; [intros _; discriminate | reflexivity]|]. discriminate.
Qed.

(** X7.  A Prometheus, or an Alertmanager, read back with no replica count
    makes the wait panic, on a nil pointer: on the first tick, once the
    object and its status have been read without error.  When the status
    cannot be read the wait returns that error, wrapped, and does not
    panic. *)
Theorem WaitForPrometheus_nil_replicas :
  (forall (p p' : Prometheus) (st : ReplicaStatus) (w w1 w2 : World),
     doGet (clientset c) KPrometheus (GetNamespace p) (GetName p) w
       = (p', None, w1) ->
     Prometheus_Spec_Replicas p' = None ->
     (doStatus (clientset c) KPrometheus p' w1 = (st, None, w2) ->
      fst (run (WaitForPrometheus c p) w) = Panic nilDereference)
     /\ (forall e,
           doStatus (clientset c) KPrometheus p' w1 = (st, Some e, w2) ->
           fst (run (WaitForPrometheus c p) w)
           = Ok (Some (withMessage e "retrieving Prometheus status failed"))))
  /\ (forall (a a' : Alertmanager) (st : ReplicaStatus) (w w1 w2 : World),
        doGet (clientset c) KAlertmanager (GetNamespace a) (GetName a) w
          = (a', None, w1) ->
        Alertmanager_Spec_Replicas a' = None ->
        (doStatus (clientset c) KAlertmanager a' w1 = (st, None, w2) ->
         fst (run (WaitForAlertmanager c a) w) = Panic nilDereference)
        /\ (forall e,
              doStatus (clientset c) KAlertmanager a' w1 = (st, Some e, w2) ->
              fst (run (WaitForAlertmanager c a) w)
              = Ok (Some (withMessage e
                            "retrieving Alertmanager status failed")))).
Proof.
  split.
  - intros p p' st w w1 w2 Hget Hn. split.
    + intros Hst.
      pose proof (PrometheusReadyCondition_run p p' st w w1 w2 Hget Hst)
        as Hrun.
      rewrite Hn in Hrun. rewrite WaitForPrometheus_condition.
      unfold run in *. rewrite Poll_run, WaitFor_step, closed_run, Hrun.
      reflexivity.
    + intros e Hst. rewrite WaitForPrometheus_condition. unfold run.
      erewrite Poll_error_after with (k := 0%nat);
        [reflexivity | apply Ticks_O | apply Nat.le_0_l |].
      unfold PrometheusReadyCondition. unfold_calls.
      rewrite Hget. cbn [notNil world trace]. rewrite Hst. reflexivity.
  - intros a a' st w w1 w2 Hget Hn. split.
    + intros Hst.
      pose proof (AlertmanagerReadyCondition_run a a' st w w1 w2 Hget Hst)
        as Hrun.
      rewrite Hn in Hrun. rewrite WaitForAlertmanager_condition.
      unfold run in *. rewrite Poll_run, WaitFor_step, closed_run, Hrun.
      reflexivity.
    + intros e Hst. rewrite WaitForAlertmanager_condition. unfold run.
      erewrite Poll_error_after with (k := 0%nat);
        [reflexivity | apply Ticks_O | apply Nat.le_0_l |].
      unfold AlertmanagerReadyCondition. unfold_calls.
      rewrite Hget. cbn [notNil world trace]. rewrite Hst. reflexivity.
Qed.

End ReplicaFacts.

Lemma WaitForPrometheus_ready_iff_witness :
  fst (run (WaitForPrometheus Mock.client Mock.k8s)
         [Mock.ReplyObj KPrometheus Mock.k8s None;
          Mock.ReplyStatus Mock.twoOfTwo None])
    = Ok None
  /\ fst (run (PrometheusReadyCondition Mock.client Mock.k8s)
            [Mock.ReplyObj KPrometheus Mock.k8s None;
             Mock.ReplyStatus Mock.oneOfTwo None])
     = Ok (false, None).
Proof.
  split.
  - refine (proj2 (proj2 (proj1 (WaitForPrometheus_ready_iff _ Mock.client)
                            Mock.k8s Mock.k8s Mock.twoOfTwo 2
                            [Mock.ReplyObj KPrometheus Mock.k8s None;
                             Mock.ReplyStatus Mock.twoOfTwo None]
                            [Mock.ReplyStatus Mock.twoOfTwo None] []
                            eq_refl eq_refl eq_refl)) _).
    simpl. lia.
  - refine (proj2 (proj1 (proj2 (proj1
              (WaitForPrometheus_ready_iff _ Mock.client)
              Mock.k8s Mock.k8s Mock.oneOfTwo 2
              [Mock.ReplyObj KPrometheus Mock.k8s None;
               Mock.ReplyStatus Mock.oneOfTwo None]
              [Mock.ReplyStatus Mock.oneOfTwo None] []
              eq_refl eq_refl eq_refl))) _).
    simpl. lia.
Defined.

Lemma WaitForPrometheus_nil_replicas_witness :
  fst (run (WaitForPrometheus Mock.client Mock.k8s)
         [Mock.ReplyObj KPrometheus Mock.k8sNoReplicas None;
          Mock.ReplyStatus Mock.twoOfTwo None])
    = Panic nilDereference
  /\ fst (run (WaitForPrometheus Mock.client Mock.k8s)
            [Mock.ReplyObj KPrometheus Mock.k8sNoReplicas None;
             Mock.ReplyStatus Mock.twoOfTwo Mock.refused])
     = Ok (Some (withMessage (errorString "dial tcp: connection refused")
                   "retrieving Prometheus status failed")).
Proof.
  split.
  - exact (proj1 (proj1 (WaitForPrometheus_nil_replicas _ Mock.client)
                    Mock.k8s Mock.k8sNoReplicas Mock.twoOfTwo
                    [Mock.ReplyObj KPrometheus Mock.k8sNoReplicas None;
                     Mock.ReplyStatus Mock.twoOfTwo None]
                    [Mock.ReplyStatus Mock.twoOfTwo None] []
                    eq_refl eq_refl) eq_refl).
  - exact (proj2 (proj1 (WaitForPrometheus_nil_replicas _ Mock.client)
                    Mock.k8s Mock.k8sNoReplicas Mock.twoOfTwo
                    [Mock.ReplyObj KPrometheus Mock.k8sNoReplicas None;
                     Mock.ReplyStatus Mock.twoOfTwo Mock.refused]
                    [Mock.ReplyStatus Mock.twoOfTwo Mock.refused] []
                    eq_refl eq_refl)
             (errorString "dial tcp: connection refused") eq_refl).
Defined.

(** ** The waits only read *)

Section ReadsOnlyFacts.

Variable World : Type.

Lemma readsOnly_ret {A} (a : A) : readsOnly (@ret World A a).
Proof. intros s. exists []. rewrite app_nil_r. auto. Qed.

Lemma readsOnly_panic {A} (msg : string) : readsOnly (@panic World A msg).
Proof. intros s. exists []. rewrite app_nil_r. auto. Qed.

Lemma readsOnly_bind {A B} (m : M World A) (f : A -> M World B) :
  readsOnly m -> (forall a, readsOnly (f a)) -> readsOnly (bind m f).
Proof.
  intros Hm Hf s. unfold bind. destruct (Hm s) as (evs & Htr & Hevs).
  destruct (m s) as [[a|msg] s1]; cbn [snd] in *.
  - destruct (Hf a s1) as (evs' & Htr' & Hevs').
    exists (evs ++ evs')%list. rewrite Htr', Htr, app_assoc, forallb_app.
    rewrite Hevs, Hevs'. auto.
  - exists evs. auto.
Qed.

Lemma readsOnly_WaitFor {L} (fn : ConditionFunc World L) :
  (forall l, readsOnly (fn l)) ->
  forall n l, readsOnly (WaitFor n fn l).
Proof.
  intros Hfn. induction n as [|n IH]; intros l s; rewrite WaitFor_step;
    destruct (Hfn l s) as (evs & Htr & Hevs);
    destruct (fn l s) as [[[[ok err] l'] | msg] s1]; cbn [snd] in *;
    try (exists evs; auto; fail);
    destruct (notNil err); try (exists evs; auto; fail);
    destruct ok; try (exists evs; auto; fail).
  destruct (IH l' s1) as (evs' & Htr' & Hevs').
  exists (evs ++ evs')%list. rewrite Htr', Htr, app_assoc, forallb_app.
  rewrite Hevs, Hevs'. auto.
Qed.

Lemma readsOnly_PollEnv {L} interval timeout (fn : ConditionFunc World L) l :
  (forall l, readsOnly (fn l)) -> readsOnly (PollEnv interval timeout fn l).
Proof. intros H. apply readsOnly_WaitFor, H. Qed.

Lemma readsOnly_Poll interval timeout (cond : M World (bool * option error)) :
  readsOnly cond -> readsOnly (Poll interval timeout cond).
Proof.
  intros H. unfold Poll. apply readsOnly_bind.
  - apply readsOnly_PollEnv. intros u. unfold closed.
    apply readsOnly_bind; [exact H | intros r; apply readsOnly_ret].
  - intros r. apply readsOnly_ret.
Qed.

Variable c : Client World.

Lemma readsOnly_Get k ns name : readsOnly (Get c k ns name).
Proof.
  intros s. unfold Get. destruct (doGet _ _ _ _ _) as [[o e] w].
  eexists [_]. split; reflexivity.
Qed.

Lemma readsOnly_List k ns opts : readsOnly (List_ c k ns opts).
Proof.
  intros s. unfold List_. destruct (doList _ _ _ _ _) as [[o e] w].
  eexists [_]. split; reflexivity.
Qed.

Lemma readsOnly_Status k o : readsOnly (Status c k o).
Proof.
  intros s. unfold Status. destruct (doStatus _ _ _ _) as [[o' e] w].
  eexists [_]. split; reflexivity.
Qed.

Lemma readsOnly_run {A} (m : M World A) (w : World) :
  readsOnly m -> forallb isRead (trace (snd (run m w))) = true.
Proof.
  intros H. unfold run. destruct (H (mkState w [])) as (evs & Htr & Hevs).
  rewrite Htr. exact Hevs.
Qed.

Ltac reads_only :=
  repeat match goal with
         | |- readsOnly (ret _) => apply readsOnly_ret
         | |- readsOnly (panic _) => apply readsOnly_panic
         | |- readsOnly (Get _ _ _ _) => apply readsOnly_Get
         | |- readsOnly (List_ _ _ _ _) => apply readsOnly_List
         | |- readsOnly (Status _ _ _) => apply readsOnly_Status
         | |- readsOnly (Poll _ _ _) => apply readsOnly_Poll
         | |- readsOnly (PollEnv _ _ _ _) =>
             apply readsOnly_PollEnv; intros ?
         | |- readsOnly (bind _ _) => apply readsOnly_bind; [|intros ?]
         | |- readsOnly (match ?x with _ => _ end) => destruct x
         end.

(** X8.  The waits never write: whatever the server answers and however
    they end (nil, an error or a panic), every call made by
    [WaitForDeploymentRollout], [WaitForDaemonSetRollout],
    [WaitForRouteReady], [WaitForCRDReady], [WaitForPrometheus],
    [WaitForAlertmanager] and [WaitForPrometheusOperatorCRDsReady] is a
    Get, a List or a status computation; none is a Create, an Update or a
    Delete. *)
Theorem waits_only_read :
  (forall dep w,
     forallb isRead (trace (snd (run (WaitForDeploymentRollout c dep) w)))
     = true)
  /\ (forall ds w,
        forallb isRead (trace (snd (run (WaitForDaemonSetRollout c ds) w)))
        = true)
  /\ (forall r w,
        forallb isRead (trace (snd (run (WaitForRouteReady c r) w))) = true)
  /\ (forall crd w,
        forallb isRead (trace (snd (run (WaitForCRDReady c crd) w))) = true)
  /\ (forall p w,
        forallb isRead (trace (snd (run (WaitForPrometheus c p) w))) = true)
  /\ (forall a w,
        forallb isRead (trace (snd (run (WaitForAlertmanager c a) w))) = true)
  /\ (forall kinds group new w,
        forallb isRead
          (trace (snd (run (WaitForPrometheusOperatorCRDsReady c kinds group
                              new) w)))
        = true).
Proof.
  repeat split; intros; apply readsOnly_run;
    unfold WaitForDeploymentRollout, DeploymentRolloutCondition,
      WaitForDaemonSetRollout, DaemonSetRolloutCondition,
      WaitForRouteReady, RouteReadyCondition, WaitForPrometheus,
      WaitForAlertmanager, WaitForPrometheusOperatorCRDsReady,
      WaitForCRDReady, CRDReady;
    reads_only.
Qed.

End ReadsOnlyFacts.

(** ** The waits are bounded *)

Section BoundedFacts.

Variable World : Type.

Lemma WaitFor_calls {L} (fn : ConditionFunc World L) :
  oneCall fn ->
  forall n l s, exists evs,
    trace (snd (WaitFor n fn l s)) = (trace s ++ evs)%list
    /\ (1 <= length evs <= S n)%nat.
Proof.
  intros Hfn. induction n as [|n IH]; intros l s; rewrite WaitFor_step;
    destruct (Hfn l s) as (ev & Htr);
    destruct (fn l s) as [[[[ok err] l'] | msg] s1]; cbn [snd] in *;
    try (exists [ev]; cbn [length]; split; [exact Htr | lia]);
    destruct (notNil err);
    try (exists [ev]; cbn [length]; split; [exact Htr | lia]);
    destruct ok; try (exists [ev]; cbn [length]; split; [exact Htr | lia]).
  destruct (IH l' s1) as (evs & Htr' & Hlen).
  exists (ev :: evs). rewrite Htr', Htr, <- app_assoc. cbn [app length].
  split; [reflexivity | lia].
Qed.

Lemma Poll_calls interval timeout (cond : M World (bool * option error)) :
  (forall s, exists ev, trace (snd (cond s)) = (trace s ++ [ev])%list) ->
  forall w,
    (1 <= length (trace (snd (run (Poll interval timeout cond) w)))
     <= S (poller interval timeout))%nat.
Proof.
  intros Hc w. unfold run. rewrite Poll_run.
  destruct (WaitFor_calls (closed cond)) with
    (n := poller interval timeout) (l := tt) (s := mkState w [])
    as (evs & Htr & Hlen).
  - intros u s. rewrite closed_run. destruct (Hc s) as (ev & Hev).
    exists ev. destruct (cond s) as [[r|msg] s1]; exact Hev.
  - destruct (WaitFor _ _ _ _) as [[r|msg] s1]; cbn [snd trace app] in *;
      rewrite Htr; exact Hlen.
Qed.

Variable c : Client World.

(** X9.  Every wait makes at least one call and at most as many as its
    deadline allows, whatever the server answers: between 1 and 301 reads for
    the rollout of a deployment or of a daemon set and for the admission of a
    route (one a second for five minutes, and the one at the deadline),
    between 1 and 61 for a schema (one every five seconds for five
    minutes). *)
Theorem waits_are_bounded :
  (forall dep w,
     (1 <= length (trace (snd (run (WaitForDeploymentRollout c dep) w)))
      <= 301)%nat)
  /\ (forall ds w,
        (1 <= length (trace (snd (run (WaitForDaemonSetRollout c ds) w)))
         <= 301)%nat)
  /\ (forall r w,
        (1 <= length (trace (snd (run (WaitForRouteReady c r) w)))
         <= 301)%nat)
  /\ (forall crd w,
        (1 <= length (trace (snd (run (WaitForCRDReady c crd) w)))
         <= 61)%nat).
Proof.
  split; [|split; [|split]].
  - intros dep w.
    apply (Poll_calls time.Second deploymentCreateTimeout).
    intros s. rewrite DeploymentRolloutCondition_run.
    destruct (doGet _ _ _ _ _) as [[d e] w1]. eexists. reflexivity.
  - intros ds w.
    apply (Poll_calls time.Second deploymentCreateTimeout).
    intros s. rewrite DaemonSetRolloutCondition_run.
    destruct (doGet _ _ _ _ _) as [[d e] w1]. eexists. reflexivity.
  - intros r w. unfold run, WaitForRouteReady, PollEnv. unfold bind.
    destruct (WaitFor_calls (RouteReadyCondition c r)) with
      (n := poller time.Second deploymentCreateTimeout) (l := "")
      (s := mkState w []) as (evs & Htr & Hlen).
    + intros l s. rewrite RouteReadyCondition_run.
      destruct (doGet _ _ _ _ _) as [[d e] w1]. eexists. reflexivity.
    + destruct (WaitFor _ _ _ _) as [[[e h]|msg] s1]; unfold ret;
        cbn [snd trace app] in *; rewrite Htr; exact Hlen.
  - intros crd w.
    apply (Poll_calls (5 * time.Second) (5 * time.Minute)).
    intros s. rewrite CRDReady_run.
    destruct (doGet _ _ _ _ _) as [[d e] w1]. eexists. reflexivity.
Qed.

End BoundedFacts.

(** ** The rollout wait returns when the rollout is done *)

Section RolloutDoneFacts.

Variable World : Type.
Variable c : Client World.

(** X10.  The wait for the rollout of a deployment, or of a daemon set,
    returns at the first read that finds the rollout done: after [k] reads
    that found it under way, [k] at most 300, a read that finds it done is
    the last call and the wait returns nil.  When the 301st read still finds
    it under way the wait returns the timeout error, as it is. *)
Theorem WaitForRollout_returns_when_done :
  (forall (dep d : Deployment) (k : nat) (s s1 : State World) (w2 : World),
     Ticks (DeploymentRolloutCondition c dep) k s s1 ->
     (k <= 300)%nat ->
     doGet (clientset c) KDeployment (GetNamespace dep) (GetName dep)
       (world s1) = (d, None, w2) ->
     let s2 :=
       mkState w2
         (trace s1 ++ [EvGet KDeployment (GetNamespace dep) (GetName dep)
                         d None])%list in
     (deploymentRolledOut d = true ->
      WaitForDeploymentRollout c dep s = (Ok None, s2))
     /\ (deploymentRolledOut d = false -> k = 300%nat ->
         WaitForDeploymentRollout c dep s = (Ok (Some ErrWaitTimeout), s2)))
  /\ (forall (ds d : DaemonSet) (k : nat) (s s1 : State World) (w2 : World),
        Ticks (DaemonSetRolloutCondition c ds) k s s1 ->
        (k <= 300)%nat ->
        doGet (clientset c) KDaemonSet (GetNamespace ds) (GetName ds)
          (world s1) = (d, None, w2) ->
        let s2 :=
          mkState w2
            (trace s1 ++ [EvGet KDaemonSet (GetNamespace ds) (GetName ds)
                            d None])%list in
        (daemonSetRolledOut d = true ->
         WaitForDaemonSetRollout c ds s = (Ok None, s2))
        /\ (daemonSetRolledOut d = false -> k = 300%nat ->
            WaitForDaemonSetRollout c ds s = (Ok (Some ErrWaitTimeout), s2))).
Proof.
  split.
  - intros dep d k s s1 w2 HT Hk Hget s2.
    assert (Hc : DeploymentRolloutCondition c dep s1
                 = (Ok (deploymentRolledOut d, None), s2)).
    { rewrite DeploymentRolloutCondition_run, Hget. reflexivity. }
    unfold WaitForDeploymentRollout. split.
    + intros Hd. rewrite Hd in Hc.
      eapply Poll_ready_after; [exact HT | exact Hk | exact Hc].
    + intros Hd ->. rewrite Hd in Hc.
      eapply Poll_timeout_after; [exact HT | exact Hc].
  - intros ds d k s s1 w2 HT Hk Hget s2.
    assert (Hc : DaemonSetRolloutCondition c ds s1
                 = (Ok (daemonSetRolledOut d, None), s2)).
    { rewrite DaemonSetRolloutCondition_run, Hget. reflexivity. }
    unfold WaitForDaemonSetRollout. split.
    + intros Hd. rewrite Hd in Hc.
      eapply Poll_ready_after; [exact HT | exact Hk | exact Hc].
    + intros Hd ->. rewrite Hd in Hc.
      eapply Poll_timeout_after; [exact HT | exact Hc].
Qed.

End RolloutDoneFacts.

(** The rollout is under way at the first read and done at the second: the
    wait returns nil there, with 299 ticks left. *)
Lemma WaitForRollout_returns_when_done_witness :
  WaitForDeploymentRollout Mock.client Mock.rolledOut
    (mkState [Mock.ReplyObj KDeployment Mock.rollingOut None;
              Mock.ReplyObj KDeployment Mock.rolledOut None] [])
  = (Ok None,
     mkState []
       [EvGet KDeployment Mock.monitoring "kube-state-metrics"
          Mock.rollingOut None;
        EvGet KDeployment Mock.monitoring "kube-state-metrics"
          Mock.rolledOut None]).
Proof.
  refine (proj1 (proj1 (WaitForRollout_returns_when_done _ Mock.client)
                   Mock.rolledOut Mock.rolledOut 1%nat
                   (mkState [Mock.ReplyObj KDeployment Mock.rollingOut None;
                             Mock.ReplyObj KDeployment Mock.rolledOut None] [])
                   (mkState [Mock.ReplyObj KDeployment Mock.rolledOut None]
                      [EvGet KDeployment Mock.monitoring "kube-state-metrics"
                         Mock.rollingOut None])
                   [] _ _ eq_refl) eq_refl).
  - eapply Ticks_S; [reflexivity | apply Ticks_O].
  - lia.
Defined.

(** ** Deleting, when the server refuses *)

Section DeleteResultFacts.

Variable World : Type.
Variable c : Client World.

(** X11.  Each of [DeleteDeployment], [DeleteDaemonSet] and
    [DeleteServiceMonitor] makes one Delete call and no other, and returns
    nil exactly when the server answered it without error or with
    not-found.  Any other error is returned as the server gave it by the
    first two, and wrapped as "deleting ServiceMonitor object failed" by the
    third.  A deployment is deleted with foreground propagation, a daemon
    set with its dependents not orphaned, a service monitor with no
    option. *)
Theorem Delete_result :
  (forall (d : Deployment) (w w1 : World) (e : option error),
     doDelete (clientset c) KDeployment (GetNamespace d) (GetName d)
       (Some (mkDeleteOptions (Some DeletePropagationForeground) None)) w
       = (e, w1) ->
     let out := run (DeleteDeployment c d) w in
     snd out
     = mkState w1
         [EvDelete KDeployment (GetNamespace d) (GetName d)
            (Some (mkDeleteOptions (Some DeletePropagationForeground) None)) e]
     /\ (fst out = Ok None <-> e = None \/ IsNotFound e = true)
     /\ (IsNotFound e = false -> fst out = Ok e))
  /\ (forall (d : DaemonSet) (w w1 : World) (e : option error),
        doDelete (clientset c) KDaemonSet (GetNamespace d) (GetName d)
          (Some (mkDeleteOptions None (Some false))) w = (e, w1) ->
        let out := run (DeleteDaemonSet c d) w in
        snd out
        = mkState w1
            [EvDelete KDaemonSet (GetNamespace d) (GetName d)
               (Some (mkDeleteOptions None (Some false))) e]
        /\ (fst out = Ok None <-> e = None \/ IsNotFound e = true)
        /\ (IsNotFound e = false -> fst out = Ok e))
  /\ (forall (namespace name : string) (w w1 : World) (e : option error),
        doDelete (clientset c) KServiceMonitor namespace name None w
          = (e, w1) ->
        let out := run (DeleteServiceMonitor c namespace name) w in
        snd out
        = mkState w1 [EvDelete KServiceMonitor namespace name None e]
        /\ (fst out = Ok None <-> e = None \/ IsNotFound e = true)
        /\ (IsNotFound e = false ->
            fst out = Ok (Wrap e "deleting ServiceMonitor object failed"))).
Proof.
  split; [|split].
  - intros d w w1 e Hdel out. subst out.
    unfold DeleteDeployment. unfold_calls. rewrite Hdel.
    destruct (IsNotFound e) eqn:Hnf; cbn [fst snd].
    + repeat split; auto. discriminate.
    + repeat split; auto.
      * intros H; inversion H; auto.
      * intros [-> | H]; [reflexivity | discriminate H].
  - intros d w w1 e Hdel out. subst out.
    unfold DeleteDaemonSet. unfold_calls. rewrite Hdel.
    destruct (IsNotFound e) eqn:Hnf; cbn [fst snd].
    + repeat split; auto. discriminate.
    + repeat split; auto.
      * intros H; inversion H; auto.
      * intros [-> | H]; [reflexivity | discriminate H].
  - intros namespace name w w1 e Hdel out. subst out.
    unfold DeleteServiceMonitor. unfold_calls. rewrite Hdel.
    destruct (IsNotFound e) eqn:Hnf; cbn [fst snd negb];
      rewrite ?andb_false_r, ?andb_true_r.
    + repeat split; auto. discriminate.
    + destruct e as [e|]; cbn [notNil Wrap].
      * repeat split; auto; try discriminate.
        intros [H | H]; discriminate H.
      * repeat split; auto.
Qed.

End DeleteResultFacts.

Lemma Delete_result_witness :
  fst (run (DeleteDeployment Mock.client Mock.rolledOut) Mock.deleteRefused)
  = Ok (Some (errorString "dial tcp: connection refused"))
  /\ fst (run (DeleteServiceMonitor Mock.client Mock.monitoring Mock.kubelet)
            Mock.deleteRefused)
     = Ok (Some (withMessage (errorString "dial tcp: connection refused")
                   "deleting ServiceMonitor object failed")).
Proof.
  split.
  - exact (proj2 (proj2 (proj1 (Delete_result _ Mock.client)
                           Mock.rolledOut Mock.deleteRefused [] Mock.refused
                           eq_refl)) eq_refl).
  - exact (proj2 (proj2 (proj2 (proj2 (Delete_result _ Mock.client))
                           Mock.monitoring Mock.kubelet Mock.deleteRefused []
                           Mock.refused eq_refl)) eq_refl).
Defined.

(** ** Creating only what is not there *)

Section CreateIfNotExistFacts.

Variable World : Type.
Variable c : Client World.

(** X12.  [CreateIfNotExistSecret], [CreateIfNotExistConfigMap] and
    [CreateRouteIfNotExists] never update and never overwrite: whatever the
    server answers no Update is among their calls; when the object is there
    the Get is their only call and they return nil, whatever the object
    holds; they create, the object as it is declared, when the Get answered
    not-found, and only then: on every other answer of the Get, a read that
    failed in the transport or was forbidden among them, the Get is their
    only call, and the first two return the error of the Get wrapped as
    "retrieving <kind> object failed" while [CreateRouteIfNotExists] returns
    nil. *)
Theorem CreateIfNotExist_never_overwrites :
  (forall (s : Manifest) (w : World),
     let out := run (CreateIfNotExistSecret c s) w in
     count isUpdate (trace (snd out)) = 0%nat
     /\ (forall obs w1,
           doGet (clientset c) KSecret (GetNamespace s) (GetName s) w
             = (obs, None, w1) ->
           out = (Ok None,
                  mkState w1 [EvGet KSecret (GetNamespace s) (GetName s) obs
                                None]))
     /\ (forall obs e0 w1 created e1 w2,
           doGet (clientset c) KSecret (GetNamespace s) (GetName s) w
             = (obs, e0, w1) ->
           IsNotFound e0 = true ->
           doCreate (clientset c) KSecret (GetNamespace s) s w1
             = (created, e1, w2) ->
           out = (Ok (Wrap e1 "creating Secret object failed"),
                  mkState w2
                    [EvGet KSecret (GetNamespace s) (GetName s) obs e0;
                     EvCreate KSecret (GetNamespace s) s created e1]))
     /\ (forall obs e0 w1,
           doGet (clientset c) KSecret (GetNamespace s) (GetName s) w
             = (obs, e0, w1) ->
           IsNotFound e0 = false ->
           out = (Ok (Wrap e0 "retrieving Secret object failed"),
                  mkState w1 [EvGet KSecret (GetNamespace s) (GetName s) obs
                                e0])
           /\ count isCreate (trace (snd out)) = 0%nat))
  /\ (forall (cm : Manifest) (w : World),
        let out := run (CreateIfNotExistConfigMap c cm) w in
        count isUpdate (trace (snd out)) = 0%nat
        /\ (forall obs w1,
              doGet (clientset c) KConfigMap (GetNamespace cm) (GetName cm) w
                = (obs, None, w1) ->
              out = (Ok None,
                     mkState w1 [EvGet KConfigMap (GetNamespace cm)
                                   (GetName cm) obs None]))
        /\ (forall obs e0 w1 created e1 w2,
              doGet (clientset c) KConfigMap (GetNamespace cm) (GetName cm) w
                = (obs, e0, w1) ->
              IsNotFound e0 = true ->
              doCreate (clientset c) KConfigMap (GetNamespace cm) cm w1
                = (created, e1, w2) ->
              out = (Ok (Wrap e1 "creating ConfigMap object failed"),
                     mkState w2
                       [EvGet KConfigMap (GetNamespace cm) (GetName cm) obs e0;
                        EvCreate KConfigMap (GetNamespace cm) cm created e1]))
        /\ (forall obs e0 w1,
              doGet (clientset c) KConfigMap (GetNamespace cm) (GetName cm) w
                = (obs, e0, w1) ->
              IsNotFound e0 = false ->
              out = (Ok (Wrap e0 "retrieving ConfigMap object failed"),
                     mkState w1 [EvGet KConfigMap (GetNamespace cm)
                                   (GetName cm) obs e0])
              /\ count isCreate (trace (snd out)) = 0%nat))
  /\ (forall (r : Route) (w : World),
        let out := run (CreateRouteIfNotExists c r) w in
        count isUpdate (trace (snd out)) = 0%nat
        /\ (forall obs w1,
              doGet (clientset c) KRoute (GetNamespace r) (GetName r) w
                = (obs, None, w1) ->
              out = (Ok None,
                     mkState w1 [EvGet KRoute (GetNamespace r) (GetName r) obs
                                   None]))
        /\ (forall obs e0 w1 created e1 w2,
              doGet (clientset c) KRoute (GetNamespace r) (GetName r) w
                = (obs, e0, w1) ->
              IsNotFound e0 = true ->
              doCreate (clientset c) KRoute (GetNamespace r) r w1
                = (created, e1, w2) ->
              out = (Ok (Wrap e1 "creating Route object failed"),
                     mkState w2
                       [EvGet KRoute (GetNamespace r) (GetName r) obs e0;
                        EvCreate KRoute (GetNamespace r) r created e1]))
        /\ (forall obs e0 w1,
              doGet (clientset c) KRoute (GetNamespace r) (GetName r) w
                = (obs, e0, w1) ->
              IsNotFound e0 = false ->
              out = (Ok None,
                     mkState w1 [EvGet KRoute (GetNamespace r) (GetName r) obs
                                   e0])
              /\ count isCreate (trace (snd out)) = 0%nat)).
Proof.
  split; [|split]; intros x w out; subst out;
    unfold CreateIfNotExistSecret, CreateIfNotExistConfigMap,
      CreateRouteIfNotExists; unfold_calls;
    destruct (doGet _ _ _ _ _) as [[obs e0] w1] eqn:Hget;
    (split; [|split; [|split]]).
  all: try (destruct (IsNotFound e0); [|reflexivity];
            destruct (doCreate _ _ _ _ _) as [[o' e'] w2]; reflexivity).
  all: try (intros obs' w1' H; inversion H; subst; reflexivity).
  all: try (intros obs' e0' w1' created e1 w2 H Hnf Hcreate; inversion H;
            subst; rewrite Hnf; cbn [world trace]; rewrite Hcreate;
            reflexivity).
  all: intros obs' e0' w1' H Hnf; inversion H; subst; rewrite Hnf;
    split; reflexivity.
Qed.

End CreateIfNotExistFacts.

(** The secret is there, edited by hand: it is read and left as it is.  And
    the read of the config map is forbidden: nothing is created, and the
    error is returned wrapped. *)
Lemma CreateIfNotExist_never_overwrites_witness :
  run (CreateIfNotExistSecret Mock.client Mock.grafanaDatasources)
      [Mock.ReplyObj KSecret Mock.storedSecret None]
  = (Ok None,
     mkState []
       [EvGet KSecret Mock.monitoring "grafana-datasources" Mock.storedSecret
          None])
  /\ (IsNotFound Mock.forbidden = false
      /\ run (CreateIfNotExistConfigMap Mock.client
                Mock.clusterMonitoringConfig)
             (Mock.readForbidden KConfigMap)
         = (Ok (Wrap Mock.forbidden "retrieving ConfigMap object failed"),
            mkState []
              [EvGet KConfigMap Mock.monitoring "cluster-monitoring-config"
                 (Mock.zero KConfigMap) Mock.forbidden])
      /\ count isCreate
           (trace (snd (run (CreateIfNotExistConfigMap Mock.client
                               Mock.clusterMonitoringConfig)
                          (Mock.readForbidden KConfigMap)))) = 0%nat).
Proof.
  split.
  - exact (proj1 (proj2 (proj1 (CreateIfNotExist_never_overwrites _
                                  Mock.client)
                           Mock.grafanaDatasources
                           [Mock.ReplyObj KSecret Mock.storedSecret None]))
             Mock.storedSecret [] eq_refl).
  - split; [reflexivity|].
    exact (proj2 (proj2 (proj2 (proj1 (proj2
             (CreateIfNotExist_never_overwrites _ Mock.client))
             Mock.clusterMonitoringConfig (Mock.readForbidden KConfigMap))))
             (Mock.zero KConfigMap) Mock.forbidden [] eq_refl eq_refl).
Defined.

(** ** A schema that is neither established nor in conflict *)

Lemma decides_iff (cond : CustomResourceDefinitionCondition) :
  decides cond = true <-> isEstablished cond \/ isNamesConflict cond.
Proof.
  unfold decides, isEstablished, isNamesConflict.
  rewrite orb_true_iff, !andb_true_iff, !String.eqb_eq. tauto.
Qed.

Lemma CRDReady_conditions_pending_iff (name : string)
  (conds : list CustomResourceDefinitionCondition) :
  CRDReady_conditions name conds None = (false, None)
  <-> forallb (fun x => negb (decides x)) conds = true.
Proof.
  split; [|apply CRDReady_conditions_undecided].
  induction conds as [|x conds IH]; [reflexivity|].
  cbn [CRDReady_conditions forallb]. unfold decides at 1.
  destruct (String.eqb_spec (Condition_Type x) Established) as [HE|HE].
  - rewrite HE. replace (Established =? NamesAccepted) with false
      by reflexivity.
    destruct (Condition_Status x =? ConditionTrue);
      cbn [andb orb negb]; [discriminate | exact IH].
  - destruct (Condition_Type x =? NamesAccepted);
      destruct (Condition_Status x =? ConditionTrue);
      destruct (Condition_Status x =? ConditionFalse);
      cbn [andb orb negb]; try discriminate; exact IH.
Qed.

(** X14.  On a schema read back without error, the predicate of the
    establishment says pending, with no error, exactly when no condition of
    the schema is Established with status True or NamesAccepted with status
    False: so on a schema with no condition at all, or whose conditions are
    of other types or have other statuses. *)
Theorem CRDReady_pending_iff (World : Type) (c : Client World)
  (crd crdEst : CustomResourceDefinition) (w w1 : World) :
  doGet (clientset c) KCustomResourceDefinition NamespaceNone
    (Name (CRD_ObjectMeta crd)) w = (crdEst, None, w1) ->
  fst (run (CRDReady c crd) w) = Ok (false, None)
  <-> forall cond, In cond (CRD_Status_Conditions crdEst) ->
                   ~ isEstablished cond /\ ~ isNamesConflict cond.
Proof.
  intros Hget. unfold run. rewrite CRDReady_run. cbn [world trace].
  rewrite Hget. cbn [notNil fst].
  split.
  - intros H. inversion H as [Hc]. apply CRDReady_conditions_pending_iff in Hc.
    rewrite forallb_forall in Hc. intros cond Hin.
    specialize (Hc cond Hin). rewrite negb_true_iff in Hc.
    split; intros Hd;
      assert (decides cond = true) by (apply decides_iff; auto); congruence.
  - intros H. f_equal. apply CRDReady_conditions_pending_iff.
    rewrite forallb_forall. intros cond Hin. rewrite negb_true_iff.
    destruct (decides cond) eqn:Hd; [|reflexivity].
    apply decides_iff in Hd. destruct (H cond Hin) as [H1 H2].
    destruct Hd; contradiction.
Qed.

Lemma CRDReady_pending_iff_witness :
  fst (run (CRDReady Mock.client Mock.prometheusCRD)
         [Mock.ReplyObj KCustomResourceDefinition Mock.crdInstalling None])
  = Ok (false, None).
Proof.
  apply (proj2 (CRDReady_pending_iff _ Mock.client Mock.prometheusCRD
                  Mock.crdInstalling
                  [Mock.ReplyObj KCustomResourceDefinition Mock.crdInstalling
                     None] [] eq_refl)).
  intros cond [<- | [<- | []]]; split; intros [H1 H2]; discriminate.
Defined.

(** * The image tags of the command line *)

(** ** Splitting and joining *)

Lemma Split_not_nil (s : string) (sep : Ascii.ascii) : Split s sep <> [].
Proof.
  destruct s as [|ch rest]; cbn [Split]; [discriminate|].
  destruct (Ascii.eqb ch sep); [discriminate|].
  destruct (Split rest sep); discriminate.
Qed.

Lemma Split_clean (s : string) (sep : Ascii.ascii) :
  hasByte sep s = false -> Split s sep = [s].
Proof.
  induction s as [|ch rest IH]; [reflexivity|].
  cbn [hasByte Split]. rewrite orb_false_iff. intros [Hch Hrest].
  rewrite Hch, (IH Hrest). reflexivity.
Qed.

Lemma Split_app (a b : string) (sep : Ascii.ascii) :
  hasByte sep a = false ->
  Split (a ++ String sep b) sep = a :: Split b sep.
Proof.
  induction a as [|ch rest IH].
  - intros _. cbn [append Split]. rewrite Ascii.eqb_refl. reflexivity.
  - cbn [hasByte append Split]. rewrite orb_false_iff. intros [Hch Hrest].
    rewrite Hch, (IH Hrest). reflexivity.
Qed.

Lemma Split_Join (x : string) (l : list string) :
  Forall (fun s => hasByte comma s = false) (x :: l) ->
  Split (Join (x :: l) ",") comma = x :: l.
Proof.
  revert x. induction l as [|y l IH]; intros x H; inversion H; subst.
  - apply Split_clean. assumption.
  - change (Join (x :: y :: l) ",") with (x ++ String comma (Join (y :: l) ",")).
    rewrite Split_app by assumption. rewrite IH by assumption. reflexivity.
Qed.

Lemma parsePair_name_tag (name tag : string) :
  hasByte equalsSign name = false -> hasByte equalsSign tag = false ->
  parsePair (name ++ "=" ++ tag) = Some (name, tag).
Proof.
  intros Hn Ht. unfold parsePair.
  change (name ++ "=" ++ tag) with (name ++ String equalsSign tag).
  rewrite (Split_app _ _ _ Hn), (Split_clean _ _ Ht). reflexivity.
Qed.

(** ** Entries *)

Lemma lookup_put (es : entries) (k' v k : string) :
  lookup (put es (k', v)) k = if k' =? k then Some v else lookup es k.
Proof.
  induction es as [|[k0 v0] rest IH]; cbn [put lookup fst snd].
  - reflexivity.
  - destruct (String.eqb_spec k0 k') as [->|Hne]; cbn [lookup].
    + destruct (k' =? k); reflexivity.
    + rewrite IH. destruct (String.eqb_spec k0 k) as [->|Hne'];
        [|reflexivity].
      destruct (String.eqb_spec k' k) as [->|]; [contradiction | reflexivity].
Qed.

Lemma lookup_fold_put (ps : entries) :
  forall (es : entries) (k : string),
    lookup (fold_left put ps es) k
    = match lookupLast ps k with
      | Some v => Some v
      | None => lookup es k
      end.
Proof.
  induction ps as [|[k' v] ps IH]; intros es k; cbn [fold_left lookupLast].
  - reflexivity.
  - rewrite IH, lookup_put. destruct (lookupLast ps k); [reflexivity|].
    destruct (k' =? k); reflexivity.
Qed.

Lemma lookup_not_key (es : entries) (k : string) :
  ~ In k (map fst es) -> lookup es k = None.
Proof.
  induction es as [|[k' v] rest IH]; [reflexivity|].
  cbn [map fst In lookup]. intros H.
  destruct (String.eqb_spec k' k) as [->|_]; [exfalso; auto|].
  apply IH. auto.
Qed.

Lemma lookupLast_NoDup (ps : entries) (k : string) :
  NoDup (map fst ps) -> lookupLast ps k = lookup ps k.
Proof.
  induction ps as [|[k' v] rest IH]; [reflexivity|].
  cbn [map fst lookupLast lookup]. intros H. inversion H; subst.
  rewrite IH by assumption.
  destruct (String.eqb_spec k' k) as [->|_].
  - rewrite lookup_not_key by assumption. reflexivity.
  - destruct (lookup rest k); reflexivity.
Qed.

(** ** The loop of [Set] *)

Lemma tags_Set_pairs_cons (m : tags) (p : string) (rest : list string) :
  tags_Set_pairs m (p :: rest) =
  match parsePair p with
  | Some kv =>
      match m with
      | None => (Panic nilMapAssignment, m)
      | Some es => tags_Set_pairs (Some (put es kv)) rest
      end
  | None => (Ok (Some malformedPair), m)
  end.
Proof.
  cbn [tags_Set_pairs]. unfold parsePair.
  destruct (Split p equalsSign) as [|a [|b [|x l]]]; reflexivity.
Qed.

Lemma tags_Set_pairs_stores (pairs : list string) :
  forall (ps es : entries),
    map parsePair pairs = map Some ps ->
    tags_Set_pairs (Some es) pairs = (Ok None, Some (fold_left put ps es)).
Proof.
  induction pairs as [|p pairs IH]; intros ps es H; destruct ps as [|kv ps];
    try discriminate H.
  - reflexivity.
  - cbn [map] in H. inversion H as [[Hp Hrest]].
    rewrite tags_Set_pairs_cons, Hp. cbn [fold_left]. apply IH, Hrest.
Qed.

Lemma tags_Set_pairs_stops (pre : list string) :
  forall (bad : string) (post : list string) (ps es : entries),
    map parsePair pre = map Some ps ->
    parsePair bad = None ->
    tags_Set_pairs (Some es) (pre ++ bad :: post)%list
    = (Ok (Some malformedPair), Some (fold_left put ps es)).
Proof.
  induction pre as [|p pre IH]; intros bad post ps es H Hbad;
    destruct ps as [|kv ps]; try discriminate H; cbn [app].
  - rewrite tags_Set_pairs_cons, Hbad. reflexivity.
  - cbn [map] in H. inversion H as [[Hp Hrest]].
    rewrite tags_Set_pairs_cons, Hp. cbn [fold_left]. apply IH; assumption.
Qed.

Lemma hasByte_app (b : Ascii.ascii) (s1 s2 : string) :
  hasByte b (s1 ++ s2) = hasByte b s1 || hasByte b s2.
Proof.
  induction s1 as [|ch rest IH]; [reflexivity|].
  cbn [append hasByte]. rewrite IH, orb_assoc. reflexivity.
Qed.

Lemma asSlice_round_trip (es : entries) :
  Forall (fun kv => clean (fst kv) && clean (snd kv) = true) es ->
  Forall (fun s => hasByte comma s = false)
    (map (fun '(name, tag) => name ++ "=" ++ tag) es)
  /\ map parsePair (map (fun '(name, tag) => name ++ "=" ++ tag) es)
     = map Some es.
Proof.
  induction 1 as [|[name tag] es Hkv _ [IH1 IH2]]; [split; constructor|].
  cbn [fst snd] in Hkv. unfold clean in Hkv.
  rewrite !andb_true_iff, !negb_true_iff in Hkv.
  destruct Hkv as [[Hnc Hne] [Htc Hte]].
  cbn [map]. split.
  - constructor; [|exact IH1].
    rewrite !hasByte_app, Hnc, Htc. reflexivity.
  - rewrite parsePair_name_tag by assumption. rewrite IH2. reflexivity.
Qed.

(** X15.  [Set] on a value all of whose pairs split in two at "=" returns
    nil and has stored every pair, in the order of the value: a name keeps
    the tag of the last pair that names it, and a name that no pair names
    keeps the tag it had. *)
Theorem tags_Set_stores_every_pair (es ps : entries) (value : string) :
  map parsePair (Split value comma) = map Some ps ->
  tags_Set (Some es) value = (Ok None, Some (fold_left put ps es))
  /\ forall k,
       lookup (fold_left put ps es) k
       = match lookupLast ps k with
         | Some v => Some v
         | None => lookup es k
         end.
Proof.
  intros H. split.
  - unfold tags_Set. apply tags_Set_pairs_stores, H.
  - intros k. apply lookup_fold_put.
Qed.

Lemma tags_Set_stores_every_pair_witness :
  tags_Set (Some [("grafana", "5.0.0"); ("prometheus", "v2.3.0")])
    "prometheus=v2.3.1,kube-rbac-proxy=v0.3.1,prometheus=v2.3.2"
  = (Ok None,
     Some [("grafana", "5.0.0"); ("prometheus", "v2.3.2");
           ("kube-rbac-proxy", "v0.3.1")]).
Proof.
  exact (proj1 (tags_Set_stores_every_pair
                  [("grafana", "5.0.0"); ("prometheus", "v2.3.0")]
                  [("prometheus", "v2.3.1"); ("kube-rbac-proxy", "v0.3.1");
                   ("prometheus", "v2.3.2")]
                  "prometheus=v2.3.1,kube-rbac-proxy=v0.3.1,prometheus=v2.3.2"
                  eq_refl)).
Defined.

(** X16.  [Set] stops at the first pair that does not split in two at "=":
    it returns the error, the pairs before it are stored and those after it
    are not looked at.  A pair with no "=" in it is such a pair, and so is
    the empty value: [Set] of the empty string is an error and leaves the map
    as it is.  The error is the same whatever the pair: it does not name
    it. *)
Theorem tags_Set_stops_at_malformed_pair :
  (forall t : tags, tags_Set t "" = (Ok (Some malformedPair), t))
  /\ (forall p : string, hasByte equalsSign p = false -> parsePair p = None)
  /\ (forall (es ps : entries) (value bad : string) (pre post : list string),
        Split value comma = (pre ++ bad :: post)%list ->
        map parsePair pre = map Some ps ->
        parsePair bad = None ->
        tags_Set (Some es) value
        = (Ok (Some malformedPair), Some (fold_left put ps es))).
Proof.
  split; [|split].
  - intros t. reflexivity.
  - intros p H. unfold parsePair. rewrite (Split_clean _ _ H). reflexivity.
  - intros es ps value bad pre post Hsplit Hpre Hbad. unfold tags_Set.
    rewrite Hsplit. apply tags_Set_pairs_stops; assumption.
Qed.

Lemma tags_Set_stops_at_malformed_pair_witness :
  tags_Set (Some [])
    "prometheus=v2.3.1,grafana,alertmanager=v0.15.0"
  = (Ok (Some malformedPair), Some [("prometheus", "v2.3.1")]).
Proof.
  exact (proj2 (proj2 tags_Set_stops_at_malformed_pair)
           [] [("prometheus", "v2.3.1")]
           "prometheus=v2.3.1,grafana,alertmanager=v0.15.0" "grafana"
           ["prometheus=v2.3.1"] ["alertmanager=v0.15.0"]
           eq_refl eq_refl eq_refl).
Defined.

(** X17.  On the nil map [Set] panics as soon as a pair is to be stored:
    when the first pair of the value splits in two at "=".  When the first
    pair does not, it returns the error and does not panic. *)
Theorem tags_Set_nil_map (value first : string) (rest : list string) :
  Split value comma = first :: rest ->
  (forall kv, parsePair first = Some kv ->
              tags_Set None value = (Panic nilMapAssignment, None))
  /\ (parsePair first = None ->
      tags_Set None value = (Ok (Some malformedPair), None)).
Proof.
  intros Hsplit. unfold tags_Set. rewrite Hsplit, tags_Set_pairs_cons.
  split.
  - intros kv ->. reflexivity.
  - intros ->. reflexivity.
Qed.

Lemma tags_Set_nil_map_witness :
  tags_Set None "prometheus=v2.3.1" = (Panic nilMapAssignment, None)
  /\ tags_Set None "prometheus" = (Ok (Some malformedPair), None).
Proof.
  split.
  - exact (proj1 (tags_Set_nil_map "prometheus=v2.3.1" "prometheus=v2.3.1" []
                    eq_refl) ("prometheus", "v2.3.1") eq_refl).
  - exact (proj2 (tags_Set_nil_map "prometheus" "prometheus" [] eq_refl)
             eq_refl).
Defined.

(** X18.  [String] and [Set] go round, but for the empty map.  For tags
    that are not empty, with one entry for each name and neither "," nor "="
    in any name or tag, in whatever order [String] meets the entries: [Set]
    of the string returns nil and stores exactly these entries, so that on
    an empty map every name reads as it does in the tags.  The string of the
    empty tags is empty, and [Set] of it is an error. *)
Theorem tags_Set_String_round_trip :
  (forall (es m0 : entries),
     es <> [] ->
     NoDup (map fst es) ->
     Forall (fun kv => clean (fst kv) && clean (snd kv) = true) es ->
     tags_Set (Some m0) (tags_String (Some es))
     = (Ok None, Some (fold_left put es m0))
     /\ (forall k, lookup (fold_left put es []) k = lookup es k))
  /\ tags_Set (Some []) (tags_String (Some []))
     = (Ok (Some malformedPair), Some []).
Proof.
  split; [|reflexivity].
  intros es m0 Hne Hnd Hclean.
  destruct (asSlice_round_trip es Hclean) as [Hcomma Hparse].
  split.
  - unfold tags_Set, tags_String, tags_asSlice.
    destruct es as [|[name tag] es]; [contradiction|].
    cbn [map] in *. rewrite (Split_Join _ _ Hcomma).
    apply tags_Set_pairs_stores. exact Hparse.
  - intros k. rewrite lookup_fold_put, lookupLast_NoDup by assumption.
    destruct (lookup es k); reflexivity.
Qed.

Lemma tags_Set_String_round_trip_witness :
  tags_Set (Some [])
    (tags_String (Some [("prometheus", "v2.3.1"); ("grafana", "5.2.1")]))
  = (Ok None, Some [("prometheus", "v2.3.1"); ("grafana", "5.2.1")]).
Proof.
  refine (proj1 (proj1 tags_Set_String_round_trip
                   [("prometheus", "v2.3.1"); ("grafana", "5.2.1")] []
                   _ _ _)).
  - discriminate.
  - repeat constructor; cbn [In]; intros H;
      repeat destruct H as [H|H]; try discriminate H; exact H.
  - repeat constructor.
Defined.

(** X19.  [asMap] gives a map that is not nil and reads as the tags do:
    the empty map for the nil tags, and for tags with one entry for each
    name a map in which every name has the tag it has in the tags. *)
Theorem tags_asMap_reads_the_same :
  tags_asMap None = Some []
  /\ (forall es : entries,
        NoDup (map fst es) ->
        exists copy,
          tags_asMap (Some es) = Some copy
          /\ forall k, lookup copy k = lookup es k).
Proof.
  split; [reflexivity|].
  intros es Hnd. exists (fold_left put es []). split; [reflexivity|].
  intros k. rewrite lookup_fold_put, lookupLast_NoDup by assumption.
  destruct (lookup es k); reflexivity.
Qed.

Lemma tags_asMap_reads_the_same_witness :
  exists copy,
    tags_asMap (Some [("prometheus", "v2.3.1"); ("grafana", "5.2.1")])
    = Some copy
    /\ forall k,
         lookup copy k
         = lookup [("prometheus", "v2.3.1"); ("grafana", "5.2.1")] k.
Proof.
  refine (proj2 tags_asMap_reads_the_same
            [("prometheus", "v2.3.1"); ("grafana", "5.2.1")] _).
  repeat constructor; cbn [In]; intros H;
    repeat destruct H as [H|H]; try discriminate H; exact H.
Defined.

(** ** An update that fails *)

(** X20.  When the object is there and the server rejects the update, a
    reconcile operation that does not wait returns that error wrapped as
    "updating <kind> object failed", after the Get and the one Update, and
    makes no other attempt; for an ingress the message says "creating
    Ingress object failed". *)
Theorem CreateOrUpdate_update_failure (World : Type) (c : Client World)
  (k : Kind) (f : objOf k -> M World (option error))
  (desired obs ret : objOf k) (w w1 w2 : World) (e : error) :
  CreateOrUpdate c k = Some f ->
  waitsForRollout k = false ->
  k <> KServiceAccount ->
  doGet (clientset c) k (namespaceOf k desired) (Name (metaOf k desired)) w
    = (obs, None, w1) ->
  doUpdate (clientset c) k (namespaceOf k desired) (sentOnUpdate k obs desired)
    w1 = (ret, Some e, w2) ->
  run (f desired) w
  = (Ok (Some (withMessage e
                 ((match k with KIngress => "creating" | _ => "updating" end)
                  ++ " " ++ kindName k ++ " object failed"))),
     mkState w2
       [EvGet k (namespaceOf k desired) (Name (metaOf k desired)) obs None;
        EvUpdate k (namespaceOf k desired) (sentOnUpdate k obs desired) ret
          (Some e)]).
Proof.
  intros Hf Hwait Hsa Hget Hupd.
  rewrite (CreateOrUpdate_run _ c k f desired w Hf Hwait). cbv zeta.
  rewrite Hget. cbn [IsNotFound ReasonForError StatusReason_eqb notNil].
  destruct k; try congruence; rewrite Hupd; reflexivity.
Qed.

Lemma CreateOrUpdate_update_failure_witness :
  run (CreateOrUpdateIngress Mock.client Mock.grafanaIngress)
      Mock.ingressUpdateRejected
  = (Ok (Some (withMessage Mock.conflict "creating Ingress object failed")),
     mkState []
       [EvGet KIngress Mock.monitoring "grafana" Mock.grafanaIngress None;
        EvUpdate KIngress Mock.monitoring Mock.grafanaIngress
          (Mock.zero KIngress) (Some Mock.conflict)]).
Proof.
  refine (CreateOrUpdate_update_failure _ Mock.client KIngress
            (CreateOrUpdateIngress Mock.client) Mock.grafanaIngress
            Mock.grafanaIngress (Mock.zero KIngress)
            Mock.ingressUpdateRejected
            [Mock.ReplyObj KIngress (Mock.zero KIngress) (Some Mock.conflict)]
            [] Mock.conflict eq_refl eq_refl _ eq_refl eq_refl).
  discriminate.
Defined.

(** ** The wait for the schemas of the prometheus-operator *)

(** X13.  [WaitForPrometheusOperatorCRDsReady] returns nil on every server:
    it never returns an error and never panics, whether its poll ended
    because the schemas were established and the three kinds could be
    listed, because a read or a listing failed, because names were in
    conflict or at the deadline. *)
Theorem WaitForPrometheusOperatorCRDsReady_never_fails (World : Type)
  (c : Client World) (kinds : CrdKinds) (group : string)
  (new : CrdKind -> string -> CustomResourceDefinition) (w : World) :
  exists s',
    run (WaitForPrometheusOperatorCRDsReady c kinds group new) w
    = (Ok None, s').
Proof.
  pose proof (WaitForPrometheusOperatorCRDsReady_nil _ c kinds group new w)
    as Hnil.
  destruct (run (WaitForPrometheusOperatorCRDsReady c kinds group new) w)
    as [r s'].
  cbn [fst] in Hnil. subst r. exists s'. reflexivity.
Qed.
